(** * dbt-spark-cde: the CDE API session (cdeapisession.py)

    A shallow embedding of [dbt/adapters/spark_cde/cdeapisession.py]:
    the table parser of the job's console output with its type
    inference, the cursor that drives a job through the CDE job API and
    keeps the parsed rows, and the connection wrapper that prepares the
    SQL text and its bindings; and of the timers of
    [dbt/adapters/spark_cde/adaptertimer.py].

    Conventions of the embedding.
    - A Python [str] is a [string] whose characters are the code points
      0..255, so every character predicate below ([isspace],
      [isnumeric_char], ...) is Python's predicate on that range.
    - A Python [float] is a binary64 number, [pyfloat], and conversions
      round to nearest, ties to even, as CPython does.
    - A pure function that may raise returns [exn + A]; code that
      mutates an object before it raises returns the object as the
      exception left it, next to the exception.
    - The methods of the cursor run in a state and error monad, [M].
      The remote service, the clock and the random generator are a
      record of answers, [environment]; the calls made to the service,
      the sleeps and the errors logged are kept in a trace.
    - The list object [_rows] refers to lives in a heap, so that the
      reference [fetchall] returns and the list [fetchone] pops from
      are one object. *)

From Stdlib Require Import ZArith Ascii String List Bool Lia DecimalString.
From stdpp Require Import base option list gmap.
Import ListNotations.

#[local] Open Scope string_scope.
#[local] Open Scope list_scope.

(** ** Python's [str] on the code points 0..255 *)

Module PyStr.

Definition code (c : ascii) : N := N_of_ascii c.

(** [str.isspace] for one character: the code points with
    bidirectional type WS, B or S, or category Zs. *)
Definition isspace (c : ascii) : bool :=
  let n := code c in
  ((9 <=? n) && (n <=? 13) || (28 <=? n) && (n <=? 32)
   || (n =? 133) || (n =? 160))%N.

(** The characters with a Unicode numeric value: the ten digits,
    superscript two, three and one, and the three vulgar fractions. *)
Definition isnumeric_char (c : ascii) : bool :=
  let n := code c in
  ((48 <=? n) && (n <=? 57) || (n =? 178) || (n =? 179) || (n =? 185)
   || (188 <=? n) && (n <=? 190))%N.

Fixpoint forallb_str (p : ascii -> bool) (s : string) : bool :=
  match s with
  | EmptyString => true
  | String c s' => p c && forallb_str p s'
  end.

(** [x.isnumeric()]: at least one character, and all of them numeric. *)
Definition isnumeric (x : string) : bool :=
  match x with
  | EmptyString => false
  | _ => forallb_str isnumeric_char x
  end.

Fixpoint lstrip (s : string) : string :=
  match s with
  | EmptyString => EmptyString
  | String c s' => if isspace c then lstrip s' else s
  end.

Fixpoint rstrip (s : string) : string :=
  match s with
  | EmptyString => EmptyString
  | String c s' =>
      match rstrip s' with
      | EmptyString => if isspace c then EmptyString else String c EmptyString
      | r => String c r
      end
  end.

(** [s.strip()] *)
Definition strip (s : string) : string := rstrip (lstrip s).

(** [s.startswith(p)] *)
Fixpoint startswith (p s : string) : bool :=
  match p, s with
  | EmptyString, _ => true
  | String a p', String b s' => Ascii.eqb a b && startswith p' s'
  | String _ _, EmptyString => false
  end.

(** [s.endswith(c)] for a one-character suffix. *)
Fixpoint endswith_char (c : ascii) (s : string) : bool :=
  match s with
  | EmptyString => false
  | String a EmptyString => Ascii.eqb a c
  | String _ s' => endswith_char c s'
  end.

(** [s[:-1]] *)
Fixpoint drop_last (s : string) : string :=
  match s with
  | EmptyString => EmptyString
  | String _ EmptyString => EmptyString
  | String a s' => String a (drop_last s')
  end.

(** [s[:-3]] *)
Definition drop_last3 (s : string) : string :=
  drop_last (drop_last (drop_last s)).

(** [s.split(sep)] for a one-character separator: never empty. *)
Fixpoint split (sep : ascii) (s : string) : list string :=
  match s with
  | EmptyString => [EmptyString]
  | String c s' =>
      if Ascii.eqb c sep then EmptyString :: split sep s'
      else match split sep s' with
           | h :: t => String c h :: t
           | [] => [String c EmptyString]
           end
  end.

(** [s == t] *)
Definition eqb (s t : string) : bool := String.eqb s t.

(** [c in s] for one character. *)
Fixpoint contains (c : ascii) (s : string) : bool :=
  match s with
  | EmptyString => false
  | String a s' => Ascii.eqb a c || contains c s'
  end.

(** [str.isprintable] for one character: all but the control
    characters, the no-break space and the soft hyphen. *)
Definition isprintable (c : ascii) : bool :=
  let n := code c in
  ((32 <=? n) && (n <=? 126) || (161 <=? n) && negb (n =? 173))%N.

Definition hex_digit (n : N) : ascii :=
  if (n <? 10)%N then ascii_of_N (48 + n) else ascii_of_N (87 + n).

Definition backslash : ascii := ascii_of_N 92.
Definition double_quote : ascii := ascii_of_N 34.

(** One character of [repr(s)], [quote] being the quote chosen. *)
Definition repr_char (quote c : ascii) : string :=
  let n := code c in
  if Ascii.eqb c quote || Ascii.eqb c backslash
  then String backslash (String c EmptyString)
  else if (n =? 9)%N then String backslash "t"
  else if (n =? 10)%N then String backslash "n"
  else if (n =? 13)%N then String backslash "r"
  else if isprintable c then String c EmptyString
  else String backslash
         (String "x" (String (hex_digit (n / 16))
                        (String (hex_digit (n mod 16)) EmptyString))).

Fixpoint repr_chars (quote : ascii) (s : string) : string :=
  match s with
  | EmptyString => EmptyString
  | String c s' => (repr_char quote c ++ repr_chars quote s')%string
  end.

(** [repr(s)]: in single quotes, unless [s] has one and no double
    quote. *)
Definition repr (s : string) : string :=
  let quote :=
    if contains "'" s && negb (contains double_quote s)
    then double_quote else "'"%char in
  (String quote (repr_chars quote s) ++ String quote EmptyString)%string.

(** [c.lower()] for one character: the capital letters of the range. *)
Definition lower_char (c : ascii) : ascii :=
  let n := code c in
  if ((65 <=? n) && (n <=? 90)
      || (192 <=? n) && (n <=? 222) && negb (n =? 215))%N
  then ascii_of_N (n + 32) else c.

(** [s.lower()] *)
Fixpoint lower (s : string) : string :=
  match s with
  | EmptyString => EmptyString
  | String c s' => String (lower_char c) (lower s')
  end.

End PyStr.

(** ** Python's [float]: binary64 *)

Module PyFloat.

(** A binary64 number: a zero, [m * 2^e] with [m < 2^53] and
    [-1074 <= e <= 971] ([2^52 <= m] unless [e = -1074]), an infinity
    or a NaN. *)
Inductive pyfloat : Type :=
| FZero (neg : bool)
| FFinite (neg : bool) (m : positive) (e : Z)
| FInf (neg : bool)
| FNaN.

Definition pyfloat_eqb (a b : pyfloat) : bool :=
  match a, b with
  | FZero s, FZero t => Bool.eqb s t
  | FFinite s m e, FFinite t n f => Bool.eqb s t && Pos.eqb m n && Z.eqb e f
  | FInf s, FInf t => Bool.eqb s t
  | FNaN, FNaN => true
  | _, _ => false
  end.

(** [n / d * 2^(-e)] as a fraction, for [0 < d]. *)
Definition scaled (n d e : Z) : Z * Z :=
  if (e <? 0)%Z then (n * 2 ^ (- e), d)%Z else (n, d * 2 ^ e)%Z.

(** The binary64 number nearest to [n / d] ([0 <= n], [0 < d]), ties
    to even; the magnitude [2^1024] and above is reported as [None]. *)
Definition round_fraction (neg : bool) (n d : Z) : option pyfloat :=
  if (n =? 0)%Z then Some (FZero neg) else
  let k := (Z.log2 n - Z.log2 d)%Z in
  let e0 := (k - 52)%Z in
  let e1 := let '(a, b) := scaled n d e0 in
            if (a / b <? 2 ^ 52)%Z then (e0 - 1)%Z else e0 in
  let e := Z.max e1 (-1074) in
  let '(a, b) := scaled n d e in
  let q := (a / b)%Z in
  let r := (a mod b)%Z in
  let q' := if (2 * r <? b)%Z then q
            else if (b <? 2 * r)%Z then (q + 1)%Z
            else if Z.even q then q else (q + 1)%Z in
  let '(m, e') := if (q' =? 2 ^ 53)%Z then (2 ^ 52, e + 1)%Z else (q', e) in
  if (m =? 0)%Z then Some (FZero neg)
  else if (971 <? e')%Z then None
  else Some (FFinite neg (Z.to_pos m) e').

(** [float(i)] for an [int]: too large a magnitude raises
    [OverflowError], reported as [None]. *)
Definition of_int (i : Z) : option pyfloat :=
  round_fraction (i <? 0)%Z (Z.abs i) 1.

(** The value [m * 10^e] of a decimal literal; a magnitude too large
    for binary64 is an infinity. *)
Definition of_decimal (neg : bool) (m : Z) (e : Z) : pyfloat :=
  let r := if (e <? 0)%Z then round_fraction neg m (10 ^ (- e))
           else round_fraction neg (m * 10 ^ e) 1 in
  match r with
  | Some f => f
  | None => FInf neg
  end.

Definition one : pyfloat := FFinite false (2 ^ 52) (-52).
Definition zero : pyfloat := FZero false.

(** *** [float(s)] for a string *)

Definition is_digit (c : ascii) : bool :=
  let n := N_of_ascii c in ((48 <=? n) && (n <=? 57))%N.

Definition digit_val (c : ascii) : Z := Z.of_N (N_of_ascii c) - 48.

Definition lower (c : ascii) : ascii :=
  let n := N_of_ascii c in
  if ((65 <=? n) && (n <=? 90))%N then ascii_of_N (n + 32) else c.

(** digit (["_"] digit)* read from the front of [l]: the digits read
    and the rest. *)
Fixpoint scan_digits (l : list ascii) : list ascii * list ascii :=
  match l with
  | c :: l' =>
      if is_digit c then
        let '(ds, r) := scan_digits l' in (c :: ds, r)
      else if Ascii.eqb c "_" then
        match l' with
        | d :: l'' =>
            if is_digit d then
              let '(ds, r) := scan_digits l'' in (d :: ds, r)
            else ([], l)
        | [] => ([], l)
        end
      else ([], l)
  | [] => ([], [])
  end.

(** A digitpart starts with a digit. *)
Definition scan_digitpart (l : list ascii) : list ascii * list ascii :=
  match l with
  | c :: _ => if is_digit c then scan_digits l else ([], l)
  | [] => ([], [])
  end.

Definition digits_value (ds : list ascii) : Z :=
  fold_left (fun acc c => (10 * acc + digit_val c)%Z) ds 0%Z.

Definition scan_sign (l : list ascii) : bool * list ascii :=
  match l with
  | c :: l' =>
      if Ascii.eqb c "-" then (true, l')
      else if Ascii.eqb c "+" then (false, l')
      else (false, l)
  | [] => (false, [])
  end.

(** The exponent part, when there is one: [None] is a malformed one. *)
Definition scan_exponent (l : list ascii) : option Z :=
  match l with
  | [] => Some 0%Z
  | c :: l' =>
      if Ascii.eqb (lower c) "e" then
        let '(neg, l'') := scan_sign l' in
        match scan_digitpart l'' with
        | ([], _) => None
        | (ds, []) => Some (if neg then - digits_value ds else digits_value ds)%Z
        | (_, _ :: _) => None
        end
      else None
  end.

(** number ::= [digitpart] "." digitpart | digitpart ["."], then an
    optional exponent, up to the end of the text. *)
Definition scan_number (neg : bool) (l : list ascii) : option pyfloat :=
  let '(ip, r) := scan_digitpart l in
  let '(fp, r') :=
    match r with
    | c :: r1 =>
        if Ascii.eqb c "." then
          match scan_digitpart r1 with
          | ([], _) => ([], r1)
          | (fp, r2) => (fp, r2)
          end
        else ([], r)
    | [] => ([], [])
    end in
  match ip, fp with
  | [], [] => None
  | _, _ =>
      match scan_exponent r' with
      | Some ex =>
          Some (of_decimal neg (digits_value (ip ++ fp))
                  (ex - Z.of_nat (length fp)))
      | None => None
      end
  end.

(** The characters [float] skips at both ends of the text: the ASCII
    whitespace, and the whitespace above the ASCII range, which it
    turns into spaces first.  The separators U+001C to U+001F, which
    [str.strip] removes, are not among them. *)
Definition is_space (c : ascii) : bool :=
  let n := N_of_ascii c in
  ((9 <=? n) && (n <=? 13) || (n =? 32) || (n =? 133) || (n =? 160))%N.

Fixpoint skip_space (l : list ascii) : list ascii :=
  match l with
  | c :: l' => if is_space c then skip_space l' else l
  | [] => []
  end.

Definition trim (l : list ascii) : list ascii :=
  rev (skip_space (rev (skip_space l))).

(** [float(s)]: [None] is [ValueError]. *)
Definition of_str (s : string) : option pyfloat :=
  let body := trim (list_ascii_of_string s) in
  let '(neg, l) := scan_sign body in
  let word := string_of_list_ascii (map lower l) in
  if String.eqb word "inf" || String.eqb word "infinity" then Some (FInf neg)
  else if String.eqb word "nan" then Some FNaN
  else scan_number neg l.

End PyFloat.

(** ** Exceptions *)

Inductive exn : Type :=
| ValueError (msg : string)
| IndexError (msg : string)
| OverflowError (msg : string)
| AttributeError (msg : string)
| TypeError (msg : string)
| RequestException (msg : string)        (* raised by [requests] *)
| DatabaseException (msg : string)       (* [dbt.exceptions.raise_database_error] *)
| RPCTimeoutException (timeout : Z).     (* [dbt.exceptions.RPCTimeoutException] *)

(** ** Constants of the module *)

Definition DEFAULT_POLL_WAIT : Z := 30.
Definition DEFAULT_LOG_WAIT : Z := 40.
Definition DEFAULT_CDE_JOB_TIMEOUT : Z := 900.

(** ** Schema and rows *)

(** The three values the ["type"] key of a schema field takes. *)
Inductive coltype : Type := number | boolean | string_t.

Definition coltype_name (t : coltype) : string :=
  match t with
  | number => "number"
  | boolean => "boolean"
  | string_t => "string"
  end.

(** A schema field, the dict [{"name": .., "type": .., "nullable": ..}]. *)
Record field : Type := Field { name : string; type : coltype; nullable : bool }.

(** A cell of a row: text as parsed, or what type conversion made of it. *)
Inductive value : Type :=
| VStr (s : string)
| VFloat (f : PyFloat.pyfloat)
| VBool (b : bool).

Definition row : Type := list value.

(** ** Python values handed over as bindings *)

(** [decimal.Decimal] *)
Inductive decimal : Type :=
| DecFinite (neg : bool) (coefficient : N) (exponent : Z)
| DecInf (neg : bool)
| DecNaN
| DecSNaN.

(** The values a binding can be. A [datetime] is kept as the text its
    [strftime('%Y-%m-%d %H:%M:%S.%f')] gives, any other object as the
    text [format] prints for it. *)
Inductive pyobj : Type :=
| PyBool (b : bool)
| PyInt (i : Z)
| PyFloat (f : PyFloat.pyfloat)
| PyDecimal (d : decimal)
| PyDatetime (stamp : string)
| PyStr (s : string)
| PyNone
| PyOther (printed : string).

Inductive pyclass : Type :=
| cls_bool | cls_int | cls_float | cls_Decimal | cls_datetime
| cls_str | cls_NoneType | cls_object.

Definition pyclass_eqb (c d : pyclass) : bool :=
  match c, d with
  | cls_bool, cls_bool | cls_int, cls_int | cls_float, cls_float
  | cls_Decimal, cls_Decimal | cls_datetime, cls_datetime
  | cls_str, cls_str | cls_NoneType, cls_NoneType
  | cls_object, cls_object => true
  | _, _ => false
  end.

Definition type_of (v : pyobj) : pyclass :=
  match v with
  | PyBool _ => cls_bool
  | PyInt _ => cls_int
  | PyFloat _ => cls_float
  | PyDecimal _ => cls_Decimal
  | PyDatetime _ => cls_datetime
  | PyStr _ => cls_str
  | PyNone => cls_NoneType
  | PyOther _ => cls_object
  end.

(** [bool] is a subclass of [int]; every class is one of [object]. *)
Definition issubclass (c d : pyclass) : bool :=
  pyclass_eqb c d
  || match c, d with
     | cls_bool, cls_int => true
     | _, cls_object => true
     | _, _ => false
     end.

Definition isinstance (v : pyobj) (classes : list pyclass) : bool :=
  existsb (issubclass (type_of v)) classes.

(** [dbt.utils.DECIMALS], as dbt defines it where [cdecimal] is not
    installed. *)
Definition DECIMALS : list pyclass := [cls_Decimal].

Definition NUMBERS : list pyclass := DECIMALS ++ [cls_int; cls_float].

(** [float(value)] *)
Definition float (v : pyobj) : exn + PyFloat.pyfloat :=
  match v with
  | PyBool b => inr (if b then PyFloat.one else PyFloat.zero)
  | PyInt i =>
      match PyFloat.of_int i with
      | Some f => inr f
      | None => inl (OverflowError "int too large to convert to float")
      end
  | PyFloat f => inr f
  | PyDecimal (DecFinite neg c e) => inr (PyFloat.of_decimal neg (Z.of_N c) e)
  | PyDecimal (DecInf neg) => inr (PyFloat.FInf neg)
  | PyDecimal DecNaN => inr PyFloat.FNaN
  | PyDecimal DecSNaN => inl (ValueError "cannot convert signaling NaN to float")
  | PyStr s =>
      match PyFloat.of_str s with
      | Some f => inr f
      | None => inl (ValueError ("could not convert string to float: " ++ PyStr.repr s)%string)
      end
  | _ => inl (TypeError "float() argument must be a string or a real number")
  end.

(** [repr(i)] and [str(i)] for an [int] *)
Definition repr_int (i : Z) : string := NilZero.string_of_int (Z.to_int i).

Fixpoint zeros (n : nat) : string :=
  match n with
  | O => EmptyString
  | S n' => String "0" (zeros n')
  end.

(** [s.zfill(width)] for the text of a number that is not negative *)
Definition zfill (width : nat) (s : string) : string :=
  (zeros (width - String.length s) ++ s)%string.

(** ** The world of a cursor *)

(** The payload of [run_job(..).json()]. *)
Record job : Type := Job { id : Z }.

(** The payload of [get_job_run_status(..).json()]: its ["status"] and
    the text [repr] gives for the whole payload. *)
Record job_status : Type := JobStatus { status : string; payload_repr : string }.

(** What the cursor does to the outside, in order. *)
Inductive event : Type :=
| EvCreateResource (resource_name resource_type : string)
| EvUploadResource (resource_name file_name content : string)
| EvSubmitJob (job_name resource_name sql_file py_file : string)
| EvRunJob (job_name : string)
| EvGetJobRunStatus (job_id : Z)
| EvGetLogs (job_id : Z) (log_type : string)
| EvDeleteJob (job_name : string)
| EvDeleteResource (resource_name : string)
| EvSleep (seconds : Z)
| EvLogError (msg : string).

(** What the outside answers. A call to the service returns a response,
    of which the HTTP status code or the JSON payload is kept, or fails
    with a message: [requests] raised, or the payload was not the JSON
    expected. The clock, the random generator and Python's [%] on a
    string are answers of the outside too. *)
Record environment : Type := Environment {
  time_ms : nat -> Z;                       (* [round(time.time() * 1000)], reading by reading *)
  randint : Z;                              (* [random.randint(0, 1000)] *)
  percent : string -> list pyobj -> string + string;
  on_create_resource : string -> string -> string + Z;
  on_upload_resource : string -> string -> string + Z;
  on_submit_job : string -> string + Z;
  on_run_job : string -> string + job;
  on_get_job_run_status : nat -> job -> string + job_status;   (* poll by poll *)
  on_get_logs : job -> string -> string + string;              (* [res.text] *)
  on_delete_job : string -> string + Z;
  on_delete_resource : string -> string + Z
}.

(** An attribute of an object: absent, [None], or a value. *)
Inductive attr (A : Type) : Type :=
| Absent
| IsNone
| Is (a : A).
Arguments Absent {A}.
Arguments IsNone {A}.
Arguments Is {A} a.

Definition loc : Type := positive.

(** The cursor object: [_rows] refers to a list object of the heap. *)
Record cursor : Type := Cursor {
  _schema : attr (list field);
  _rows : attr loc
}.

Record state : Type := State {
  heap : gmap loc (list row);     (* the list objects *)
  next_loc : loc;                 (* the next fresh reference *)
  self : cursor;
  trace : list event;             (* oldest first *)
  polls : nat;                    (* status requests made *)
  clock_reads : nat               (* readings of the clock made *)
}.

(** ** The monad of the cursor's methods *)

Inductive outcome (A : Type) : Type :=
| Returned (a : A)
| Raised (e : exn)
| OutOfFuel.
Arguments Returned {A} a.
Arguments Raised {A} e.
Arguments OutOfFuel {A}.

Definition M (A : Type) : Type := state -> outcome A * state.

Definition ret {A} (a : A) : M A := fun s => (Returned a, s).

Definition raise {A} (e : exn) : M A := fun s => (Raised e, s).

Definition bind {A B} (c : M A) (k : A -> M B) : M B :=
  fun s =>
    match c s with
    | (Returned a, s') => k a s'
    | (Raised e, s') => (Raised e, s')
    | (OutOfFuel, s') => (OutOfFuel, s')
    end.

Notation "x <-- c ;; k" := (bind c (fun x => k))
  (at level 100, c at next level, right associativity).
Notation "c ;;; k" := (bind c (fun _ => k))
  (at level 100, right associativity).

(** The state after one more event. *)
Definition log (ev : event) (s : state) : state :=
  State (heap s) (next_loc s) (self s) (trace s ++ [ev])
        (polls s) (clock_reads s).

Definition emit (ev : event) : M unit := fun s => (Returned tt, log ev s).

(** A call of [requests]: logged, then answered. *)
Definition call {A} (ev : event) (answer : string + A) : M A :=
  emit ev ;;;
  match answer with
  | inl msg => raise (RequestException msg)
  | inr a => ret a
  end.

Definition sleep (seconds : Z) : M unit := emit (EvSleep seconds).

Definition log_error (msg : string) : M unit := emit (EvLogError msg).

Definition set_self (c : cursor) : M unit :=
  fun s => (Returned tt,
            State (heap s) (next_loc s) c (trace s) (polls s) (clock_reads s)).

(** [self._rows = v] and [self._schema = v] *)
Definition set_rows (v : attr loc) : M unit :=
  fun s => set_self (Cursor (_schema (self s)) v) s.

Definition set_schema (v : attr (list field)) : M unit :=
  fun s => set_self (Cursor v (_rows (self s))) s.

(** A new list object. *)
Definition alloc (rows : list row) : M loc :=
  fun s => (Returned (next_loc s),
            State (<[next_loc s := rows]> (heap s)) (Pos.succ (next_loc s))
                  (self s) (trace s) (polls s) (clock_reads s)).

(** [round(time.time() * 1000)] *)
Definition read_clock (env : environment) : M Z :=
  fun s => (Returned (time_ms env (clock_reads s)),
            State (heap s) (next_loc s) (self s) (trace s)
                  (polls s) (S (clock_reads s))).

Definition count_poll : M nat :=
  fun s => (Returned (polls s),
            State (heap s) (next_loc s) (self s) (trace s)
                  (S (polls s)) (clock_reads s)).

Definition nl : string := String (ascii_of_nat 10) EmptyString.

(** ** CDEApiHelper *)

Record resource : Type := Resource {
  file_name : string;
  file_obj : string;         (* the text of the [io.StringIO] *)
  job_name_of : string       (* the key ["job_name"] *)
}.

Module CDEApiHelper.

Definition generate_sql_resource (env : environment) (job_name sql : string)
  : M resource :=
  t <-- read_clock env ;;
  ret (Resource (job_name ++ "-" ++ repr_int t ++ ".sql")%string sql job_name).

Definition get_python_wrapper_resource (env : environment)
  (sql_resource : resource) : M resource :=
  t <-- read_clock env ;;
  let py_file :=
    ("import pyspark" ++ nl ++ "from pyspark.sql import SparkSession" ++ nl
     ++ "spark=SparkSession.builder.appName('" ++ job_name_of sql_resource
     ++ "').enableHiveSupport().getOrCreate()" ++ nl)%string in
  let py_file :=
    (py_file ++ "sql=open('/app/mount/" ++ file_name sql_resource
     ++ "', 'r').read()" ++ nl ++ "df = spark.sql(sql)" ++ nl
     ++ "df.show(n=1000000,truncate=False)" ++ nl)%string in
  ret (Resource (job_name_of sql_resource ++ "-" ++ repr_int t ++ ".py")%string
         py_file (job_name_of sql_resource)).

End CDEApiHelper.

(** ** CDEApiConnection *)

Module CDEApiConnection.

(** [JOB_STATUS] *)
Definition JOB_STATUS_starting : string := "starting".
Definition JOB_STATUS_running : string := "running".
Definition JOB_STATUS_succeeded : string := "succeeded".
Definition JOB_STATUS_failed : string := "failed".

(** *** The calls to the service *)

Definition create_resource (env : environment)
  (resource_name resource_type : string) : M Z :=
  call (EvCreateResource resource_name resource_type)
       (on_create_resource env resource_name resource_type).

Definition delete_resource (env : environment) (resource_name : string) : M Z :=
  call (EvDeleteResource resource_name) (on_delete_resource env resource_name).

Definition upload_resource (env : environment) (resource_name : string)
  (file_resource : resource) : M Z :=
  call (EvUploadResource resource_name (file_name file_resource)
          (file_obj file_resource))
       (on_upload_resource env resource_name (file_name file_resource)).

Definition submit_job (env : environment) (job_name resource_name : string)
  (sql_resource py_resource : resource) : M Z :=
  call (EvSubmitJob job_name resource_name (file_name sql_resource)
          (file_name py_resource))
       (on_submit_job env job_name).

(** [run_job(job_name).json()] *)
Definition run_job (env : environment) (job_name : string) : M job :=
  call (EvRunJob job_name) (on_run_job env job_name).

(** [get_job_run_status(job).json()] *)
Definition get_job_run_status (env : environment) (j : job) : M job_status :=
  n <-- count_poll ;;
  call (EvGetJobRunStatus (id j)) (on_get_job_run_status env n j).

Definition delete_job (env : environment) (job_name : string) : M Z :=
  call (EvDeleteJob job_name) (on_delete_job env job_name).

(** *** extract_datatypes *)

Definition is_number (x : string) : bool := PyStr.isnumeric x.

Definition is_logical (x : string) : bool :=
  PyStr.eqb x "true" || PyStr.eqb x "false"
  || PyStr.eqb x "True" || PyStr.eqb x "False".

Definition is_true (x : string) : bool :=
  PyStr.eqb x "true" || PyStr.eqb x "True".

Definition convert_number (x : string) : exn + value :=
  match PyFloat.of_str x with
  | Some f => inr (VFloat f)
  | None => inl (ValueError ("could not convert string to float: " ++ PyStr.repr x)%string)
  end.

Definition convert_logical (x : string) : exn + value :=
  inr (VBool (is_true x)).

Definition convert_map (col_type : coltype) : string -> exn + value :=
  match col_type with
  | number => convert_number
  | boolean => convert_logical
  | string_t => fun x => inr (VStr x)
  end.

(** [convert_type(row, col_types)] converts the row in place, cell by
    cell: the result is the row as the call leaves it and the
    exception that stopped it, if any. The cells from the failing one
    on are still text. *)
Fixpoint convert_type (row : list string) (col_types : list coltype)
  : list value * option exn :=
  match row with
  | [] => ([], None)
  | col :: row' =>
      match col_types with
      | [] => (map VStr row, Some (IndexError "list index out of range"))
      | col_type :: col_types' =>
          match convert_map col_type col with
          | inl e => (map VStr row, Some e)
          | inr v =>
              let '(done, e) := convert_type row' col_types' in
              (v :: done, e)
          end
      end
  end.

Definition get_type (col_data : string) : coltype :=
  if is_number col_data then number
  else if is_logical col_data then boolean
  else string_t.

(** [for row in rows: convert_type(row, col_types)]: the rows as the
    loop leaves them; the rows after the failing one are untouched. *)
Fixpoint convert_rows (rows : list (list string)) (col_types : list coltype)
  : list row * option exn :=
  match rows with
  | [] => ([], None)
  | r :: rows' =>
      match convert_type r col_types with
      | (r', Some e) => (r' :: map (map VStr) rows', Some e)
      | (r', None) =>
          let '(done, e) := convert_rows rows' col_types in
          (r' :: done, e)
      end
  end.

(** [schema[idx]["type"] = col_types[idx]] for [idx] below
    [len(col_types)]. *)
Fixpoint record_types (schema : list field) (col_types : list coltype)
  {struct col_types} : list field * option exn :=
  match col_types with
  | [] => (schema, None)
  | t :: col_types' =>
      match schema with
      | [] => ([], Some (IndexError "list index out of range"))
      | f :: schema' =>
          let '(done, e) := record_types schema' col_types' in
          (Field (name f) t (nullable f) :: done, e)
      end
  end.

(** [extract_datatypes(schema, rows)]: the schema and the rows as the
    call leaves them, and the exception it raised, if any. *)
Definition extract_datatypes (schema : list field) (rows : list (list string))
  : list field * list row * option exn :=
  match rows with
  | [] => (schema, [], Some (IndexError "list index out of range"))
  | first_row :: _ =>
      if negb (length schema =? length first_row)%nat
      then (schema, map (map VStr) rows, None)
      else
        let col_types := map get_type first_row in
        match convert_rows rows col_types with
        | (rows', Some e) => (schema, rows', Some e)
        | (rows', None) =>
            let '(schema', e) := record_types schema col_types in
            (schema', rows', e)
        end
  end.

(** *** parse_query_result *)

Definition is_separator (line : string) : bool :=
  PyStr.startswith "+-" (PyStr.strip line).

(** The first loop: [line_number] when it ends. *)
Fixpoint scan_separator (res_lines : list string) (line_number : nat) : nat :=
  match res_lines with
  | [] => line_number
  | line :: rest =>
      if is_separator line then S line_number
      else scan_separator rest (S line_number)
  end.

Definition nonblank (x : string) : bool :=
  negb (PyStr.eqb (PyStr.strip x) "").

(** [filter(lambda x: x.strip() != "", line.split("|"))], each trimmed. *)
Definition cells (line : string) : list string :=
  map PyStr.strip (List.filter nonblank (PyStr.split "|" line)).

(** The second loop, over [res_lines[line_number + 2:]]. *)
Fixpoint data_rows (lines : list string) : list (list string) :=
  match lines with
  | [] => []
  | data_line :: rest =>
      let data_line := PyStr.strip data_line in
      if PyStr.startswith "+-" data_line then []
      else cells data_line :: data_rows rest
  end.

Definition header (line : string) : list field :=
  map (fun x => Field x string_t false) (cells line).

(** [parse_query_result(res_lines)]: the exception of
    [extract_datatypes] is caught and logged, and [schema] and [rows]
    are returned as they stand. The third component is what was
    logged. *)
Definition parse_query_result (res_lines : list string)
  : list field * list row * option exn :=
  let line_number := scan_separator res_lines 0 in
  if (line_number =? length res_lines)%nat then ([], [], None)
  else
    match res_lines !! line_number with
    | None => ([], [], None)   (* not reached: [line_number < len(res_lines)] *)
    | Some header_line =>
        let schema := header header_line in
        if (length schema =? 0)%nat then (schema, [], None)
        else
          let rows := data_rows (drop (line_number + 2) res_lines) in
          if (0 <? length rows)%nat
          then extract_datatypes schema rows
          else (schema, [], None)
    end.

(** *** get_job_output *)

(** [get_job_output(job_name, job)] with [log_type="stdout"]: the
    schema, the rows and the text of the response. *)
Definition get_job_output (env : environment) (job_name : string) (j : job)
  : M (list field * list row * string) :=
  sleep DEFAULT_LOG_WAIT ;;;
  text <-- call (EvGetLogs (id j) "stdout") (on_get_logs env j "stdout") ;;
  let res_lines := map PyStr.strip (PyStr.split (ascii_of_nat 10) text) in
  match CDEApiConnection.parse_query_result res_lines with
  | (schema, rows, Some _) =>
      log_error "traceback" ;;; ret (schema, rows, text)
  | (schema, rows, None) => ret (schema, rows, text)
  end.

End CDEApiConnection.

(** ** CDEApiCursor *)

Module CDEApiCursor.

(** One tuple of [description]:
    [(name, type, None, None, None, None, nullable)]. *)
Definition descriptor : Type :=
  string * string * pyobj * pyobj * pyobj * pyobj * bool.

Definition descriptor_of (f : field) : descriptor :=
  (name f, coltype_name (type f), PyNone, PyNone, PyNone, PyNone, nullable f).

(** [description] *)
Definition description : M (list descriptor) :=
  fun s =>
    match _schema (self s) with
    | Absent => (Raised (AttributeError "_schema"), s)
    | IsNone => (Returned [], s)
    | Is schema => (Returned (map descriptor_of schema), s)
    end.

Definition close : M unit := set_rows IsNone.

Definition generate_job_name (env : environment) : M string :=
  t <-- read_clock env ;;
  ret ("dbt-job-" ++ repr_int t ++ "-" ++ zfill 8 (repr_int (randint env)))%string.

(** The number of iterations the waiting loop can make: the ceiling of
    [DEFAULT_CDE_JOB_TIMEOUT / DEFAULT_POLL_WAIT]. *)
Definition poll_fuel : nat :=
  Z.to_nat ((DEFAULT_CDE_JOB_TIMEOUT + DEFAULT_POLL_WAIT - 1) / DEFAULT_POLL_WAIT).

(** The [while] loop of [execute]. *)
Fixpoint wait_loop (fuel : nat) (env : environment) (job_name : string)
  (j : job) (total_time_spent_in_get_job_status : Z) (js : job_status)
  : M unit :=
  if PyStr.eqb (status js) CDEApiConnection.JOB_STATUS_succeeded then ret tt
  else
    match fuel with
    | O => fun s => (OutOfFuel, s)
    | S fuel' =>
        let total := (total_time_spent_in_get_job_status + DEFAULT_POLL_WAIT)%Z in
        sleep DEFAULT_POLL_WAIT ;;;
        js <-- CDEApiConnection.get_job_run_status env j ;;
        (if PyStr.eqb (status js) CDEApiConnection.JOB_STATUS_failed then
           out <-- CDEApiConnection.get_job_output env job_name j ;;
           log_error (job_name ++ ": Failed job details: " ++ snd out)%string ;;;
           raise (DatabaseException
                    ("Error while executing query: " ++ payload_repr js)%string)
         else ret tt) ;;;
        (if (DEFAULT_CDE_JOB_TIMEOUT <=? total)%Z then
           log_error (job_name ++ ": Failed getting job status in: "
                      ++ repr_int DEFAULT_CDE_JOB_TIMEOUT ++ " seconds")%string ;;;
           raise (RPCTimeoutException DEFAULT_CDE_JOB_TIMEOUT)
         else ret tt) ;;;
        wait_loop fuel' env job_name j total js
    end.

(** [sql % parameters] *)
Definition format_sql (env : environment) (sql : string) (parameters : list pyobj)
  : M string :=
  match percent env sql parameters with
  | inl msg => raise (TypeError msg)
  | inr sql' => ret sql'
  end.

(** [execute(sql, *parameters)] *)
Definition execute (env : environment) (sql : string) (parameters : list pyobj)
  : M unit :=
  sql <-- (if (0 <? length parameters)%nat
           then format_sql env sql parameters else ret sql) ;;
  (* 0. generate a job name *)
  job_name <-- generate_job_name env ;;
  (* 1. create resource *)
  CDEApiConnection.create_resource env job_name "files" ;;;
  (* 2. upload the resources *)
  sql_resource <-- CDEApiHelper.generate_sql_resource env job_name sql ;;
  py_resource <-- CDEApiHelper.get_python_wrapper_resource env sql_resource ;;
  CDEApiConnection.upload_resource env job_name sql_resource ;;;
  CDEApiConnection.upload_resource env job_name py_resource ;;;
  (* 3. submit the job *)
  CDEApiConnection.submit_job env job_name job_name sql_resource py_resource ;;;
  (* 4. run the job *)
  j <-- CDEApiConnection.run_job env job_name ;;
  (* 5. wait for the result *)
  js <-- CDEApiConnection.get_job_run_status env j ;;
  wait_loop poll_fuel env job_name j 0 js ;;;
  (* 6. fetch and populate the results *)
  out <-- CDEApiConnection.get_job_output env job_name j ;;
  l <-- alloc (snd (fst out)) ;;
  set_rows (Is l) ;;;
  set_schema (Is (fst (fst out))) ;;;
  (* 7. cleanup resources *)
  CDEApiConnection.delete_job env job_name ;;;
  CDEApiConnection.delete_resource env job_name ;;;
  ret tt.

(** [fetchall()]: the list object itself, or [None]. *)
Definition fetchall : M (option loc) :=
  fun s =>
    match _rows (self s) with
    | Absent => (Raised (AttributeError "_rows"), s)
    | IsNone => (Returned None, s)
    | Is l => (Returned (Some l), s)
    end.

(** [fetchone()]: [self._rows.pop(0)], or [None]. *)
Definition fetchone : M (option row) :=
  fun s =>
    match _rows (self s) with
    | Absent => (Raised (AttributeError "_rows"), s)
    | IsNone => (Returned None, s)
    | Is l =>
        match heap s !! l with
        | Some (r :: rest) =>
            (Returned (Some r),
             State (<[l := rest]> (heap s)) (next_loc s) (self s)
                   (trace s) (polls s) (clock_reads s))
        | Some [] => (Returned None, s)
        | None => (Raised (TypeError "no such list object"), s)
        end
    end.

End CDEApiCursor.

(** ** CDEApiSessionConnectionWrapper *)

Module CDEApiSessionConnectionWrapper.

Definition quoted (s : string) : string := ("'" ++ s ++ "'")%string.

(** [_fix_binding(value)] *)
Definition _fix_binding (value : pyobj) : exn + pyobj :=
  let as_number :=
    match float value with
    | inl e => inl e
    | inr f => inr (PyFloat f)
    end in
  if isinstance value NUMBERS then as_number
  else
    match value with
    | PyDatetime stamp => inr (PyStr (quoted (PyStr.drop_last3 stamp)))
    | PyStr s => inr (PyStr (quoted s))
    | PyNone => inr (PyStr (quoted "None"))
    | PyOther printed => inr (PyStr (quoted printed))
    | PyBool _ | PyInt _ | PyFloat _ | PyDecimal _ =>
        as_number             (* a number: the first branch takes it *)
    end.

(** [[self._fix_binding(binding) for binding in bindings]] *)
Fixpoint fix_bindings (bindings : list pyobj) : exn + list pyobj :=
  match bindings with
  | [] => inr []
  | binding :: rest =>
      match _fix_binding binding with
      | inl e => inl e
      | inr b =>
          match fix_bindings rest with
          | inl e => inl e
          | inr bs => inr (b :: bs)
          end
      end
  end.

Section execute.

(** The [execute] method of [self._cursor]. *)
Variable cursor_execute : string -> list pyobj -> M unit.

(** [execute(sql, bindings=None)] *)
Definition execute (sql : string) (bindings : option (list pyobj)) : M unit :=
  let sql :=
    if PyStr.endswith_char ";" (PyStr.strip sql)
    then PyStr.drop_last (PyStr.strip sql)
    else sql in
  match bindings with
  | None => cursor_execute sql []
  | Some bindings =>
      match fix_bindings bindings with
      | inl e => raise e
      | inr bindings => cursor_execute sql bindings
      end
  end.

End execute.

End CDEApiSessionConnectionWrapper.

(** ** AdapterTimer (adaptertimer.py)

    The timers are the dicts of the class attribute [_timers], one list
    for all instances; here the list is passed in and handed back.  A
    timer is found by its name alone, so a record per dict shows every
    assignment the methods make.  [time.time()] is an argument, [now];
    the numbers it returns, their subtraction and the [0] of a new
    timer are left open. *)

Module AdapterTimer.

Section timers.

(** The numbers of a timer: what [time.time()] returns, their
    differences, and the [0] a new timer starts with. *)
Variable num : Type.
Variable zero : num.
Variable minus : num -> num -> num.

(** A timer: a dict with the four keys [start_timer] gives it. *)
Record timer_dict : Type := Timer {
  name : string;
  start_time : num;
  end_time : num;
  elapsed_time : num
}.

(** [get_timer(timer_name)]; [_timers] is the list of the class. *)
Definition get_timer (timer_name : string) (_timers : list timer_dict) : list timer_dict :=
  List.filter (fun timer => String.eqb (name timer) timer_name) _timers.

(** [add_timer(timer)] *)
Definition add_timer (timer : timer_dict) (_timers : list timer_dict) : list timer_dict :=
  _timers ++ [timer].

(** Assignments to the keys of the one timer [get_timer] found: the
    dict is in [_timers], which shows them. *)
Fixpoint assign (timer_name : string) (new : timer_dict -> timer_dict)
    (_timers : list timer_dict) : list timer_dict :=
  match _timers with
  | [] => []
  | timer :: rest =>
      if String.eqb (name timer) timer_name then new timer :: rest
      else timer :: assign timer_name new rest
  end.

(** [start_timer(timer_name)], [now] being what [time.time()] returns:
    the timer returned and [_timers] afterwards. *)
Definition start_timer (timer_name : string) (now : num)
    (_timers : list timer_dict) : timer_dict * list timer_dict :=
  let reset prev_timer :=
    {| name := name prev_timer; start_time := now; end_time := now;
       elapsed_time := elapsed_time prev_timer |} in
  match get_timer timer_name _timers with
  | [prev_timer] => (reset prev_timer, assign timer_name reset _timers)
  | _ =>
      let new_timer :=
        {| name := timer_name; start_time := now; end_time := now;
           elapsed_time := zero |} in
      (new_timer, add_timer new_timer _timers)
  end.

(** [end_timer(timer_name)]: what it returns ([None] for Python's
    [None]), [_timers] afterwards, and the line it prints if any. *)
Definition end_timer (timer_name : string) (now : num)
    (_timers : list timer_dict) : option num * list timer_dict * option string :=
  let stop prev_timer :=
    {| name := name prev_timer; start_time := start_time prev_timer;
       end_time := now; elapsed_time := minus now (start_time prev_timer) |} in
  match get_timer timer_name _timers with
  | [prev_timer] =>
      (Some (elapsed_time (stop prev_timer)),
       assign timer_name stop _timers, None)
  | _ =>
      (None, _timers,
       Some ("Timer " ++ " " ++ timer_name ++ " " ++ " not found")%string)
  end.

(** A call of [start_timer] or of [end_timer], and a run of calls. *)
Inductive call : Type :=
  | Start (timer_name : string) (now : num)
  | End (timer_name : string) (now : num).

Definition call_name (c : call) : string :=
  match c with Start timer_name _ | End timer_name _ => timer_name end.

Definition after (c : call) (_timers : list timer_dict) : list timer_dict :=
  match c with
  | Start timer_name now => snd (start_timer timer_name now _timers)
  | End timer_name now => snd (fst (end_timer timer_name now _timers))
  end.

Definition run (calls : list call) (_timers : list timer_dict) : list timer_dict :=
  fold_left (fun _timers c => after c _timers) calls _timers.

End timers.

Arguments Timer {num}.
Arguments name {num}.
Arguments start_time {num}.
Arguments end_time {num}.
Arguments elapsed_time {num}.
Arguments get_timer {num}.
Arguments add_timer {num}.
Arguments assign {num}.
Arguments start_timer {num}.
Arguments end_timer {num}.
Arguments Start {num}.
Arguments End {num}.
Arguments call_name {num}.
Arguments after {num}.
Arguments run {num}.

End AdapterTimer.

(** ** Notions the properties are stated with *)

(** The data lines of a table, trimmed: the lines the second loop of
    [parse_query_result] reads before it stops. *)
Fixpoint data_lines (lines : list string) : list string :=
  match lines with
  | [] => []
  | data_line :: rest =>
      let data_line := PyStr.strip data_line in
      if PyStr.startswith "+-" data_line then []
      else data_line :: data_lines rest
  end.


(** The four spellings [is_logical] knows. *)
Definition boolean_spellings : list string := ["true"; "false"; "True"; "False"].

(** A spelling of [true] or [false] in any letter case. *)
Definition boolean_token_any_case (x : string) : bool :=
  PyStr.eqb (PyStr.lower x) "true" || PyStr.eqb (PyStr.lower x) "false".

(** [n] calls of [fetchone] in a row, and what each returned. *)
Fixpoint fetchone_times (n : nat) : M (list (option row)) :=
  match n with
  | O => ret []
  | S n' =>
      r <-- CDEApiCursor.fetchone ;;
      rs <-- fetchone_times n' ;;
      ret (r :: rs)
  end.

(** The cleanup calls of a trace. *)
Definition is_delete_job (ev : event) : bool :=
  match ev with
  | EvDeleteJob _ => true
  | _ => false
  end.

Definition is_delete_resource (ev : event) : bool :=
  match ev with
  | EvDeleteResource _ => true
  | _ => false
  end.

Definition delete_job_attempts (tr : list event) : nat :=
  length (List.filter is_delete_job tr).

Definition delete_resource_attempts (tr : list event) : nat :=
  length (List.filter is_delete_resource tr).

(** The time slept, all sleeps of a trace together. *)
Fixpoint total_slept (tr : list event) : Z :=
  match tr with
  | [] => 0
  | EvSleep seconds :: tr' => seconds + total_slept tr'
  | _ :: tr' => total_slept tr'
  end.

(** The sleeps of the waiting loop in a trace. *)
Definition poll_sleeps (tr : list event) : nat :=
  length (List.filter
            (fun ev => match ev with
                       | EvSleep seconds => (seconds =? DEFAULT_POLL_WAIT)%Z
                       | _ => false
                       end) tr).

(** The calls that set a job up are answered, and so is [%]. *)
Definition set_up_answers (env : environment) (sql : string)
    (parameters : list pyobj) : Prop :=
  (parameters = [] \/ exists sql', percent env sql parameters = inr sql') /\
  (forall n t, exists c, on_create_resource env n t = inr c) /\
  (forall n f, exists c, on_upload_resource env n f = inr c) /\
  (forall n, exists c, on_submit_job env n = inr c) /\
  (forall n, exists j, on_run_job env n = inr j).

(** Every status request is answered, never with [succeeded] nor
    [failed]. *)
Definition never_terminal (env : environment) : Prop :=
  forall n j, exists js,
    on_get_job_run_status env n j = inr js /\
    status js <> CDEApiConnection.JOB_STATUS_succeeded /\
    status js <> CDEApiConnection.JOB_STATUS_failed.

(** The same outside, but for the answers to the two delete calls. *)
Definition with_delete_answers (env : environment)
    (job_answer resource_answer : string -> string + Z) : environment :=
  {| time_ms := time_ms env;
     randint := randint env;
     percent := percent env;
     on_create_resource := on_create_resource env;
     on_upload_resource := on_upload_resource env;
     on_submit_job := on_submit_job env;
     on_run_job := on_run_job env;
     on_get_job_run_status := on_get_job_run_status env;
     on_get_logs := on_get_logs env;
     on_delete_job := job_answer;
     on_delete_resource := resource_answer |}.

(** The cleanup calls made so far: deletions of the job, deletions of
    the resource. *)
Definition cleanup (s : state) : nat * nat :=
  (delete_job_attempts (trace s), delete_resource_attempts (trace s)).

(** A computation that makes no cleanup call and ends. *)
Definition calm {A} (c : M A) : Prop :=
  forall s o s', c s = (o, s') -> cleanup s' = cleanup s /\ o <> OutOfFuel.

(** An event that is no cleanup call. *)
Definition not_delete (ev : event) : Prop :=
  is_delete_job ev = false /\ is_delete_resource ev = false.

(** What [execute] owes about cleanup, outcome by outcome. *)
Definition cleanup_by_outcome {A} (c : M A) : Prop :=
  forall s o s', c s = (o, s') ->
    match o with
    | Returned _ =>
        delete_job_attempts (trace s') = delete_job_attempts (trace s) + 1 /\
        delete_resource_attempts (trace s')
        = delete_resource_attempts (trace s) + 1
    | Raised (DatabaseException _) | Raised (RPCTimeoutException _) =>
        delete_job_attempts (trace s') = delete_job_attempts (trace s) /\
        delete_resource_attempts (trace s') = delete_resource_attempts (trace s)
    | Raised _ =>
        delete_job_attempts (trace s') <= delete_job_attempts (trace s) + 1 /\
        delete_resource_attempts (trace s')
        <= delete_resource_attempts (trace s) + 1
    | OutOfFuel => False
    end.

(** The lines [get_job_output] hands to the parser. *)
Definition lines_of (text : string) : list string :=
  map PyStr.strip (PyStr.split (ascii_of_nat 10) text).

(** *** Texts and their trimmed bodies *)

(** A text of whitespace only. *)
Definition all_space (s : string) : Prop :=
  PyStr.forallb_str PyStr.isspace s = true.

(** A text with no whitespace at either end. *)
Definition no_space_at_ends (s : string) : Prop :=
  (forall c rest, s = String c rest -> PyStr.isspace c = false) /\
  (forall rest c, s = (rest ++ String c "")%string -> PyStr.isspace c = false).

(** [body] is [sql] less the whitespace at its two ends. *)
Definition trimmed_to (sql body : string) : Prop :=
  exists lead trail,
    sql = (lead ++ body ++ trail)%string /\
    all_space lead /\ all_space trail /\ no_space_at_ends body.

(** The cursor's [execute] called with the text [sql] and the bindings
    the wrapper was given, converted. *)
Definition cursor_called_with (cursor_execute : string -> list pyobj -> M unit)
    (sql : string) (bindings : option (list pyobj)) : M unit :=
  match bindings with
  | None => cursor_execute sql []
  | Some bs =>
      match CDEApiSessionConnectionWrapper.fix_bindings bs with
      | inl e => raise e
      | inr fixed => cursor_execute sql fixed
      end
  end.

(** *** Rows and their conversion *)

(** The value the text [x] has in a column of type [t]. *)
Definition converted_as (t : coltype) (x : string) (v : value) : Prop :=
  match t with
  | number => exists f, PyFloat.of_str x = Some f /\ v = VFloat f
  | boolean => v = VBool (CDEApiConnection.is_true x)
  | string_t => v = VStr x
  end.

(** [r'] is the row [r] converted, cell by cell, each by the type of
    its column. *)
Definition row_converted (col_types : list coltype) (r : list string)
    (r' : list value) : Prop :=
  length r' = length r /\
  forall i x, r !! i = Some x ->
    exists t v, col_types !! i = Some t /\ r' !! i = Some v /\
                converted_as t x v.

(** A row the conversion passes: it has no more cells than there are
    column types, and in a number column only texts [float] accepts. *)
Definition row_converts (col_types : list coltype) (r : list string) : Prop :=
  length r <= length col_types /\
  forall i x, r !! i = Some x -> col_types !! i = Some number ->
              PyFloat.of_str x <> None.

(** The cell that stops the conversion of a row: one beyond the column
    types, or a text [float] rejects in a number column. *)
Definition stops_at (col_types : list coltype) (r : list string) (c : nat)
    (e : exn) : Prop :=
  (c < length r /\ col_types !! c = None /\
   e = IndexError "list index out of range") \/
  (exists x, r !! c = Some x /\ col_types !! c = Some number /\
             PyFloat.of_str x = None /\
             e = ValueError ("could not convert string to float: "
                             ++ PyStr.repr x)%string).

(** *** The end of [execute] *)

(** The cleanup calls [execute] ends with, given the answer to the
    first of them. *)
Definition cleanup_calls (env : environment) (job_name : string) : list event :=
  EvDeleteJob job_name
  :: match on_delete_job env job_name with
     | inl _ => []
     | inr _ => [EvDeleteResource job_name]
     end.

(** What [execute] ends with once the output is read. *)
Definition cleanup_outcome (env : environment) (job_name : string)
  : outcome unit :=
  match on_delete_job env job_name with
  | inl msg => Raised (RequestException msg)
  | inr _ =>
      match on_delete_resource env job_name with
      | inl msg => Raised (RequestException msg)
      | inr _ => Returned tt
      end
  end.

(** ** Notions of the further properties *)

(** A text of the digits 0 to 9, not empty. *)
Definition ascii_digits (x : string) : Prop :=
  x <> "" /\ PyStr.forallb_str PyFloat.is_digit x = true.

(** *** A run of [execute] *)

(** The job name [generate_job_name] makes in state [s], and the file
    names the two resources get: each reads the clock once more. *)
Definition run_job_name (env : environment) (s : state) : string :=
  ("dbt-job-" ++ repr_int (time_ms env (clock_reads s)) ++ "-"
   ++ zfill 8 (repr_int (randint env)))%string.

Definition run_sql_file (env : environment) (s : state) : string :=
  (run_job_name env s ++ "-" ++ repr_int (time_ms env (S (clock_reads s)))
   ++ ".sql")%string.

Definition run_py_file (env : environment) (s : state) : string :=
  (run_job_name env s ++ "-" ++ repr_int (time_ms env (S (S (clock_reads s))))
   ++ ".py")%string.

(** The Python file uploaded beside the SQL file. *)
Definition wrapper_script (job_name sql_file : string) : string :=
  (("import pyspark" ++ nl ++ "from pyspark.sql import SparkSession" ++ nl
    ++ "spark=SparkSession.builder.appName('" ++ job_name
    ++ "').enableHiveSupport().getOrCreate()" ++ nl)
   ++ "sql=open('/app/mount/" ++ sql_file
   ++ "', 'r').read()" ++ nl ++ "df = spark.sql(sql)" ++ nl
   ++ "df.show(n=1000000,truncate=False)" ++ nl)%string.

(** The SQL text uploaded: [sql % parameters] when there are
    parameters. *)
Definition sql_sent (env : environment) (sql : string) (parameters : list pyobj)
  : string :=
  if (0 <? length parameters)%nat then
    match percent env sql parameters with
    | inr sql' => sql'
    | inl _ => sql
    end
  else sql.

(** The calls that set the job up. *)
Definition set_up_events (env : environment) (sql : string)
    (parameters : list pyobj) (s : state) : list event :=
  [ EvCreateResource (run_job_name env s) "files";
    EvUploadResource (run_job_name env s) (run_sql_file env s)
      (sql_sent env sql parameters);
    EvUploadResource (run_job_name env s) (run_py_file env s)
      (wrapper_script (run_job_name env s) (run_sql_file env s));
    EvSubmitJob (run_job_name env s) (run_job_name env s) (run_sql_file env s)
      (run_py_file env s);
    EvRunJob (run_job_name env s) ].

(** [k] turns of the waiting loop: a sleep and a status request each. *)
Definition poll_turns (k : nat) (job_id : Z) : list event :=
  concat (replicate k [EvSleep DEFAULT_POLL_WAIT; EvGetJobRunStatus job_id]).

(** The statements of [execute] after the waiting loop. *)
Definition finish (env : environment) (job_name : string) (j : job) : M unit :=
  out <-- CDEApiConnection.get_job_output env job_name j ;;
  l <-- alloc (snd (fst out)) ;;
  set_rows (Is l) ;;;
  set_schema (Is (fst (fst out))) ;;;
  CDEApiConnection.delete_job env job_name ;;;
  CDEApiConnection.delete_resource env job_name ;;;
  ret tt.

(** The [k] status requests from the [p]th on are answered and keep the
    loop going: none is [succeeded], and none but the first, which is
    made before the loop and not looked at for failure, is [failed]. *)
Definition waits (env : environment) (p k : nat) : Prop :=
  forall i j, i < k ->
    exists js,
      on_get_job_run_status env (p + i) j = inr js /\
      status js <> CDEApiConnection.JOB_STATUS_succeeded /\
      (1 <= i -> status js <> CDEApiConnection.JOB_STATUS_failed).

(** The [n]th status request is answered [succeeded]; is answered
    [failed], the whole answer printing as [payload]. *)
Definition succeeds_at (env : environment) (n : nat) : Prop :=
  forall j, exists js,
    on_get_job_run_status env n j = inr js /\
    status js = CDEApiConnection.JOB_STATUS_succeeded.

Definition fails_at (env : environment) (n : nat) (payload : string) : Prop :=
  forall j, exists js,
    on_get_job_run_status env n j = inr js /\
    status js = CDEApiConnection.JOB_STATUS_failed /\
    payload_repr js = payload.

(** The two deletions are answered. *)
Definition deletes_answer (env : environment) : Prop :=
  (forall n, exists c, on_delete_job env n = inr c) /\
  (forall n, exists c, on_delete_resource env n = inr c).

(** The state [s] after the events [evs], [p] of them status requests. *)
Definition advance (evs : list event) (p : nat) (s : state) : state :=
  State (heap s) (next_loc s) (self s) (trace s ++ evs) (polls s + p)
        (clock_reads s).

(** The state when the waiting loop is entered. *)
Definition after_first_poll (env : environment) (sql : string)
    (parameters : list pyobj) (j : job) (s : state) : state :=
  State (heap s) (next_loc s) (self s)
    (trace s ++ set_up_events env sql parameters s ++ [EvGetJobRunStatus (id j)])
    (S (polls s)) (clock_reads s + 3).

(** What [parse_query_result] writes to the error log. *)
Definition logged_events (logged : option exn) : list event :=
  match logged with
  | Some _ => [EvLogError "traceback"]
  | None => []
  end.

(** *** Bounds and frames of a computation *)


(** A computation that leaves the cursor, the list objects and the
    count of cleanup calls as they are. *)
Definition idle {A} (c : M A) : Prop :=
  forall s o s', c s = (o, s') ->
    cleanup s' = cleanup s /\ self s' = self s /\ heap s' = heap s.

(** A computation after which the cursor and the list objects are as
    they were so long as no job has been deleted. *)
Definition kept_until_cleanup {A} (c : M A) : Prop :=
  forall s o s', c s = (o, s') ->
    delete_job_attempts (trace s') = delete_job_attempts (trace s) ->
    self s' = self s /\ heap s' = heap s.

(** *** Bindings *)

(** The decimal digit of a number below ten. *)
Definition digit_char (n : N) : ascii := ascii_of_N (48 + n mod 10).

(** [n] as [width] decimal digits, zero-padded: what [%f] prints for the
    microseconds with [width] 6. *)
Fixpoint zero_padded (width : nat) (n : N) : string :=
  match width with
  | O => EmptyString
  | S w => (zero_padded w (n / 10) ++ String (digit_char n) EmptyString)%string
  end.

(** The float is the integer, exactly. *)
Definition float_is (f : PyFloat.pyfloat) (i : Z) : Prop :=
  match f with
  | PyFloat.FZero neg => i = 0%Z /\ neg = false
  | PyFloat.FFinite neg m e =>
      (e <= 0)%Z /\ (Z.abs i * 2 ^ (- e) = Z.pos m)%Z /\ neg = (i <? 0)%Z
  | _ => False
  end.

(** The least magnitude of an [int] that [float] cannot take: half way
    from the largest float to [2^1024]. *)
Definition float_overflow : Z := (2 ^ 1024 - 2 ^ 970)%Z.

(** A float; a text in single quotes. *)
Definition a_float (b : pyobj) : Prop := exists f, b = PyFloat f.

Definition quoted_text (b : pyobj) : Prop :=
  exists s, b = PyStr (CDEApiSessionConnectionWrapper.quoted s).

(** ** Concrete inputs *)

Definition box_table : list string :=
  [ "+---+----+---+";
    "|A  |B   |C  |";
    "+---+----+---+";
    "|1  |true|x  |";
    "+---+----+---+" ].


Definition mistyped_table : list string :=
  [ "+---+";
    "|A  |";
    "+---+";
    "|1  |";
    "|abc|";
    "|2  |";
    "+---+" ].

(** A service that answers every call, reports the statuses of the list
    poll by poll ([running] once the list is used up), and has [text] as
    the job's log. *)
Definition scripted (statuses : list string) (text : string) : environment :=
  {| time_ms := fun n => (1700000000000 + Z.of_nat n)%Z;
     randint := 7;
     percent := fun sql _ => inr sql;
     on_create_resource := fun _ _ => inr 201%Z;
     on_upload_resource := fun _ _ => inr 201%Z;
     on_submit_job := fun _ => inr 201%Z;
     on_run_job := fun _ => inr (Job 42);
     on_get_job_run_status := fun n _ =>
       let st := nth n statuses "running" in
       inr (JobStatus st ("{'id': 42, 'status': '" ++ st ++ "'}")%string);
     on_get_logs := fun _ _ => inr text;
     on_delete_job := fun _ => inr 204%Z;
     on_delete_resource := fun _ => inr 204%Z |}.

(** A cursor just made: no attribute [_rows] nor [_schema] yet. *)
Definition new_cursor : state :=
  {| heap := ∅; next_loc := 1%positive; self := Cursor Absent Absent;
     trace := []; polls := 0; clock_reads := 0 |}.

Definition text_of (lines : list string) : string := String.concat nl lines.

(** A cursor after an [execute] that fetched two rows. *)
Definition two_rows_fetched : state :=
  {| heap := {[ 1%positive := [[VStr "a"]; [VStr "b"]] ]};
     next_loc := 2%positive;
     self := Cursor (Is [Field "c" string_t false]) (Is 1%positive);
     trace := []; polls := 1; clock_reads := 3 |}.

(** The service of [scripted], but the request for the log is refused. *)
Definition without_logs (statuses : list string) (msg : string) : environment :=
  {| time_ms := time_ms (scripted statuses "");
     randint := randint (scripted statuses "");
     percent := percent (scripted statuses "");
     on_create_resource := on_create_resource (scripted statuses "");
     on_upload_resource := on_upload_resource (scripted statuses "");
     on_submit_job := on_submit_job (scripted statuses "");
     on_run_job := on_run_job (scripted statuses "");
     on_get_job_run_status := on_get_job_run_status (scripted statuses "");
     on_get_logs := fun _ _ => inl msg;
     on_delete_job := on_delete_job (scripted statuses "");
     on_delete_resource := on_delete_resource (scripted statuses "") |}.

(** The service of [scripted], but no resource can be created. *)
Definition without_resources (msg : string) : environment :=
  {| time_ms := time_ms (scripted [] "");
     randint := randint (scripted [] "");
     percent := percent (scripted [] "");
     on_create_resource := fun _ _ => inl msg;
     on_upload_resource := on_upload_resource (scripted [] "");
     on_submit_job := on_submit_job (scripted [] "");
     on_run_job := on_run_job (scripted [] "");
     on_get_job_run_status := on_get_job_run_status (scripted [] "");
     on_get_logs := on_get_logs (scripted [] "");
     on_delete_job := on_delete_job (scripted [] "");
     on_delete_resource := on_delete_resource (scripted [] "") |}.

(** A cursor whose schema is the one parsed from [box_table]. *)
Definition box_table_cursor : state :=
  {| heap := ∅; next_loc := 1%positive;
     self := Cursor
               (Is (fst (fst (CDEApiConnection.parse_query_result box_table))))
               Absent;
     trace := []; polls := 0; clock_reads := 0 |}.

(** Two timers of one name. *)
Definition doubled_timers : list (AdapterTimer.timer_dict Z) :=
  [ AdapterTimer.Timer "run" 0 0 0; AdapterTimer.Timer "run" 1 1 0 ]%Z.

(** * Properties *)

(** ** The primitives on small inputs *)

Example strip_cell : PyStr.strip "  true " = "true".
Proof. reflexivity. Qed.

Example split_row : PyStr.split "|" "|1 | |x|" = [""; "1 "; " "; "x"; ""].
Proof. reflexivity. Qed.

Example float_1 : PyFloat.of_str "1" = Some PyFloat.one.
Proof. reflexivity. Qed.

Example float_tenth :
  PyFloat.of_str "0.1" = Some (PyFloat.FFinite false 7205759403792794 (-56)).
Proof. vm_compute. reflexivity. Qed.

Example float_abc : PyFloat.of_str "abc" = None.
Proof. reflexivity. Qed.

Example float_superscript : PyFloat.of_str (String (ascii_of_N 178) "") = None.
Proof. reflexivity. Qed.

Example float_padded :
  PyFloat.of_str (String (ascii_of_N 160) " 1 ") = Some PyFloat.one.
Proof. reflexivity. Qed.

Example float_file_separator :
  PyStr.strip (String (ascii_of_N 28) "1") = "1" /\
  PyFloat.of_str (String (ascii_of_N 28) "1") = None.
Proof. split; reflexivity. Qed.

Example repr_abc : PyStr.repr "abc" = "'abc'".
Proof. reflexivity. Qed.

Example repr_quote_and_newline :
  PyStr.repr (String "'" (String (ascii_of_N 10) "a"))
  = String PyStr.double_quote
      (String "'" (String PyStr.backslash (String "n" (String "a"
         (String PyStr.double_quote ""))))).
Proof. reflexivity. Qed.

Example repr_no_break_space : PyStr.repr (String (ascii_of_N 160) "") = "'\xa0'".
Proof. reflexivity. Qed.

Example parse_box_table :
  CDEApiConnection.parse_query_result box_table =
  ([Field "A" number false; Field "B" boolean false; Field "C" string_t false],
   [[VFloat PyFloat.one; VBool true; VStr "x"]], None).
Proof. vm_compute. reflexivity. Qed.

Example fix_true :
  CDEApiSessionConnectionWrapper._fix_binding (PyBool true) = inr (PyFloat PyFloat.one).
Proof. reflexivity. Qed.

(** ** The output parser *)

Import CDEApiConnection.

Lemma data_rows_cells lines : data_rows lines = map cells (data_lines lines).
Proof.
  induction lines as [|l rest IH]; cbn [data_rows data_lines map]; [reflexivity|].
  destruct (PyStr.startswith "+-" (PyStr.strip l)); cbn [map]; [reflexivity|].
  now rewrite IH.
Qed.



Lemma record_types_length schema tys :
  length schema = length tys ->
  length (fst (record_types schema tys)) = length schema /\
  snd (record_types schema tys) = None.
Proof.
  revert schema. induction tys as [|t tys IH]; intros schema H; simpl.
  - split; reflexivity.
  - destruct schema as [|f schema]; simpl in H; [discriminate|].
    destruct (IH schema ltac:(lia)) as [H1 H2].
    destruct (record_types schema tys) as [d e]. simpl in *. split; [lia|assumption].
Qed.



Lemma scan_separator_app pre sep tl k :
  Forall (fun l => is_separator l = false) pre ->
  is_separator sep = true ->
  scan_separator (pre ++ sep :: tl) k = S (k + length pre).
Proof.
  intros Hpre Hsep. revert k.
  induction Hpre as [|l pre Hl _ IH]; intros k; cbn [app scan_separator length].
  - rewrite Hsep. lia.
  - rewrite Hl, IH. lia.
Qed.




(** C4: a table whose first separator line is followed by a header line
    with the cells A, B, C, a second separator line and a single data
    line with the cells 1, true, x (the table then ends) parses to the
    schema A number, B boolean, C string and the single row
    [1.0, true, "x"]. *)
Theorem parse_A_B_C (pre : list string) (sep1 hdr sep2 dat : string) (rest : list string) :
  Forall (fun l => is_separator l = false) pre ->
  is_separator sep1 = true ->
  cells hdr = ["A"; "B"; "C"] ->
  is_separator dat = false ->
  cells (PyStr.strip dat) = ["1"; "true"; "x"] ->
  (rest = [] \/ exists l rest', rest = l :: rest' /\ is_separator l = true) ->
  parse_query_result (pre ++ sep1 :: hdr :: sep2 :: dat :: rest) =
  ([Field "A" number false; Field "B" boolean false; Field "C" string_t false],
   [[VFloat PyFloat.one; VBool true; VStr "x"]], None).
Proof.
  intros Hpre Hsep Hhdr Hdat Hcells Hrest.
  unfold parse_query_result.
  rewrite (scan_separator_app pre sep1 _ 0 Hpre Hsep). cbn [Nat.add].
  rewrite length_app. cbn [length].
  replace (S (length pre) =? length pre + S (S (S (S (length rest)))))%nat with false
    by (symmetry; apply Nat.eqb_neq; lia).
  replace ((pre ++ sep1 :: hdr :: sep2 :: dat :: rest) !! S (length pre))
    with (Some hdr).
  2:{ symmetry. rewrite lookup_app_r by lia.
      replace (S (length pre) - length pre) with 1 by lia. reflexivity. }
  unfold header. rewrite Hhdr. cbn [map length Nat.eqb].
  assert (Hdrop : forall n, n = length pre + 3 ->
            drop n (pre ++ sep1 :: hdr :: sep2 :: dat :: rest) = dat :: rest).
  { intros n ->. rewrite drop_app_ge by lia.
    replace (length pre + 3 - length pre) with 3 by lia. reflexivity. }
  rewrite !(Hdrop _) by lia.
  assert (Hrows : data_rows (dat :: rest) = [["1"; "true"; "x"]]).
  { cbn [data_rows]. unfold is_separator in Hdat. rewrite Hdat, Hcells.
    destruct Hrest as [-> | (l & rest' & -> & Hl)]; [reflexivity|].
    cbn [data_rows]. unfold is_separator in Hl. now rewrite Hl. }
  rewrite Hrows. vm_compute. reflexivity.
Qed.

Lemma parse_A_B_C_box_table :
  CDEApiConnection.parse_query_result box_table =
  ([Field "A" number false; Field "B" boolean false; Field "C" string_t false],
   [[VFloat PyFloat.one; VBool true; VStr "x"]], None).
Proof.
  apply (parse_A_B_C [] "+---+----+---+" "|A  |B   |C  |" "+---+----+---+"
           "|1  |true|x  |" ["+---+----+---+"]).
  - constructor.
  - reflexivity.
  - reflexivity.
  - reflexivity.
  - reflexivity.
  - right. exists "+---+----+---+", []. split; reflexivity.
Defined.

Lemma is_logical_spec x : is_logical x = true <-> In x boolean_spellings.
Proof.
  unfold is_logical, PyStr.eqb, boolean_spellings. cbn [In].
  rewrite !orb_true_iff, !String.eqb_eq. intuition congruence.
Qed.

Lemma get_type_cases x :
  (PyStr.isnumeric x = true -> get_type x = number) /\
  (PyStr.isnumeric x = false -> In x boolean_spellings -> get_type x = boolean) /\
  (PyStr.isnumeric x = false -> ~ In x boolean_spellings -> get_type x = string_t).
Proof.
  unfold get_type, is_number. repeat split.
  - intros ->. reflexivity.
  - intros -> Hin. apply is_logical_spec in Hin. now rewrite Hin.
  - intros -> Hn. destruct (is_logical x) eqn:E; [|reflexivity].
    apply is_logical_spec in E. contradiction.
Qed.

Lemma record_types_lookup schema tys i t :
  length schema = length tys ->
  tys !! i = Some t ->
  exists f, (fst (record_types schema tys)) !! i = Some f /\ type f = t.
Proof.
  revert schema i. induction tys as [|t0 tys IH]; intros schema i Hlen Hi.
  - destruct i; discriminate.
  - destruct schema as [|f0 schema]; [discriminate|].
    cbn [record_types]. specialize (IH schema).
    destruct (record_types schema tys) as [d e]. cbn [fst] in *.
    destruct i as [|i]; cbn in Hi |- *.
    + injection Hi as ->. eexists. split; [reflexivity|reflexivity].
    + apply IH; [simpl in Hlen; lia|exact Hi].
Qed.

(** C5, as stated, fails: [TRUE] is a spelling of [true] in another
    letter case, and a column whose first cell is [TRUE] is typed
    string. *)
Lemma upper_case_TRUE_is_string :
  boolean_token_any_case "TRUE" = true /\
  get_type "TRUE" = string_t /\
  extract_datatypes [Field "B" string_t false] [["TRUE"]]
  = ([Field "B" string_t false], [[VStr "TRUE"]], None).
Proof. repeat split. Qed.

(** C5, as amended: when type inference runs and completes, the column
    of a first-row cell is typed number when the cell is not empty and
    has numeric characters only, else boolean when the cell is exactly
    one of [true], [false], [True], [False], else string. *)
Theorem first_row_classification (schema : list field) (first_row : list string)
    (rest : list (list string)) (schema' : list field) (rows' : list row) :
  length schema = length first_row ->
  extract_datatypes schema (first_row :: rest) = (schema', rows', None) ->
  forall i x, first_row !! i = Some x ->
    exists f, schema' !! i = Some f /\
      (PyStr.isnumeric x = true -> type f = number) /\
      (PyStr.isnumeric x = false -> In x boolean_spellings -> type f = boolean) /\
      (PyStr.isnumeric x = false -> ~ In x boolean_spellings -> type f = string_t).
Proof.
  intros Hlen Hex i x Hi.
  unfold extract_datatypes in Hex.
  apply Nat.eqb_eq in Hlen as Hb. rewrite Hb in Hex. cbn [negb] in Hex.
  remember (convert_rows (first_row :: rest) (map get_type first_row)) as cr eqn:Hcr.
  clear Hcr. destruct cr as [rows1 [e|]]; [discriminate|].
  destruct (record_types_lookup schema (map get_type first_row) i (get_type x))
    as (f & Hf & Ht).
  { now rewrite length_map. }
  { rewrite list_lookup_fmap, Hi. reflexivity. }
  destruct (record_types schema (map get_type first_row)) as [s1 e1].
  injection Hex as <- _ _. cbn [fst] in Hf.
  exists f. split; [exact Hf|]. rewrite Ht. apply get_type_cases.
Qed.

Lemma first_row_classification_box :
  exists f,
    [Field "A" number false; Field "B" boolean false; Field "C" string_t false]
      !! 1 = Some f /\
    (PyStr.isnumeric "true" = true -> type f = number) /\
    (PyStr.isnumeric "true" = false -> In "true" boolean_spellings ->
     type f = boolean) /\
    (PyStr.isnumeric "true" = false -> ~ In "true" boolean_spellings ->
     type f = string_t).
Proof.
  apply (first_row_classification
           [Field "A" string_t false; Field "B" string_t false;
            Field "C" string_t false]
           ["1"; "true"; "x"] []
           [Field "A" number false; Field "B" boolean false;
            Field "C" string_t false]
           [[VFloat PyFloat.one; VBool true; VStr "x"]]).
  - reflexivity.
  - vm_compute. reflexivity.
  - reflexivity.
Defined.

(** The parse of a table whose header line is known. *)
Lemma parse_at_header pre sep hdr rest :
  Forall (fun l => is_separator l = false) pre ->
  is_separator sep = true ->
  parse_query_result (pre ++ sep :: hdr :: rest)
  = if (length (header hdr) =? 0)%nat then (header hdr, [], None)
    else if (0 <? length (data_rows (drop 1 rest)))%nat
         then extract_datatypes (header hdr) (data_rows (drop 1 rest))
         else (header hdr, [], None).
Proof.
  intros Hpre Hsep. unfold parse_query_result.
  rewrite (scan_separator_app pre sep _ 0 Hpre Hsep). cbn [Nat.add].
  rewrite length_app. cbn [length].
  replace (S (length pre) =? length pre + S (S (length rest)))%nat with false
    by (symmetry; apply Nat.eqb_neq; lia).
  replace ((pre ++ sep :: hdr :: rest) !! S (length pre)) with (Some hdr).
  2:{ symmetry. rewrite lookup_app_r by lia.
      replace (S (length pre) - length pre) with 1 by lia. reflexivity. }
  assert (Hdrop : forall n, n = length pre + 3 ->
            drop n (pre ++ sep :: hdr :: rest) = drop 1 rest).
  { intros n ->. rewrite drop_app_ge by lia.
    replace (length pre + 3 - length pre) with 3 by lia. reflexivity. }
  rewrite !(Hdrop _) by lia. reflexivity.
Qed.

Lemma convert_map_converts t x :
  (t = number -> PyFloat.of_str x <> None) ->
  exists v, convert_map t x = inr v /\ converted_as t x v.
Proof.
  intros H. destruct t; cbn [convert_map converted_as].
  - unfold convert_number. destruct (PyFloat.of_str x) as [f|] eqn:Hf.
    + exists (VFloat f). split; [reflexivity|]. now exists f.
    + now destruct (H eq_refl).
  - now exists (VBool (is_true x)).
  - now exists (VStr x).
Qed.

Lemma row_converts_cons t tys x r :
  row_converts (t :: tys) (x :: r) ->
  (t = number -> PyFloat.of_str x <> None) /\ row_converts tys r.
Proof.
  intros [Hlen Hc]. split.
  - intros ->. exact (Hc 0 x eq_refl eq_refl).
  - split; [cbn in Hlen; lia|]. intros i y Hi Ht. exact (Hc (S i) y Hi Ht).
Qed.

Lemma row_converted_cons t tys x r v r' :
  converted_as t x v -> row_converted tys r r' ->
  row_converted (t :: tys) (x :: r) (v :: r').
Proof.
  intros Hv [Hlen Hc]. split; [cbn; now rewrite Hlen|].
  intros [|i] y Hi; cbn in Hi.
  - injection Hi as <-. now exists t, v.
  - exact (Hc i y Hi).
Qed.

Lemma row_converted_nil tys : row_converted tys [] [].
Proof. split; [reflexivity|]. intros i x Hi. destruct i; discriminate. Qed.

(** A row that converts is converted whole. *)
Lemma convert_type_passes tys r :
  row_converts tys r ->
  exists r', convert_type r tys = (r', None) /\ row_converted tys r r'.
Proof.
  revert tys. induction r as [|x r IH]; intros tys H.
  - exists []. split; [reflexivity|apply row_converted_nil].
  - destruct tys as [|t tys]; [destruct H as [H _]; cbn in H; lia|].
    apply row_converts_cons in H as [Hx Hr].
    destruct (convert_map_converts t x Hx) as (v & Hv & Hcv).
    destruct (IH tys Hr) as (r' & Hr' & Hcr).
    exists (v :: r'). split; [|now apply row_converted_cons].
    cbn [convert_type]. now rewrite Hv, Hr'.
Qed.

Lemma convert_type_stops tys r c e :
  row_converts tys (take c r) ->
  stops_at tys r c e ->
  exists part,
    convert_type r tys = (part ++ map VStr (drop c r), Some e) /\
    row_converted tys (take c r) part.
Proof.
  revert tys c. induction r as [|x r IH]; intros tys c Hpre Hstop.
  - destruct Hstop as [(Hc & _) | (y & Hy & _)]; [cbn in Hc; lia|].
    destruct c; discriminate.
  - destruct c as [|c].
    + exists []. split; [|apply row_converted_nil]. cbn [app drop convert_type].
      destruct Hstop as [(_ & Ht & ->) | (y & Hy & Ht & Hf & ->)].
      * destruct tys; [reflexivity|discriminate].
      * destruct tys as [|t tys]; [discriminate|]. cbn in Hy, Ht.
        injection Hy as <-. injection Ht as ->.
        cbn [convert_map]. unfold convert_number. now rewrite Hf.
    + cbn [take] in Hpre.
      destruct tys as [|t tys]; [destruct Hpre as [H _]; cbn in H; lia|].
      apply row_converts_cons in Hpre as [Hx Hr].
      destruct (convert_map_converts t x Hx) as (v & Hv & Hcv).
      assert (Hstop' : stops_at tys r c e).
      { destruct Hstop as [(Hc & Ht & ->) | (y & Hy & Ht & Hf & ->)].
        - left. cbn in Hc, Ht. repeat split; [lia|exact Ht].
        - right. exists y. cbn in Hy, Ht. now repeat split. }
      destruct (IH tys c Hr Hstop') as (part & Hrun & Hpart).
      exists (v :: part). split; [|cbn [take]; now apply row_converted_cons].
      cbn [convert_type drop]. now rewrite Hv, Hrun.
Qed.

(** The rows before the one that stops the conversion are converted,
    the rows after it are left as they are. *)
Lemma convert_rows_stops tys before failing after p e :
  Forall (row_converts tys) before ->
  convert_type failing tys = (p, Some e) ->
  exists converted,
    convert_rows (before ++ failing :: after) tys
    = (converted ++ p :: map (map VStr) after, Some e) /\
    Forall2 (row_converted tys) before converted.
Proof.
  intros Hb Hf. induction Hb as [|r before Hr _ (conv & IH & Hconv)].
  - exists []. split; [|constructor]. cbn [app convert_rows]. now rewrite Hf.
  - destruct (convert_type_passes tys r Hr) as (r' & Hr' & Hcr).
    exists (r' :: conv). split; [|now constructor].
    cbn [app convert_rows]. now rewrite Hr', IH.
Qed.

Lemma extract_datatypes_stops schema before failing after c e :
  length schema = length (hd failing before) ->
  Forall (row_converts (map get_type (hd failing before))) before ->
  row_converts (map get_type (hd failing before)) (take c failing) ->
  stops_at (map get_type (hd failing before)) failing c e ->
  exists converted partial,
    extract_datatypes schema (before ++ failing :: after)
    = (schema,
       converted ++ (partial ++ map VStr (drop c failing))
         :: map (map VStr) after,
       Some e) /\
    Forall2 (row_converted (map get_type (hd failing before))) before converted /\
    row_converted (map get_type (hd failing before)) (take c failing) partial.
Proof.
  intros Hlen Hb Hpre Hstop.
  destruct (convert_type_stops _ _ _ _ Hpre Hstop) as (part & Hf & Hpart).
  destruct (convert_rows_stops _ before failing after _ _ Hb Hf)
    as (conv & Hrun & Hconv).
  exists conv, part. split; [|now split].
  unfold extract_datatypes.
  assert (Hrows : exists first rest, before ++ failing :: after = first :: rest
                                     /\ hd failing before = first).
  { destruct before as [|b bs]; [now exists failing, after|].
    now exists b, (bs ++ failing :: after). }
  destruct Hrows as (first & rest & Hrows & Hfirst).
  rewrite Hfirst in *. rewrite Hrows in *.
  apply Nat.eqb_eq in Hlen. rewrite Hlen. cbn [negb]. now rewrite Hrun.
Qed.

(** C2, as stated, fails: in a column typed number from its first cell
    [1], the later cell [abc] makes the conversion raise; the parser
    catches it and returns the rows converted up to that cell, and
    [execute] returns normally and keeps them in the cursor. *)
Lemma conversion_error_is_swallowed :
  parse_query_result mistyped_table
  = ([Field "A" string_t false],
     [[VFloat PyFloat.one]; [VStr "abc"]; [VStr "2"]],
     Some (ValueError "could not convert string to float: 'abc'")) /\
  let '(result, s) :=
    CDEApiCursor.execute (scripted ["succeeded"] (text_of mistyped_table))
      "select a from t" [] new_cursor in
  result = Returned tt /\
  _rows (self s) = Is 1%positive /\
  heap s !! 1%positive
  = Some [[VFloat PyFloat.one]; [VStr "abc"]; [VStr "2"]].
Proof. vm_compute. repeat split. Qed.

(** C2, as amended: when a cell cannot be converted to the type
    inferred from the first row, a text [float] rejects in a column
    typed number, the error is caught inside table parsing and logged,
    and the output is returned all the same: every column of the schema
    is typed string, the rows before the failing one are converted, the
    failing row is converted up to the failing cell, the failing cell,
    the cells after it and the rows after it are left as text, and
    there is one row for each data line: none is dropped. *)
Theorem conversion_error_is_caught (env : environment) (job_name : string)
    (j : job) (s : state) (text : string)
    (pre : list string) (sep hdr below : string) (lines : list string)
    (before : list (list string)) (failing : list string)
    (after : list (list string)) (c : nat) (x : string) :
  on_get_logs env j "stdout" = inr text ->
  lines_of text = pre ++ sep :: hdr :: below :: lines ->
  Forall (fun l => is_separator l = false) pre ->
  is_separator sep = true ->
  cells hdr <> [] ->
  map cells (data_lines lines) = before ++ failing :: after ->
  length (cells hdr) = length (hd failing before) ->
  Forall (row_converts (map get_type (hd failing before))) before ->
  row_converts (map get_type (hd failing before)) (take c failing) ->
  failing !! c = Some x ->
  map get_type (hd failing before) !! c = Some number ->
  PyFloat.of_str x = None ->
  exists converted partial,
    CDEApiConnection.get_job_output env job_name j s
    = (Returned
         (map (fun n => Field n string_t false) (cells hdr),
          converted ++ (partial ++ map VStr (drop c failing))
            :: map (map VStr) after,
          text),
       State (heap s) (next_loc s) (self s)
         (trace s ++ [EvSleep DEFAULT_LOG_WAIT; EvGetLogs (id j) "stdout";
                      EvLogError "traceback"])
         (polls s) (clock_reads s)) /\
    parse_query_result (lines_of text)
    = (map (fun n => Field n string_t false) (cells hdr),
       converted ++ (partial ++ map VStr (drop c failing))
         :: map (map VStr) after,
       Some (ValueError ("could not convert string to float: "
                         ++ PyStr.repr x)%string)) /\
    Forall2 (row_converted (map get_type (hd failing before))) before converted /\
    row_converted (map get_type (hd failing before)) (take c failing) partial /\
    length (converted ++ (partial ++ map VStr (drop c failing))
              :: map (map VStr) after)
    = length (data_lines lines).
Proof.
  intros Hlogs Hlines Hpre Hsep Hhdr Hrows Hlen Hb Hc Hx Ht Hf.
  destruct (extract_datatypes_stops (header hdr) before failing after c
              (ValueError ("could not convert string to float: "
                           ++ PyStr.repr x)%string))
    as (conv & part & Hex & Hconv & Hpart).
  { unfold header. now rewrite length_map. }
  { exact Hb. }
  { exact Hc. }
  { right. now exists x. }
  assert (Hparse : parse_query_result (lines_of text)
                   = (header hdr,
                      conv ++ (part ++ map VStr (drop c failing))
                        :: map (map VStr) after,
                      Some (ValueError ("could not convert string to float: "
                                        ++ PyStr.repr x)%string))).
  { rewrite Hlines, (parse_at_header pre sep hdr _ Hpre Hsep).
    change (drop 1 (below :: lines)) with lines.
    assert (Hh : length (header hdr) = length (cells hdr))
      by (unfold header; apply length_map).
    replace (length (header hdr) =? 0)%nat with false
      by (symmetry; apply Nat.eqb_neq; rewrite Hh; destruct (cells hdr);
          [congruence|discriminate]).
    rewrite data_rows_cells, Hrows.
    replace (0 <? length (before ++ failing :: after))%nat with true
      by (symmetry; apply Nat.ltb_lt; rewrite length_app; cbn; lia).
    exact Hex. }
  exists conv, part. split; [|split; [exact Hparse|]].
  - unfold get_job_output, sleep, call, bind, emit, log_error, emit, ret.
    cbn. rewrite Hlogs. cbn. fold (lines_of text). rewrite Hparse.
    unfold log. cbn. rewrite <- !app_assoc. reflexivity.
  - split; [exact Hconv|]. split; [exact Hpart|].
    rewrite <- (length_map cells), Hrows, !length_app.
    cbn [length]. rewrite length_map.
    now rewrite (Forall2_length _ _ _ Hconv).
Qed.

Lemma conversion_error_is_caught_mistyped :
  exists converted partial,
    CDEApiConnection.get_job_output
      (scripted ["succeeded"] (text_of mistyped_table)) "job" (Job 42) new_cursor
    = (Returned
         (map (fun n => Field n string_t false) (cells "|A  |"),
          converted ++ (partial ++ map VStr (drop 0 ["abc"]))
            :: map (map VStr) [["2"]],
          text_of mistyped_table),
       State (heap new_cursor) (next_loc new_cursor) (self new_cursor)
         (trace new_cursor
          ++ [EvSleep DEFAULT_LOG_WAIT; EvGetLogs (id (Job 42)) "stdout";
              EvLogError "traceback"])
         (polls new_cursor) (clock_reads new_cursor)) /\
    parse_query_result (lines_of (text_of mistyped_table))
    = (map (fun n => Field n string_t false) (cells "|A  |"),
       converted ++ (partial ++ map VStr (drop 0 ["abc"]))
         :: map (map VStr) [["2"]],
       Some (ValueError ("could not convert string to float: "
                         ++ PyStr.repr "abc")%string)) /\
    Forall2 (row_converted (map get_type (hd ["abc"] [["1"]]))) [["1"]] converted /\
    row_converted (map get_type (hd ["abc"] [["1"]])) (take 0 ["abc"]) partial /\
    length (converted ++ (partial ++ map VStr (drop 0 ["abc"]))
              :: map (map VStr) [["2"]])
    = length (data_lines ["|1  |"; "|abc|"; "|2  |"; "+---+"]).
Proof.
  apply (conversion_error_is_caught
           (scripted ["succeeded"] (text_of mistyped_table)) "job" (Job 42)
           new_cursor (text_of mistyped_table)
           [] "+---+" "|A  |" "+---+" ["|1  |"; "|abc|"; "|2  |"; "+---+"]
           [["1"]] ["abc"] [["2"]] 0 "abc").
  - reflexivity.
  - reflexivity.
  - constructor.
  - reflexivity.
  - discriminate.
  - reflexivity.
  - reflexivity.
  - repeat constructor. intros i y Hi _. destruct i as [|i]; [|destruct i; discriminate].
    injection Hi as <-. discriminate.
  - split; [cbn; lia|]. intros i y Hi. destruct i; discriminate.
  - reflexivity.
  - reflexivity.
  - reflexivity.
Defined.

(** ** The cursor: fetching *)

Lemma fetchone_times_spec (l : loc) (n : nat) :
  forall (s : state) (rows : list row),
    _rows (self s) = Is l ->
    heap s !! l = Some rows ->
    exists s',
      fetchone_times n s
      = (Returned (map Some (take n rows) ++ replicate (n - length rows) None), s') /\
      self s' = self s /\
      heap s' !! l = Some (drop n rows).
Proof.
  induction n as [|n IH]; intros s rows Hrows Hheap.
  - exists s. cbn. rewrite drop_0. repeat split. exact Hheap.
  - cbn [fetchone_times]. unfold bind at 1.
    unfold CDEApiCursor.fetchone. rewrite Hrows, Hheap.
    destruct rows as [|r rest].
    + destruct (IH s [] Hrows Hheap) as (s' & Hrun & Hself & Hh).
      rewrite take_nil, drop_nil in *. cbn [length map app] in *.
      rewrite Nat.sub_0_r in Hrun.
      unfold bind. rewrite Hrun. exists s'. repeat split; assumption.
    + set (s1 := State (<[l:=rest]> (heap s)) (next_loc s) (self s) (trace s)
                   (polls s) (clock_reads s)).
      destruct (IH s1 rest Hrows) as (s' & Hrun & Hself & Hh).
      { cbn. apply lookup_insert_eq. }
      unfold bind. rewrite Hrun. exists s'. cbn. repeat split; assumption.
Qed.

(** C6: on a result of N rows, N+1 or more calls of [fetchone] return
    the N rows in order, first row first, and then [None] on the
    (N+1)-th call and on every call after it. *)
Theorem fetchone_drains_in_order (s : state) (l : loc) (rows : list row) (m : nat) :
  _rows (self s) = Is l ->
  heap s !! l = Some rows ->
  fst (fetchone_times (length rows + 1 + m) s)
  = Returned (map Some rows ++ replicate (1 + m) None).
Proof.
  intros Hrows Hheap.
  destruct (fetchone_times_spec l (length rows + 1 + m) s rows Hrows Hheap)
    as (s' & Hrun & _ & _).
  rewrite Hrun. cbn [fst]. rewrite take_ge by lia.
  replace (length rows + 1 + m - length rows) with (1 + m) by lia. reflexivity.
Qed.

Lemma fetchone_drains_two_rows :
  fst (fetchone_times (2 + 1 + 1) two_rows_fetched)
  = Returned [Some [VStr "a"]; Some [VStr "b"]; None; None].
Proof.
  apply (fetchone_drains_in_order two_rows_fetched 1%positive
           [[VStr "a"]; [VStr "b"]] 1).
  - reflexivity.
  - reflexivity.
Defined.

(** C10: [fetchall] returns the list object the cursor holds, not a copy
    of it: after [k] calls of [fetchone] on a result of N rows, that
    object, which a later [fetchall] returns again, holds exactly the
    N-k rows not yet consumed. *)
Theorem fetchall_is_live (s : state) (l : loc) (rows : list row) (k : nat) :
  _rows (self s) = Is l ->
  heap s !! l = Some rows ->
  CDEApiCursor.fetchall s = (Returned (Some l), s) /\
  let s' := snd (fetchone_times k s) in
  heap s' !! l = Some (drop k rows) /\
  length (drop k rows) = length rows - k /\
  CDEApiCursor.fetchall s' = (Returned (Some l), s').
Proof.
  intros Hrows Hheap. split.
  - unfold CDEApiCursor.fetchall. now rewrite Hrows.
  - destruct (fetchone_times_spec l k s rows Hrows Hheap) as (s' & Hrun & Hself & Hh).
    rewrite Hrun. cbn [snd]. split; [exact Hh|]. split; [apply length_drop|].
    unfold CDEApiCursor.fetchall. now rewrite Hself, Hrows.
Qed.

Lemma fetchall_is_live_two_rows :
  CDEApiCursor.fetchall two_rows_fetched = (Returned (Some 1%positive), two_rows_fetched) /\
  let s' := snd (fetchone_times 1 two_rows_fetched) in
  heap s' !! 1%positive = Some (drop 1 [[VStr "a"]; [VStr "b"]]) /\
  length (drop 1 [[VStr "a"]; [VStr "b"]]) = 2 - 1 /\
  CDEApiCursor.fetchall s' = (Returned (Some 1%positive), s').
Proof.
  apply (fetchall_is_live two_rows_fetched 1%positive [[VStr "a"]; [VStr "b"]] 1).
  - reflexivity.
  - reflexivity.
Defined.

(** ** The connection wrapper *)

Import CDEApiSessionConnectionWrapper.

(** C9: a boolean binding is an instance of [NUMBERS], [bool] being a
    subclass of [int], so [_fix_binding] makes [True] the float 1.0 and
    [False] the float 0.0, not the quoted text 'True' or 'False'. *)
Theorem boolean_binding_is_a_number (b : bool) :
  isinstance (PyBool b) NUMBERS = true /\
  isinstance (PyBool b) [cls_int] = true /\
  CDEApiSessionConnectionWrapper._fix_binding (PyBool b)
  = inr (PyFloat (if b then PyFloat.one else PyFloat.zero)) /\
  CDEApiSessionConnectionWrapper._fix_binding (PyBool b)
  <> inr (PyStr (quoted (if b then "True" else "False"))).
Proof. destruct b; repeat split; discriminate. Qed.

Lemma endswith_char_drop_last c s :
  PyStr.endswith_char c s = true ->
  s = (PyStr.drop_last s ++ String c EmptyString)%string.
Proof.
  induction s as [|a s IH]; cbn [PyStr.endswith_char PyStr.drop_last].
  - discriminate.
  - destruct s as [|a' s'].
    + intros H. apply Ascii.eqb_eq in H. subst a. reflexivity.
    + intros H. change (String a (String a' s')
                        = String a (PyStr.drop_last (String a' s') ++ String c "")%string).
      f_equal. exact (IH H).
Qed.

Lemma drop_last_snoc s c :
  PyStr.drop_last (s ++ String c EmptyString) = s.
Proof.
  induction s as [|a s IH]; [reflexivity|].
  change ((String a s ++ String c "")%string) with (String a (s ++ String c "")%string).
  cbn [PyStr.drop_last]. rewrite IH.
  destruct s; reflexivity.
Qed.

Lemma lstrip_app_space lead s :
  all_space lead -> PyStr.lstrip (lead ++ s) = PyStr.lstrip s.
Proof.
  unfold all_space. induction lead as [|c lead IH]; [reflexivity|].
  cbn [PyStr.forallb_str]. intros H. apply andb_true_iff in H as [Hc Hl].
  change (String c lead ++ s)%string with (String c (lead ++ s)%string).
  cbn [PyStr.lstrip]. rewrite Hc. now apply IH.
Qed.

Lemma rstrip_all_space trail : all_space trail -> PyStr.rstrip trail = "".
Proof.
  unfold all_space. induction trail as [|c trail IH]; [reflexivity|].
  cbn [PyStr.forallb_str]. intros H. apply andb_true_iff in H as [Hc Hl].
  cbn [PyStr.rstrip]. now rewrite (IH Hl), Hc.
Qed.

Lemma rstrip_app_space s trail :
  all_space trail -> PyStr.rstrip (s ++ trail) = PyStr.rstrip s.
Proof.
  intros H. induction s as [|c s IH]; [now apply rstrip_all_space|].
  change (String c s ++ trail)%string with (String c (s ++ trail)%string).
  cbn [PyStr.rstrip]. now rewrite IH.
Qed.

Lemma rstrip_no_space_at_end s :
  (forall rest c, s = (rest ++ String c "")%string -> PyStr.isspace c = false) ->
  PyStr.rstrip s = s.
Proof.
  induction s as [|c s IH]; [reflexivity|]. intros H. cbn [PyStr.rstrip].
  destruct s as [|c' s'].
  - cbn [PyStr.rstrip]. now rewrite (H "" c eq_refl).
  - rewrite IH.
    2:{ intros rest x E. apply (H (String c rest) x). cbn. now rewrite E. }
    reflexivity.
Qed.

Lemma strip_trimmed_to sql body : trimmed_to sql body -> PyStr.strip sql = body.
Proof.
  intros (lead & trail & -> & Hlead & Htrail & Hfirst & Hlast).
  unfold PyStr.strip. rewrite (lstrip_app_space lead _ Hlead).
  destruct body as [|c body].
  - change ("" ++ trail)%string with trail.
    assert (Hl : PyStr.lstrip trail = "").
    { clear -Htrail. unfold all_space in Htrail.
      induction trail as [|c t IH]; [reflexivity|].
      cbn [PyStr.forallb_str] in Htrail.
      apply andb_true_iff in Htrail as [Hc Ht].
      cbn [PyStr.lstrip]. rewrite Hc. now apply IH. }
    now rewrite Hl.
  - change (String c body ++ trail)%string with (String c (body ++ trail)%string).
    cbn [PyStr.lstrip]. rewrite (Hfirst c body eq_refl).
    change (String c (body ++ trail)%string) with (String c body ++ trail)%string.
    rewrite (rstrip_app_space _ _ Htrail). now apply rstrip_no_space_at_end.
Qed.

Lemma endswith_char_snoc t c : PyStr.endswith_char c (t ++ String c "") = true.
Proof.
  induction t as [|a t IH]; [cbn; apply Ascii.eqb_refl|].
  change (String a t ++ String c "")%string with (String a (t ++ String c "")%string).
  cbn [PyStr.endswith_char]. destruct (t ++ String c "")%string eqn:E; [|exact IH].
  destruct t; discriminate.
Qed.

(** Every text has a trimmed body: the one [strip] returns. *)
Lemma lstrip_splits s :
  exists lead, s = (lead ++ PyStr.lstrip s)%string /\ all_space lead.
Proof.
  induction s as [|c s (lead & IH & Hl)]; [now exists ""|].
  cbn [PyStr.lstrip]. destruct (PyStr.isspace c) eqn:Hc.
  - exists (String c lead). split.
    + change (String c s = String c (lead ++ PyStr.lstrip s)%string).
      f_equal. exact IH.
    + unfold all_space. cbn [PyStr.forallb_str]. now rewrite Hc.
  - now exists "".
Qed.

Lemma rstrip_splits s :
  exists trail, s = (PyStr.rstrip s ++ trail)%string /\ all_space trail /\
    (forall rest c, PyStr.rstrip s = (rest ++ String c "")%string ->
                    PyStr.isspace c = false).
Proof.
  induction s as [|c s (trail & IH & Ht & Hend)].
  - exists "". repeat split. intros [|? ?] c; discriminate.
  - cbn [PyStr.rstrip]. destruct (PyStr.rstrip s) as [|c' r] eqn:Hr.
    + destruct (PyStr.isspace c) eqn:Hc.
      * exists (String c trail).
        split; [change ("" ++ trail)%string with trail in IH;
                change ("" ++ String c trail)%string with (String c trail);
                now f_equal|].
        split; [unfold all_space; cbn [PyStr.forallb_str]; now rewrite Hc|].
        intros [|? ?] x; discriminate.
      * exists trail.
        split; [change ("" ++ trail)%string with trail in IH;
                change (String c "" ++ trail)%string with (String c trail);
                now f_equal|].
        split; [exact Ht|]. intros [|a rest] x E.
        -- cbn in E. now injection E as <-.
        -- cbn in E. injection E as _ E. destruct rest; discriminate.
    + exists trail.
      split; [change (String c s = String c (String c' r ++ trail)%string);
              now f_equal|].
      split; [exact Ht|]. intros [|a rest] x E.
      * cbn in E. discriminate.
      * cbn in E. injection E as _ E. exact (Hend rest x E).
Qed.

Lemma every_text_is_trimmed sql : trimmed_to sql (PyStr.strip sql).
Proof.
  unfold PyStr.strip.
  destruct (lstrip_splits sql) as (lead & Hsql & Hlead).
  destruct (rstrip_splits (PyStr.lstrip sql)) as (trail & Hl & Htrail & Hend).
  exists lead, trail. split; [now rewrite <- Hl|].
  split; [exact Hlead|]. split; [exact Htrail|]. split; [|exact Hend].
  intros c rest E.
  destruct (PyStr.lstrip sql) as [|a l] eqn:Hls; [discriminate|].
  assert (Ha : PyStr.isspace a = false).
  { clear -Hls. induction sql as [|x sql IH]; [discriminate|].
    cbn [PyStr.lstrip] in Hls. destruct (PyStr.isspace x) eqn:Hx; [auto|].
    now injection Hls as <- _. }
  cbn [PyStr.rstrip] in E.
  destruct (PyStr.rstrip l); [rewrite Ha in E|]; now injection E as <- _.
Qed.

Lemma no_space_at_ends_snoc t c :
  (forall a rest, (t ++ String c "")%string = String a rest ->
                  PyStr.isspace a = false) ->
  PyStr.isspace c = false ->
  no_space_at_ends (t ++ String c "").
Proof.
  intros Hfirst Hc. split; [exact Hfirst|].
  intros rest x E.
  assert (H : forall a b x y, (a ++ String x "")%string = (b ++ String y "")%string
                              -> x = y).
  { clear. induction a as [|p a IH]; intros [|q b] x y E; cbn in E.
    - now injection E.
    - injection E as _ E. destruct b; discriminate.
    - injection E as _ E. destruct a; discriminate.
    - injection E as _ E. eauto. }
  now rewrite <- (H _ _ _ _ E).
Qed.

(** C8: whatever whitespace surrounds it, when the text between, its
    trimmed body, ends with a semicolon, the wrapper's [execute] hands
    the cursor that body less its last semicolon, and nothing else is
    removed from it; when the body does not end with a semicolon the
    text is handed over as it was given; the body is what [strip]
    returns.  Every text has such a body, [every_text_is_trimmed]. *)
Theorem execute_strips_one_semicolon
    (cursor_execute : string -> list pyobj -> M unit)
    (sql body : string) (bindings : option (list pyobj)) :
  trimmed_to sql body ->
  (forall t, body = (t ++ ";")%string ->
     CDEApiSessionConnectionWrapper.execute cursor_execute sql bindings
     = cursor_called_with cursor_execute t bindings) /\
  ((forall t, body <> (t ++ ";")%string) ->
     CDEApiSessionConnectionWrapper.execute cursor_execute sql bindings
     = cursor_called_with cursor_execute sql bindings) /\
  PyStr.strip sql = body.
Proof.
  intros Hbody. apply strip_trimmed_to in Hbody.
  unfold CDEApiSessionConnectionWrapper.execute, cursor_called_with.
  rewrite Hbody. split; [|split; [|reflexivity]].
  - intros t ->. now rewrite endswith_char_snoc, drop_last_snoc.
  - intros Hno. destruct (PyStr.endswith_char ";" body) eqn:Hend; [|reflexivity].
    exfalso. apply (Hno (PyStr.drop_last body)).
    now apply endswith_char_drop_last.
Qed.

Lemma execute_strips_one_semicolon_padded :
  CDEApiSessionConnectionWrapper.execute
    (CDEApiCursor.execute (scripted ["succeeded"] ""))
    "  select 1 ;;   " None
  = CDEApiCursor.execute (scripted ["succeeded"] "") "select 1 ;" [].
Proof.
  apply (execute_strips_one_semicolon
           (CDEApiCursor.execute (scripted ["succeeded"] ""))
           "  select 1 ;;   " "select 1 ;;" None).
  - exists "  ", "   ". split; [reflexivity|]. split; [reflexivity|].
    split; [reflexivity|].
    apply (no_space_at_ends_snoc "select 1 ;" ";"); [|reflexivity].
    intros a rest E. now injection E as <- _.
  - reflexivity.
Defined.

(** ** The cursor: [execute] *)

Import CDEApiCursor.

Lemma bind_returned {A B} (c : M A) (k : A -> M B) s a s1 :
  c s = (Returned a, s1) -> bind c k s = k a s1.
Proof. intros H. unfold bind. now rewrite H. Qed.

Lemma call_answered {A} ev (answer : string + A) a s :
  answer = inr a -> call ev answer s = (Returned a, log ev s).
Proof. intros ->. reflexivity. Qed.

Lemma total_slept_app tr1 tr2 :
  total_slept (tr1 ++ tr2) = (total_slept tr1 + total_slept tr2)%Z.
Proof.
  induction tr1 as [|ev tr1 IH]; [reflexivity|].
  destruct ev; cbn [app total_slept]; rewrite IH; lia.
Qed.

Lemma poll_sleeps_app tr1 tr2 :
  poll_sleeps (tr1 ++ tr2) = poll_sleeps tr1 + poll_sleeps tr2.
Proof. unfold poll_sleeps. now rewrite List.filter_app, length_app. Qed.

(** The waiting loop on statuses that are never terminal. *)
Lemma wait_loop_times_out (env : environment) (job_name : string) (j : job) :
  never_terminal env ->
  forall (k fuel : nat) (total : Z) (js : job_status) (s : state),
    status js <> CDEApiConnection.JOB_STATUS_succeeded ->
    (total + DEFAULT_POLL_WAIT * Z.of_nat (S k) = DEFAULT_CDE_JOB_TIMEOUT)%Z ->
    S k <= fuel ->
    exists s',
      wait_loop fuel env job_name j total js s
      = (Raised (RPCTimeoutException DEFAULT_CDE_JOB_TIMEOUT), s') /\
      polls s' = polls s + S k /\
      total_slept (trace s')
      = (total_slept (trace s) + DEFAULT_POLL_WAIT * Z.of_nat (S k))%Z /\
      poll_sleeps (trace s') = poll_sleeps (trace s) + S k /\
      delete_job_attempts (trace s') = delete_job_attempts (trace s) /\
      delete_resource_attempts (trace s') = delete_resource_attempts (trace s).
Proof.
  intros Hnever k. induction k as [|k IH]; intros fuel total js s Hjs Htotal Hfuel.
  - destruct fuel as [|fuel]; [lia|]. cbn [wait_loop].
    apply String.eqb_neq in Hjs. unfold PyStr.eqb. rewrite Hjs.
    destruct (Hnever (polls s) j) as (js' & Hans & Hs' & Hf').
    apply String.eqb_neq in Hf'.
    unfold bind, sleep, emit, CDEApiConnection.get_job_run_status, count_poll, call,
      bind, emit, ret, raise, log_error, emit. cbn.
    rewrite Hans. cbn. rewrite Hf'.
    replace (DEFAULT_CDE_JOB_TIMEOUT <=? total + DEFAULT_POLL_WAIT)%Z with true
      by (symmetry; apply Z.leb_le;
          unfold DEFAULT_POLL_WAIT, DEFAULT_CDE_JOB_TIMEOUT in *; lia).
    cbn. eexists. split; [reflexivity|]. cbn [trace polls log].
    rewrite !total_slept_app, !poll_sleeps_app.
    unfold delete_job_attempts, delete_resource_attempts.
    rewrite !List.filter_app, !length_app. cbn. repeat split; lia.
  - destruct fuel as [|fuel]; [lia|]. cbn [wait_loop].
    pose proof Hjs as Hjsb. apply String.eqb_neq in Hjsb. unfold PyStr.eqb. rewrite Hjsb.
    destruct (Hnever (polls s) j) as (js' & Hans & Hs' & Hf').
    pose proof Hf' as Hfb. apply String.eqb_neq in Hfb.
    unfold bind at 1. unfold sleep, emit.
    unfold bind at 1. unfold CDEApiConnection.get_job_run_status, count_poll, call,
      bind at 1. cbn [polls log]. unfold bind at 1. unfold emit.
    rewrite Hans. unfold ret at 1.
    unfold bind at 1. rewrite Hfb. unfold ret at 1.
    replace (DEFAULT_CDE_JOB_TIMEOUT <=? total + DEFAULT_POLL_WAIT)%Z with false
      by (symmetry; apply Z.leb_gt;
          unfold DEFAULT_POLL_WAIT, DEFAULT_CDE_JOB_TIMEOUT in *; lia).
    unfold bind at 1. unfold ret at 1.
    match goal with
    | |- context [wait_loop fuel env job_name j ?t js' ?st] =>
        destruct (IH fuel t js' st Hs'
                    ltac:(unfold DEFAULT_POLL_WAIT, DEFAULT_CDE_JOB_TIMEOUT in *; lia)
                    ltac:(lia))
          as (s' & Hrun & Hp & Hsl & Hps & Hdj & Hdr)
    end.
    exists s'. split; [exact Hrun|]. cbn [trace polls log] in Hp, Hsl, Hps, Hdj, Hdr.
    rewrite !total_slept_app in Hsl. rewrite !poll_sleeps_app in Hps.
    unfold delete_job_attempts, delete_resource_attempts in *.
    rewrite !List.filter_app, !length_app in Hdj, Hdr.
    cbn [List.filter is_delete_job is_delete_resource length total_slept poll_sleeps] in *.
    unfold DEFAULT_POLL_WAIT in *. cbn [Z.eqb Pos.eqb] in Hps.
    cbn [length] in Hps.
    repeat split; lia.
Qed.

(** C7: when the calls that set the job up are answered and no status
    request is ever answered [succeeded] or [failed], [execute] sleeps
    the poll interval of 30 once per turn of the waiting loop and, the
    time slept having reached the ceiling of 900 after 30 turns, raises
    the timeout error that carries the ceiling. *)
Theorem polling_times_out (env : environment) (sql : string)
    (parameters : list pyobj) (s : state) :
  set_up_answers env sql parameters ->
  never_terminal env ->
  exists s',
    CDEApiCursor.execute env sql parameters s
    = (Raised (RPCTimeoutException DEFAULT_CDE_JOB_TIMEOUT), s') /\
    DEFAULT_CDE_JOB_TIMEOUT = 900%Z /\
    DEFAULT_POLL_WAIT = 30%Z /\
    poll_sleeps (trace s') = poll_sleeps (trace s) + 30 /\
    total_slept (trace s') = (total_slept (trace s) + DEFAULT_CDE_JOB_TIMEOUT)%Z /\
    polls s' = polls s + 31.
Proof.
  intros (Hfmt & Hcreate & Hupload & Hsubmit & Hrun) Hnever.
  unfold execute.
  assert (Hsql : exists sql0,
             (if (0 <? length parameters)%nat
              then format_sql env sql parameters else ret sql) s
             = (Returned sql0, s)).
  { destruct Hfmt as [-> | [sql' Hsql']].
    - exists sql. reflexivity.
    - destruct (0 <? length parameters)%nat; [|exists sql; reflexivity].
      exists sql'. unfold format_sql. now rewrite Hsql'. }
  destruct Hsql as [sql0 Hsql]. rewrite (bind_returned _ _ _ _ _ Hsql).
  unfold generate_job_name, read_clock. unfold bind at 1. unfold bind at 1.
  unfold ret at 1.
  set (job_name := ("dbt-job-" ++ _)%string).
  unfold CDEApiConnection.create_resource.
  destruct (Hcreate job_name "files") as [c1 Hc1].
  erewrite bind_returned by (apply call_answered; exact Hc1).
  unfold CDEApiHelper.generate_sql_resource, read_clock.
  unfold bind at 1. unfold bind at 1. unfold ret at 1.
  unfold CDEApiHelper.get_python_wrapper_resource, read_clock.
  unfold bind at 1. unfold bind at 1. unfold ret at 1.
  cbn [file_name file_obj job_name_of clock_reads log trace polls heap next_loc self].
  unfold CDEApiConnection.upload_resource.
  cbn [file_name file_obj job_name_of].
  match goal with
  | |- context [on_upload_resource env ?n ?f] =>
      destruct (Hupload n f) as [c2 Hc2]
  end.
  erewrite bind_returned by (apply call_answered; exact Hc2).
  match goal with
  | |- context [call _ (on_upload_resource env ?n ?f)] =>
      destruct (Hupload n f) as [c3 Hc3]
  end.
  erewrite bind_returned by (apply call_answered; exact Hc3).
  unfold CDEApiConnection.submit_job.
  destruct (Hsubmit job_name) as [c4 Hc4].
  erewrite bind_returned by (apply call_answered; exact Hc4).
  unfold CDEApiConnection.run_job.
  destruct (Hrun job_name) as [j Hj].
  erewrite bind_returned by (apply call_answered; exact Hj).
  unfold CDEApiConnection.get_job_run_status at 1, count_poll.
  unfold bind at 1. unfold bind at 1.
  cbn [file_name file_obj job_name_of clock_reads log trace polls heap next_loc self].
  match goal with
  | |- context [on_get_job_run_status env ?n j] =>
      destruct (Hnever n j) as (js & Hjs & Hns & Hnf)
  end.
  rewrite (call_answered _ _ _ _ Hjs).
  unfold bind at 1.
  match goal with
  | |- context [wait_loop poll_fuel env job_name j 0 js ?st] =>
      destruct (wait_loop_times_out env job_name j Hnever 29 poll_fuel 0%Z js st Hns)
        as (s' & Hloop & Hp & Hsl & Hps & _)
  end.
  { reflexivity. }
  { vm_compute. lia. }
  rewrite Hloop. exists s'. split; [reflexivity|].
  split; [reflexivity|]. split; [reflexivity|].
  cbn [trace polls log] in Hp, Hsl, Hps.
  rewrite !total_slept_app in Hsl. rewrite !poll_sleeps_app in Hps.
  cbn [total_slept poll_sleeps List.filter length] in Hsl, Hps.
  unfold DEFAULT_POLL_WAIT, DEFAULT_CDE_JOB_TIMEOUT in *.
  repeat split; lia.
Qed.

Lemma polling_times_out_scripted :
  exists s',
    CDEApiCursor.execute (scripted [] "") "select 1" [] new_cursor
    = (Raised (RPCTimeoutException DEFAULT_CDE_JOB_TIMEOUT), s') /\
    DEFAULT_CDE_JOB_TIMEOUT = 900%Z /\
    DEFAULT_POLL_WAIT = 30%Z /\
    poll_sleeps (trace s') = poll_sleeps (trace new_cursor) + 30 /\
    total_slept (trace s')
    = (total_slept (trace new_cursor) + DEFAULT_CDE_JOB_TIMEOUT)%Z /\
    polls s' = polls new_cursor + 31.
Proof.
  apply (polling_times_out (scripted [] "") "select 1" [] new_cursor).
  - unfold set_up_answers. simpl. repeat split; eauto.
  - intros n j. simpl. eexists. split; [reflexivity|].
    destruct n; simpl; split; discriminate.
Defined.

(** *** Cleanup *)

Lemma cleanup_log ev s : not_delete ev -> cleanup (log ev s) = cleanup s.
Proof.
  intros [H1 H2]. unfold cleanup, delete_job_attempts, delete_resource_attempts.
  cbn [log trace]. rewrite !List.filter_app, !length_app. cbn [List.filter].
  rewrite H1, H2. cbn [length]. f_equal; lia.
Qed.

Lemma calm_ret {A} (a : A) : calm (ret a).
Proof. intros s o s' H. injection H as <- <-. split; [reflexivity|discriminate]. Qed.

Lemma calm_raise {A} (e : exn) : calm (@raise A e).
Proof. intros s o s' H. injection H as <- <-. split; [reflexivity|discriminate]. Qed.

Lemma calm_bind {A B} (c : M A) (k : A -> M B) :
  calm c -> (forall a, calm (k a)) -> calm (bind c k).
Proof.
  intros Hc Hk s o s' H. unfold bind in H.
  destruct (c s) as [[a|e|] s1] eqn:Hcs.
  - destruct (Hc _ _ _ Hcs) as [H1 _]. destruct (Hk a _ _ _ H) as [H2 H3].
    split; [congruence|exact H3].
  - injection H as <- <-. destruct (Hc _ _ _ Hcs) as [H1 _].
    split; [exact H1|discriminate].
  - destruct (Hc _ _ _ Hcs) as [_ H1]. contradiction.
Qed.

Lemma calm_emit ev : not_delete ev -> calm (emit ev).
Proof.
  intros Hev s o s' H. injection H as <- <-.
  split; [now apply cleanup_log|discriminate].
Qed.

Lemma calm_call {A} ev (answer : string + A) : not_delete ev -> calm (call ev answer).
Proof.
  intros Hev. unfold call. apply calm_bind; [now apply calm_emit|].
  intros _. destruct answer; [apply calm_raise|apply calm_ret].
Qed.

Lemma calm_read_clock env : calm (read_clock env).
Proof. intros s o s' H. injection H as <- <-. split; [reflexivity|discriminate]. Qed.

Lemma calm_count_poll : calm count_poll.
Proof. intros s o s' H. injection H as <- <-. split; [reflexivity|discriminate]. Qed.

Lemma calm_alloc rows : calm (alloc rows).
Proof. intros s o s' H. injection H as <- <-. split; [reflexivity|discriminate]. Qed.

Lemma calm_set_rows v : calm (set_rows v).
Proof. intros s o s' H. injection H as <- <-. split; [reflexivity|discriminate]. Qed.

Lemma calm_set_schema v : calm (set_schema v).
Proof. intros s o s' H. injection H as <- <-. split; [reflexivity|discriminate]. Qed.

Create HintDb calm.
#[local] Hint Resolve calm_ret calm_raise calm_emit calm_call calm_read_clock
  calm_count_poll calm_alloc calm_set_rows calm_set_schema : calm.
#[local] Hint Extern 1 (not_delete _) => (split; reflexivity) : calm.
#[local] Hint Extern 2 (calm (bind _ _)) => (apply calm_bind; [|intros ?]) : calm.

Lemma calm_get_job_run_status env j : calm (CDEApiConnection.get_job_run_status env j).
Proof. unfold CDEApiConnection.get_job_run_status. auto with calm. Qed.

Lemma calm_get_job_output env job_name j :
  calm (CDEApiConnection.get_job_output env job_name j).
Proof.
  unfold CDEApiConnection.get_job_output, sleep, log_error.
  apply calm_bind; [auto with calm|]. intros _.
  apply calm_bind; [auto with calm|]. intros text.
  destruct (CDEApiConnection.parse_query_result _) as [[schema rows] [e|]];
    auto with calm.
Qed.

#[local] Hint Resolve calm_get_job_run_status calm_get_job_output : calm.

Lemma calm_wait_loop env job_name j :
  forall fuel total js,
    (total < DEFAULT_CDE_JOB_TIMEOUT <= total + DEFAULT_POLL_WAIT * Z.of_nat fuel)%Z ->
    calm (wait_loop fuel env job_name j total js).
Proof.
  induction fuel as [|fuel IH]; intros total js Hfuel.
  - unfold DEFAULT_POLL_WAIT, DEFAULT_CDE_JOB_TIMEOUT in Hfuel. lia.
  - cbn [wait_loop].
    destruct (PyStr.eqb (status js) CDEApiConnection.JOB_STATUS_succeeded);
      [auto with calm|].
    unfold sleep, log_error.
    apply calm_bind; [auto with calm|]. intros _.
    apply calm_bind; [auto with calm|]. intros js'.
    apply calm_bind.
    { destruct (PyStr.eqb (status js') CDEApiConnection.JOB_STATUS_failed);
        auto 6 with calm. }
    intros _.
    destruct (DEFAULT_CDE_JOB_TIMEOUT <=? total + DEFAULT_POLL_WAIT)%Z eqn:Hle.
    + intros s o s' H. cbv [bind emit raise] in H. injection H as <- <-.
      split; [apply cleanup_log; split; reflexivity|discriminate].
    + apply calm_bind; [auto with calm|]. intros _.
      apply IH. apply Z.leb_gt in Hle.
      unfold DEFAULT_POLL_WAIT, DEFAULT_CDE_JOB_TIMEOUT in *. lia.
Qed.

Lemma cleanup_by_outcome_bind {A B} (c : M A) (k : A -> M B) :
  calm c -> (forall a, cleanup_by_outcome (k a)) -> cleanup_by_outcome (bind c k).
Proof.
  intros Hc Hk s o s' H. unfold bind in H.
  destruct (c s) as [[a|e|] s1] eqn:Hcs.
  - destruct (Hc _ _ _ Hcs) as [H1 _]. unfold cleanup in H1.
    injection H1 as Hj Hr. rewrite <- Hj, <- Hr. exact (Hk a _ _ _ H).
  - injection H as <- <-. destruct (Hc _ _ _ Hcs) as [H1 _]. unfold cleanup in H1.
    injection H1 as Hj Hr. rewrite Hj, Hr. destruct e; lia.
  - destruct (Hc _ _ _ Hcs) as [_ H1]. contradiction.
Qed.

Lemma cleanup_by_outcome_deletes env job_name :
  cleanup_by_outcome
    (CDEApiConnection.delete_job env job_name ;;;
     CDEApiConnection.delete_resource env job_name ;;; ret tt).
Proof.
  intros s o s' H.
  unfold CDEApiConnection.delete_job, CDEApiConnection.delete_resource in H.
  cbv [bind call emit ret raise] in H.
  destruct (on_delete_job env job_name) as [m1|c1];
    [|destruct (on_delete_resource env job_name) as [m2|c2]];
    injection H as <- <-;
    unfold delete_job_attempts, delete_resource_attempts; cbn [log trace];
    rewrite !List.filter_app, !length_app; cbn; lia.
Qed.

(** C1, as stated, fails: a job reported [failed], and a job still
    [running] at the ceiling, end [execute] with no cleanup call at
    all; and after a job that succeeded, a delete call that raises
    makes [execute] raise. *)
Lemma cleanup_is_skipped_on_failure :
  (let '(o, s') :=
     CDEApiCursor.execute (scripted ["running"; "failed"] "") "select 1" []
       new_cursor in
   o = Raised (DatabaseException
                 "Error while executing query: {'id': 42, 'status': 'failed'}") /\
   delete_job_attempts (trace s') = 0 /\
   delete_resource_attempts (trace s') = 0) /\
  (let '(o, s') :=
     CDEApiCursor.execute (scripted [] "") "select 1" [] new_cursor in
   o = Raised (RPCTimeoutException 900) /\
   delete_job_attempts (trace s') = 0 /\
   delete_resource_attempts (trace s') = 0) /\
  (let '(o, s') :=
     CDEApiCursor.execute
       (with_delete_answers (scripted ["succeeded"] (text_of box_table))
          (fun _ => inl "connection reset") (fun _ => inr 204%Z))
       "select 1" [] new_cursor in
   o = Raised (RequestException "connection reset") /\
   _rows (self s') = Is 1%positive).
Proof. vm_compute. repeat split. Qed.

Lemma execute_cleanup_by_outcome (env : environment) (sql : string)
    (parameters : list pyobj) :
  cleanup_by_outcome (CDEApiCursor.execute env sql parameters).
Proof.
  unfold execute, generate_job_name, CDEApiHelper.generate_sql_resource,
    CDEApiHelper.get_python_wrapper_resource, CDEApiConnection.create_resource,
    CDEApiConnection.upload_resource, CDEApiConnection.submit_job, CDEApiConnection.run_job.
  apply cleanup_by_outcome_bind.
  { destruct (0 <? length parameters)%nat; [|auto with calm].
    unfold format_sql. destruct (percent env sql parameters); auto with calm. }
  intros sql0.
  repeat (apply cleanup_by_outcome_bind; [solve [auto with calm]|]; intros ?).
  apply cleanup_by_outcome_bind.
  { apply calm_wait_loop. vm_compute. split; [reflexivity|discriminate]. }
  intros _.
  repeat (apply cleanup_by_outcome_bind; [solve [auto with calm]|]; intros ?).
  apply cleanup_by_outcome_deletes.
Qed.

(** What the code does on the other two terminal states: when [execute]
    raises because the job failed or because the waiting timed out, no
    delete call has been made. *)
Lemma no_cleanup_after_failure_or_timeout (env : environment) (sql : string)
    (parameters : list pyobj) (s s' : state) (e : exn) :
  CDEApiCursor.execute env sql parameters s = (Raised e, s') ->
  (exists msg, e = DatabaseException msg) \/ (exists t, e = RPCTimeoutException t) ->
  delete_job_attempts (trace s') = delete_job_attempts (trace s) /\
  delete_resource_attempts (trace s') = delete_resource_attempts (trace s).
Proof.
  intros Hrun He.
  pose proof (execute_cleanup_by_outcome env sql parameters s _ _ Hrun) as H.
  destruct He as [[msg ->] | [t ->]]; exact H.
Qed.

(** * Further properties *)

(** ** The output parser: tables that are not there, or not whole *)

Lemma scan_separator_none lines k :
  Forall (fun l => is_separator l = false) lines ->
  scan_separator lines k = k + length lines.
Proof.
  intros H. revert k. induction H as [|l ls Hl _ IH]; intros k;
    cbn [scan_separator length].
  - lia.
  - rewrite Hl, IH. lia.
Qed.

(** X1: a text in which no line is a separator, or only the last line
    is, has no table: the parser returns an empty schema and no rows,
    and logs nothing. *)
Theorem parse_without_table (pre : list string) (last : string) :
  Forall (fun l => is_separator l = false) pre ->
  parse_query_result pre = ([], [], None) /\
  parse_query_result (pre ++ [last]) = ([], [], None).
Proof.
  intros Hpre. split.
  - unfold parse_query_result. rewrite (scan_separator_none pre 0 Hpre).
    cbn [Nat.add]. now rewrite Nat.eqb_refl.
  - unfold parse_query_result.
    destruct (is_separator last) eqn:Hlast.
    + rewrite (scan_separator_app pre last [] 0 Hpre Hlast).
      rewrite length_app. cbn [length Nat.add].
      replace (S (length pre) =? length pre + 1)%nat with true
        by (symmetry; apply Nat.eqb_eq; lia).
      reflexivity.
    + rewrite (scan_separator_none (pre ++ [last]) 0).
      * cbn [Nat.add]. now rewrite Nat.eqb_refl.
      * apply Forall_app. split; [exact Hpre|]. constructor; [exact Hlast|constructor].
Qed.

Lemma parse_without_table_log :
  parse_query_result ["Spark job started"; "no rows here"] = ([], [], None) /\
  parse_query_result (["Spark job started"; "no rows here"] ++ ["+---+"])
  = ([], [], None).
Proof.
  apply (parse_without_table ["Spark job started"; "no rows here"] "+---+").
  repeat constructor.
Defined.

(** X2: a table with a header but no data line (the text ends, or the
    line two below the header is a separator) gives the header's
    columns, all typed string and not nullable, and no rows. *)
Theorem parse_header_without_rows (pre : list string) (sep hdr : string)
    (rest : list string) :
  Forall (fun l => is_separator l = false) pre ->
  is_separator sep = true ->
  data_lines (drop 1 rest) = [] ->
  parse_query_result (pre ++ sep :: hdr :: rest)
  = (map (fun x => Field x string_t false) (cells hdr), [], None).
Proof.
  intros Hpre Hsep Hdata. rewrite (parse_at_header pre sep hdr rest Hpre Hsep).
  rewrite data_rows_cells, Hdata. cbn [map length Nat.ltb Nat.leb].
  unfold header. destruct (length _ =? 0)%nat; reflexivity.
Qed.

Lemma parse_header_without_rows_empty_result :
  parse_query_result ([] ++ "+---+---+" :: "|A  |B  |" :: ["+---+---+"; "+---+---+"])
  = (map (fun x => Field x string_t false) (cells "|A  |B  |"), [], None).
Proof.
  apply (parse_header_without_rows [] "+---+---+" "|A  |B  |"
           ["+---+---+"; "+---+---+"]).
  - constructor.
  - reflexivity.
  - reflexivity.
Defined.

(** X3: the line right after the header is skipped unread: whatever it
    holds, a separator or not, the result is the same. *)
Theorem line_after_header_is_not_read (pre : list string) (sep hdr x y : string)
    (rest : list string) :
  Forall (fun l => is_separator l = false) pre ->
  is_separator sep = true ->
  parse_query_result (pre ++ sep :: hdr :: x :: rest)
  = parse_query_result (pre ++ sep :: hdr :: y :: rest).
Proof.
  intros Hpre Hsep.
  rewrite !(parse_at_header pre sep hdr _ Hpre Hsep). reflexivity.
Qed.

Lemma line_after_header_is_not_read_box :
  parse_query_result ([] ++ "+---+" :: "|A  |" :: "+---+" :: ["|1  |"; "+---+"])
  = parse_query_result ([] ++ "+---+" :: "|A  |" :: "|7  |" :: ["|1  |"; "+---+"]).
Proof.
  apply (line_after_header_is_not_read [] "+---+" "|A  |" "+---+" "|7  |"
           ["|1  |"; "+---+"]).
  - constructor.
  - reflexivity.
Defined.

Lemma data_rows_stop l1 close junk :
  PyStr.startswith "+-" (PyStr.strip close) = true ->
  data_rows (l1 ++ close :: junk) = data_rows (l1 ++ [close]).
Proof.
  intros Hc. induction l1 as [|l l1 IH]; cbn [app data_rows].
  - now rewrite Hc.
  - destruct (PyStr.startswith "+-" (PyStr.strip l)); [reflexivity|]. now rewrite IH.
Qed.

(** X4: the rows end at the first separator line below the header's own:
    nothing after it is read. *)
Theorem lines_after_the_table_are_not_read (pre : list string)
    (sep hdr x close : string) (data junk : list string) :
  Forall (fun l => is_separator l = false) pre ->
  is_separator sep = true ->
  is_separator close = true ->
  parse_query_result (pre ++ sep :: hdr :: x :: data ++ close :: junk)
  = parse_query_result (pre ++ sep :: hdr :: x :: data ++ [close]).
Proof.
  intros Hpre Hsep Hclose.
  rewrite !(parse_at_header pre sep hdr _ Hpre Hsep). cbn [drop].
  rewrite !drop_0. now rewrite (data_rows_stop data close junk Hclose).
Qed.

Lemma lines_after_the_table_are_not_read_box :
  parse_query_result
    ([] ++ "+---+" :: "|A  |" :: "+---+" :: ["|1  |"] ++ "+---+" :: ["|2  |"; "done"])
  = parse_query_result
      ([] ++ "+---+" :: "|A  |" :: "+---+" :: ["|1  |"] ++ ["+---+"]).
Proof.
  apply (lines_after_the_table_are_not_read [] "+---+" "|A  |" "+---+" "+---+"
           ["|1  |"] ["|2  |"; "done"]).
  - constructor.
  - reflexivity.
  - reflexivity.
Defined.

(** *** Names *)

Lemma lstrip_no_space c s : PyStr.isspace c = false ->
  PyStr.lstrip (String c s) = String c s.
Proof. intros H. cbn [PyStr.lstrip]. now rewrite H. Qed.

Lemma lstrip_head s :
  PyStr.lstrip s = "" \/
  exists c t, PyStr.lstrip s = String c t /\ PyStr.isspace c = false.
Proof.
  induction s as [|c s IH]; cbn [PyStr.lstrip]; [now left|].
  destruct (PyStr.isspace c) eqn:Hc; [exact IH|]. right. now exists c, s.
Qed.

Lemma rstrip_cons c s :
  PyStr.rstrip (String c s)
  = match PyStr.rstrip s with
    | EmptyString => if PyStr.isspace c then EmptyString else String c EmptyString
    | r => String c r
    end.
Proof. reflexivity. Qed.

Lemma rstrip_idempotent s : PyStr.rstrip (PyStr.rstrip s) = PyStr.rstrip s.
Proof.
  induction s as [|c s IH]; [reflexivity|]. rewrite rstrip_cons.
  destruct (PyStr.rstrip s) as [|c' r] eqn:Hr.
  - destruct (PyStr.isspace c) eqn:Hc; [reflexivity|].
    rewrite rstrip_cons. cbn [PyStr.rstrip]. now rewrite Hc.
  - rewrite rstrip_cons, IH. reflexivity.
Qed.

Lemma rstrip_head c t :
  PyStr.isspace c = false ->
  exists t', PyStr.rstrip (String c t) = String c t'.
Proof.
  intros Hc. rewrite rstrip_cons. destruct (PyStr.rstrip t) as [|c' r].
  - rewrite Hc. now exists "".
  - now exists (String c' r).
Qed.

Lemma strip_idempotent s : PyStr.strip (PyStr.strip s) = PyStr.strip s.
Proof.
  unfold PyStr.strip.
  destruct (lstrip_head s) as [-> | (c & t & -> & Hc)]; [reflexivity|].
  destruct (rstrip_head c t Hc) as [t' Ht']. rewrite Ht'.
  rewrite (lstrip_no_space c t' Hc). rewrite <- Ht'. apply rstrip_idempotent.
Qed.

Lemma cells_trimmed line :
  Forall (fun x => x <> "" /\ PyStr.strip x = x) (cells line).
Proof.
  unfold cells. induction (PyStr.split "|" line) as [|x xs IH]; cbn [List.filter map].
  - constructor.
  - destruct (nonblank x) eqn:Hx; [|exact IH]. cbn [map]. constructor; [|exact IH].
    split; [|apply strip_idempotent].
    unfold nonblank, PyStr.eqb in Hx. apply negb_true_iff in Hx.
    now apply String.eqb_neq in Hx.
Qed.

Lemma record_types_names schema tys :
  map name (fst (record_types schema tys)) = map name schema /\
  map nullable (fst (record_types schema tys)) = map nullable schema.
Proof.
  revert schema. induction tys as [|t tys IH]; intros schema; cbn [record_types].
  - split; reflexivity.
  - destruct schema as [|f schema]; [split; reflexivity|].
    destruct (IH schema) as [H1 H2].
    destruct (record_types schema tys) as [d e]. cbn [fst map name nullable] in *.
    now rewrite H1, H2.
Qed.

Lemma extract_datatypes_names schema rows :
  map name (fst (fst (extract_datatypes schema rows))) = map name schema /\
  map nullable (fst (fst (extract_datatypes schema rows))) = map nullable schema.
Proof.
  unfold extract_datatypes. destruct rows as [|first_row rest]; [split; reflexivity|].
  destruct (length schema =? length first_row)%nat eqn:Hlen; cbn [negb];
    [|split; reflexivity].
  destruct (convert_rows (first_row :: rest) (map get_type first_row))
    as [rows' [e|]]; [split; reflexivity|].
  pose proof (record_types_names schema (map get_type first_row)) as H.
  destruct (record_types schema (map get_type first_row)) as [s' e'].
  exact H.
Qed.

(** X5: whatever types are inferred and whether or not inference fails,
    the column names are the non-blank cells of the header line, in
    order, each trimmed and not empty, and no column is nullable. *)
Theorem column_names_are_the_header_cells (res_lines : list string) :
  let '(schema, _, _) := parse_query_result res_lines in
  schema = [] \/
  exists header_line,
    res_lines !! scan_separator res_lines 0 = Some header_line /\
    map name schema = cells header_line /\
    Forall (fun f => name f <> "" /\ PyStr.strip (name f) = name f /\
                     nullable f = false) schema.
Proof.
  assert (Hhdr : forall hl schema,
             map name schema = map name (header hl) ->
             map nullable schema = map nullable (header hl) ->
             map name schema = cells hl /\
             Forall (fun f => name f <> "" /\ PyStr.strip (name f) = name f /\
                              nullable f = false) schema).
  { intros hl schema Hn Hb. unfold header in Hn, Hb. rewrite !map_map in Hn, Hb.
    cbn [name nullable] in Hn, Hb. rewrite map_id in Hn. split; [exact Hn|].
    pose proof (cells_trimmed hl) as Hc. rewrite <- Hn in Hc.
    clear Hn. revert Hc Hb. generalize (cells hl). 
    induction schema as [|f schema IH]; intros cs Hc Hb; constructor.
    - inversion Hc as [|? ? [H1 H2] _]; subst.
      destruct cs as [|c cs']; [discriminate|]. cbn [map] in Hb.
      injection Hb as Hb _. auto.
    - inversion Hc; subst. destruct cs as [|c cs']; [discriminate|].
      cbn [map] in Hb. injection Hb as _ Hb. eapply IH; eauto. }
  unfold parse_query_result.
  set (n := scan_separator res_lines 0).
  destruct (n =? length res_lines)%nat; [now left|].
  destruct (res_lines !! n) as [hl|] eqn:Hhl; [|now left].
  destruct (length (header hl) =? 0)%nat eqn:Hz.
  { right. exists hl. split; [reflexivity|]. now apply Hhdr. }
  destruct (0 <? length (data_rows (drop (n + 2) res_lines)))%nat eqn:Hr.
  2:{ right. exists hl. split; [reflexivity|]. now apply Hhdr. }
  destruct (extract_datatypes_names (header hl)
              (data_rows (drop (n + 2) res_lines))) as [H1 H2].
  destruct (extract_datatypes (header hl) (data_rows (drop (n + 2) res_lines)))
    as [[schema rows] e].
  cbn [fst] in H1, H2. right. exists hl. split; [reflexivity|]. now apply Hhdr.
Qed.

(** *** When conversion cannot fail *)

Lemma convert_type_no_number row tys :
  Forall (fun t => t <> number) tys ->
  length row <= length tys ->
  snd (convert_type row tys) = None.
Proof.
  revert tys. induction row as [|c row IH]; intros tys Htys Hlen; [reflexivity|].
  destruct tys as [|t tys]; [cbn in Hlen; lia|].
  inversion Htys as [|? ? Ht Htys']; subst. cbn [convert_type].
  destruct t; [congruence| |]; cbn [convert_map convert_logical];
    (specialize (IH tys Htys' ltac:(cbn in Hlen; lia));
     destruct (convert_type row tys) as [d e]; exact IH).
Qed.

Lemma convert_rows_no_number rows tys :
  Forall (fun t => t <> number) tys ->
  Forall (fun r : list string => length r <= length tys) rows ->
  snd (convert_rows rows tys) = None.
Proof.
  intros Htys Hrows. induction Hrows as [|r rows Hr _ IH]; [reflexivity|].
  cbn [convert_rows]. pose proof (convert_type_no_number r tys Htys Hr) as H.
  destruct (convert_type r tys) as [r' e]. cbn [snd] in H. subst e.
  destruct (convert_rows rows tys) as [d e]. exact IH.
Qed.

Lemma get_type_not_number x : PyStr.isnumeric x = false -> get_type x <> number.
Proof.
  intros H. unfold get_type, is_number. rewrite H.
  destruct (is_logical x); discriminate.
Qed.

(** X8: when no cell of the first row is numeric and no row is longer
    than the first, inference cannot fail: nothing is raised and the
    schema gets the types of the first row's cells. *)
Theorem text_and_boolean_columns_never_fail (schema : list field)
    (first_row : list string) (rest : list (list string)) :
  length schema = length first_row ->
  Forall (fun x => PyStr.isnumeric x = false) first_row ->
  Forall (fun r : list string => length r <= length first_row) rest ->
  snd (extract_datatypes schema (first_row :: rest)) = None /\
  map type (fst (fst (extract_datatypes schema (first_row :: rest))))
  = map get_type first_row.
Proof.
  intros Hlen Hfirst Hrest. unfold extract_datatypes.
  apply Nat.eqb_eq in Hlen as Hb. rewrite Hb. cbn [negb].
  assert (Htys : Forall (fun t => t <> number) (map get_type first_row)).
  { clear -Hfirst. induction Hfirst as [|x xs Hx _ IH]; cbn [map]; constructor.
    - now apply get_type_not_number.
    - exact IH. }
  pose proof (convert_rows_no_number (first_row :: rest) (map get_type first_row) Htys)
    as Hconv.
  destruct (convert_rows (first_row :: rest) (map get_type first_row)) as [rows' e].
  cbn [snd] in Hconv. rewrite Hconv.
  2:{ constructor; [rewrite length_map; lia|].
      eapply Forall_impl; [exact Hrest|]. intros r Hr. cbn in Hr.
      now rewrite length_map. }
  destruct (record_types_length schema (map get_type first_row)) as [_ H2].
  { now rewrite length_map. }
  assert (Htypes : map type (fst (record_types schema (map get_type first_row)))
                   = map get_type first_row).
  { assert (Hl : length schema = length (map get_type first_row))
      by now rewrite length_map.
    clear -Hl. revert Hl. generalize (map get_type first_row). intros tys.
    revert schema. induction tys as [|t tys IH]; intros schema Hl.
    - destruct schema; [reflexivity|discriminate].
    - destruct schema as [|f schema]; [discriminate|]. cbn [record_types].
      specialize (IH schema ltac:(cbn in Hl; lia)).
      destruct (record_types schema tys) as [d e]. cbn [fst map type] in *.
      now rewrite IH. }
  destruct (record_types schema (map get_type first_row)) as [s' e'].
  cbn [fst snd] in *. split; assumption.
Qed.

Lemma text_and_boolean_columns_never_fail_example :
  snd (extract_datatypes [Field "ok" string_t false; Field "who" string_t false]
         (["true"; "ann"] :: [["maybe"; "bob"]; ["False"]])) = None /\
  map type (fst (fst (extract_datatypes
                        [Field "ok" string_t false; Field "who" string_t false]
                        (["true"; "ann"] :: [["maybe"; "bob"]; ["False"]]))))
  = map get_type ["true"; "ann"].
Proof.
  apply (text_and_boolean_columns_never_fail
           [Field "ok" string_t false; Field "who" string_t false]
           ["true"; "ann"] [["maybe"; "bob"]; ["False"]]).
  - reflexivity.
  - repeat constructor.
  - repeat constructor.
Defined.

Lemma convert_type_ok_lookup r tys r' :
  convert_type r tys = (r', None) ->
  forall i x, r !! i = Some x ->
    exists t v, tys !! i = Some t /\ convert_map t x = inr v /\ r' !! i = Some v.
Proof.
  revert tys r'. induction r as [|c r IH]; intros tys r' H i x Hi.
  - destruct i; discriminate.
  - cbn [convert_type] in H. destruct tys as [|t tys]; [discriminate|].
    destruct (convert_map t c) as [e|v] eqn:Hc; [discriminate|].
    destruct (convert_type r tys) as [d e] eqn:Hr. injection H as <- ->.
    destruct i as [|i]; cbn in Hi |- *.
    + injection Hi as <-. now exists t, v.
    + exact (IH tys d Hr i x Hi).
Qed.

Lemma convert_rows_ok_lookup rows tys rows' :
  convert_rows rows tys = (rows', None) ->
  forall k r, rows !! k = Some r ->
    exists r', rows' !! k = Some r' /\ convert_type r tys = (r', None).
Proof.
  revert rows'. induction rows as [|r0 rows IH]; intros rows' H k r Hk.
  - destruct k; discriminate.
  - cbn [convert_rows] in H.
    destruct (convert_type r0 tys) as [r0' [e|]] eqn:Hr0; [discriminate|].
    destruct (convert_rows rows tys) as [d e] eqn:Hrows. injection H as <- ->.
    destruct k as [|k]; cbn in Hk |- *.
    + injection Hk as <-. now exists r0'.
    + exact (IH d eq_refl k r Hk).
Qed.

(** X7: when inference completes, every cell of every row is converted
    by the type the first row gave its column: a number column holds
    [float] of the text, a boolean column holds true exactly for the
    texts [true] and [True] and false for any other text, a string
    column holds the text. *)
Theorem cells_are_converted_by_the_first_row (schema : list field)
    (first_row : list string) (rest : list (list string))
    (schema' : list field) (rows' : list row) :
  length schema = length first_row ->
  extract_datatypes schema (first_row :: rest) = (schema', rows', None) ->
  forall k r i x,
    (first_row :: rest) !! k = Some r ->
    r !! i = Some x ->
    exists x0 r' v,
      first_row !! i = Some x0 /\
      rows' !! k = Some r' /\ r' !! i = Some v /\
      match get_type x0 with
      | number => exists f, PyFloat.of_str x = Some f /\ v = VFloat f
      | boolean => v = VBool (is_true x)
      | string_t => v = VStr x
      end.
Proof.
  intros Hlen Hex k r i x Hk Hi. unfold extract_datatypes in Hex.
  apply Nat.eqb_eq in Hlen as Hb. rewrite Hb in Hex. cbn [negb] in Hex.
  destruct (convert_rows (first_row :: rest) (map get_type first_row))
    as [rows1 [e|]] eqn:Hconv; [discriminate|].
  destruct (record_types schema (map get_type first_row)) as [s1 e1].
  injection Hex as _ <- _.
  destruct (convert_rows_ok_lookup _ _ _ Hconv k r Hk) as (r' & Hr' & Hct).
  destruct (convert_type_ok_lookup _ _ _ Hct i x Hi) as (t & v & Ht & Hv & Hv').
  rewrite list_lookup_fmap in Ht.
  destruct (first_row !! i) as [x0|] eqn:Hx0; [|discriminate].
  cbn in Ht. injection Ht as <-.
  exists x0, r', v. repeat split; try assumption.
  destruct (get_type x0); cbn [convert_map] in Hv.
  - unfold convert_number in Hv. destruct (PyFloat.of_str x) as [f|]; [|discriminate].
    injection Hv as <-. now exists f.
  - unfold convert_logical in Hv. now injection Hv as <-.
  - now injection Hv as <-.
Qed.

Lemma cells_are_converted_by_the_first_row_example :
  exists x0 r' v,
    ["true"; "7"] !! 0 = Some x0 /\
    [[VBool true; VFloat (PyFloat.FFinite false 7881299347898368 (-50))];
     [VBool false; VFloat (PyFloat.FFinite false 6755399441055744 (-51))]] !! 1
    = Some r' /\
    r' !! 0 = Some v /\
    match get_type x0 with
    | number => exists f, PyFloat.of_str "TRUE" = Some f /\ v = VFloat f
    | boolean => v = VBool (is_true "TRUE")
    | string_t => v = VStr "TRUE"
    end.
Proof.
  apply (cells_are_converted_by_the_first_row
           [Field "a" string_t false; Field "b" string_t false]
           ["true"; "7"] [["TRUE"; "3"]]
           [Field "a" boolean false; Field "b" number false]
           [[VBool true; VFloat (PyFloat.FFinite false 7881299347898368 (-50))];
            [VBool false; VFloat (PyFloat.FFinite false 6755399441055744 (-51))]]
           eq_refl) with (k := 1) (r := ["TRUE"; "3"]).
  - vm_compute. reflexivity.
  - reflexivity.
  - reflexivity.
Defined.

(** *** Decimal digits *)

Lemma digit_facts c :
  PyFloat.is_digit c = true ->
  PyStr.isspace c = false /\ PyFloat.is_space c = false /\
  PyStr.isnumeric_char c = true /\
  Ascii.eqb c "-" = false /\ Ascii.eqb c "+" = false /\
  Ascii.eqb (PyFloat.lower c) "i" = false /\
  Ascii.eqb (PyFloat.lower c) "n" = false.
Proof.
  destruct c as [[] [] [] [] [] [] [] []]; cbv; intros H;
    first [discriminate H | repeat split].
Qed.

Lemma forallb_str_list p s :
  PyStr.forallb_str p s = forallb p (list_ascii_of_string s).
Proof. induction s as [|c s IH]; [reflexivity|]. cbn. now rewrite IH. Qed.

Lemma skip_space_digits l :
  forallb PyFloat.is_digit l = true -> PyFloat.skip_space l = l.
Proof.
  destruct l as [|c l]; [reflexivity|]. cbn [forallb PyFloat.skip_space].
  intros H. apply andb_true_iff in H as [Hc _].
  destruct (digit_facts c Hc) as (_ & -> & _). reflexivity.
Qed.

Lemma trim_digits l :
  forallb PyFloat.is_digit l = true -> PyFloat.trim l = l.
Proof.
  intros H. unfold PyFloat.trim. rewrite (skip_space_digits l H).
  rewrite skip_space_digits; [apply rev_involutive|].
  rewrite forallb_forall in *. intros c Hc. apply H. now apply in_rev.
Qed.

Lemma scan_digits_all l :
  forallb PyFloat.is_digit l = true -> PyFloat.scan_digits l = (l, []).
Proof.
  induction l as [|c l IH]; [reflexivity|]. cbn [forallb PyFloat.scan_digits].
  intros H. apply andb_true_iff in H as [Hc Hl]. now rewrite Hc, (IH Hl).
Qed.

Lemma of_str_ascii_digits x :
  ascii_digits x ->
  PyFloat.of_str x
  = Some (PyFloat.of_decimal false
            (PyFloat.digits_value (list_ascii_of_string x)) 0) /\
  PyStr.isnumeric x = true.
Proof.
  intros [Hne Hd]. split.
  - unfold PyFloat.of_str.
    rewrite trim_digits by now rewrite <- forallb_str_list.
    destruct x as [|c x]; [congruence|].
    pose proof Hd as Hd'. cbn [PyStr.forallb_str] in Hd'.
    apply andb_true_iff in Hd' as [Hc Hx].
    destruct (digit_facts c Hc) as (_ & _ & _ & Hm & Hp & Hi & Hn).
    cbn [list_ascii_of_string PyFloat.scan_sign]. rewrite Hm, Hp.
    cbn [map string_of_list_ascii String.eqb]. rewrite Hi, Hn. cbn [orb].
    unfold PyFloat.scan_number, PyFloat.scan_digitpart. rewrite Hc.
    rewrite (scan_digits_all (c :: list_ascii_of_string x)).
    2:{ cbn [forallb]. rewrite Hc. cbn. now rewrite <- forallb_str_list. }
    cbn [PyFloat.scan_exponent length]. rewrite app_nil_r. reflexivity.
  - destruct x as [|c x]; [congruence|]. unfold PyStr.isnumeric.
    clear Hne. revert Hd. generalize (String c x). intros s.
    induction s as [|a s IH]; [reflexivity|]. cbn [PyStr.forallb_str].
    intros H. apply andb_true_iff in H as [Ha Hs].
    destruct (digit_facts a Ha) as (_ & _ & -> & _). now rewrite IH.
Qed.

Lemma convert_type_digits row tys :
  Forall ascii_digits row ->
  Forall (fun t => t = number) tys ->
  length row <= length tys ->
  convert_type row tys
  = (map (fun x => VFloat (PyFloat.of_decimal false
                             (PyFloat.digits_value (list_ascii_of_string x)) 0))
       row, None).
Proof.
  intros Hrow. revert tys. induction Hrow as [|x row Hx _ IH]; intros tys Htys Hlen;
    [reflexivity|].
  destruct tys as [|t tys]; [cbn in Hlen; lia|].
  inversion Htys as [|? ? -> Htys']; subst. cbn [convert_type convert_map].
  unfold convert_number. destruct (of_str_ascii_digits x Hx) as [-> _].
  rewrite (IH tys Htys' ltac:(cbn in Hlen; lia)). reflexivity.
Qed.

(** X9: when every cell of every row is a non-empty text of the digits
    0 to 9 and no row is longer than the first, every column is typed
    number and every cell becomes the float nearest to the integer it
    spells. *)
Theorem digit_columns_become_numbers (schema : list field)
    (first_row : list string) (rest : list (list string)) :
  length schema = length first_row ->
  Forall (fun r => length r <= length first_row /\ Forall ascii_digits r)
    (first_row :: rest) ->
  extract_datatypes schema (first_row :: rest)
  = (map (fun f => Field (name f) number (nullable f)) schema,
     map (map (fun x => VFloat (PyFloat.of_decimal false
                                  (PyFloat.digits_value (list_ascii_of_string x)) 0)))
       (first_row :: rest),
     None).
Proof.
  intros Hlen Hrows. unfold extract_datatypes.
  apply Nat.eqb_eq in Hlen as Hb. rewrite Hb. cbn [negb].
  assert (Htys : Forall (fun t => t = number) (map get_type first_row)).
  { inversion Hrows as [|? ? [_ Hfirst] _]; subst. clear -Hfirst.
    induction Hfirst as [|x xs Hx _ IH]; cbn [map]; constructor; [|exact IH].
    destruct (of_str_ascii_digits x Hx) as [_ Hn].
    unfold get_type, is_number. now rewrite Hn. }
  assert (Hconv : forall rows,
             Forall (fun r => length r <= length first_row /\ Forall ascii_digits r) rows ->
             convert_rows rows (map get_type first_row)
             = (map (map (fun x => VFloat (PyFloat.of_decimal false
                            (PyFloat.digits_value (list_ascii_of_string x)) 0))) rows,
                None)).
  { intros rows Hr. induction Hr as [|r rows [Hl Hd] _ IH]; [reflexivity|].
    cbn [convert_rows].
    rewrite (convert_type_digits r _ Hd Htys) by now rewrite length_map.
    now rewrite IH. }
  rewrite (Hconv _ Hrows).
  assert (Hrec : forall sch tys, Forall (fun t => t = number) tys ->
             length sch = length tys ->
             record_types sch tys
             = (map (fun f => Field (name f) number (nullable f)) sch, None)).
  { intros sch tys Ht. revert sch. induction Ht as [|t tys -> _ IH]; intros sch Hl.
    - destruct sch; [reflexivity|discriminate].
    - destruct sch as [|f sch]; [discriminate|]. cbn [record_types].
      rewrite (IH sch) by (cbn in Hl; lia). reflexivity. }
  rewrite (Hrec schema _ Htys) by now rewrite length_map. reflexivity.
Qed.

Lemma digit_columns_become_numbers_example :
  extract_datatypes [Field "n" string_t false; Field "m" string_t false]
    (["12"; "007"] :: [["3"]])
  = (map (fun f => Field (name f) number (nullable f))
       [Field "n" string_t false; Field "m" string_t false],
     map (map (fun x => VFloat (PyFloat.of_decimal false
                                  (PyFloat.digits_value (list_ascii_of_string x)) 0)))
       (["12"; "007"] :: [["3"]]),
     None).
Proof.
  apply (digit_columns_become_numbers
           [Field "n" string_t false; Field "m" string_t false]
           ["12"; "007"] [["3"]]).
  - reflexivity.
  - repeat constructor; cbn; try lia; discriminate.
Defined.

(** *** A row longer than the first one *)

(** X10: when the rows before it convert, and so do its cells up to the
    width of the first row, a row with more cells than the first row
    stops the conversion with an [IndexError]: the schema is left as it
    was, the rows before it are converted, the long row is converted
    up to the width of the first row and text from there on, and the
    rows after it are left as text. *)
Theorem longer_row_stops_the_conversion (schema : list field)
    (first_row : list string) (before : list (list string))
    (long : list string) (after : list (list string)) :
  length schema = length first_row ->
  Forall (row_converts (map get_type first_row)) (first_row :: before) ->
  length first_row < length long ->
  row_converts (map get_type first_row) (take (length first_row) long) ->
  exists converted partial,
    extract_datatypes schema (first_row :: before ++ long :: after)
    = (schema,
       converted
         ++ (partial ++ map VStr (drop (length first_row) long))
         :: map (map VStr) after,
       Some (IndexError "list index out of range")) /\
    Forall2 (row_converted (map get_type first_row)) (first_row :: before)
      converted /\
    row_converted (map get_type first_row) (take (length first_row) long)
      partial.
Proof.
  intros Hlen Hb Hlong Hpre.
  apply (extract_datatypes_stops schema (first_row :: before) long after
           (length first_row) (IndexError "list index out of range"));
    try assumption.
  left. repeat split; [exact Hlong|].
  apply lookup_ge_None_2. now rewrite length_map.
Qed.

Lemma longer_row_stops_the_conversion_example :
  exists converted partial,
    extract_datatypes [Field "n" string_t false]
      (["1"] :: [["2"]] ++ ["3"; "extra"] :: [["4"]])
    = ([Field "n" string_t false],
       converted ++ (partial ++ map VStr (drop (length ["1"]) ["3"; "extra"]))
         :: map (map VStr) [["4"]],
       Some (IndexError "list index out of range")) /\
    Forall2 (row_converted (map get_type ["1"])) (["1"] :: [["2"]]) converted /\
    row_converted (map get_type ["1"]) (take (length ["1"]) ["3"; "extra"])
      partial.
Proof.
  apply (longer_row_stops_the_conversion [Field "n" string_t false]
           ["1"] [["2"]] ["3"; "extra"] [["4"]]).
  - reflexivity.
  - repeat constructor; intros i y Hi _;
      (destruct i as [|i]; [|destruct i; discriminate]);
      injection Hi as <-; discriminate.
  - cbn. lia.
  - split; [cbn; lia|]. intros i y Hi _.
    destruct i as [|i]; [|destruct i; discriminate].
    injection Hi as <-. discriminate.
Defined.

(** *** The first row narrower or wider than the header *)

(** X6: when the first data line has not as many non-blank cells as the
    header, no type is inferred at all: every column stays string and
    every cell of every row stays text. *)
Theorem mismatched_first_row_keeps_text (pre : list string) (sep hdr x first : string)
    (more : list string) :
  Forall (fun l => is_separator l = false) pre ->
  is_separator sep = true ->
  is_separator first = false ->
  cells hdr <> [] ->
  length (cells (PyStr.strip first)) <> length (cells hdr) ->
  parse_query_result (pre ++ sep :: hdr :: x :: first :: more)
  = (map (fun c => Field c string_t false) (cells hdr),
     map (map VStr) (data_rows (first :: more)), None).
Proof.
  intros Hpre Hsep Hfirst Hhdr Hlen.
  rewrite (parse_at_header pre sep hdr _ Hpre Hsep). cbn [drop].
  assert (Hh : length (header hdr) = length (cells hdr))
    by (unfold header; apply length_map).
  replace (length (header hdr) =? 0)%nat with false.
  2:{ symmetry. apply Nat.eqb_neq. rewrite Hh. destruct (cells hdr); [congruence|].
      discriminate. }
  assert (Hrows : data_rows (first :: more)
                  = cells (PyStr.strip first) :: data_rows more).
  { cbn [data_rows]. unfold is_separator in Hfirst. now rewrite Hfirst. }
  rewrite Hrows. cbn [length Nat.ltb Nat.leb]. unfold extract_datatypes.
  replace (length (header hdr) =? length (cells (PyStr.strip first)))%nat with false
    by (symmetry; apply Nat.eqb_neq; rewrite Hh; congruence).
  reflexivity.
Qed.

Lemma mismatched_first_row_keeps_text_blank_cell :
  parse_query_result ([] ++ "+---+---+" :: "|A  |B  |" :: "+---+---+"
                         :: "|1  |   |" :: ["|2  |3  |"; "+---+---+"])
  = (map (fun c => Field c string_t false) (cells "|A  |B  |"),
     map (map VStr) (data_rows ("|1  |   |" :: ["|2  |3  |"; "+---+---+"])), None).
Proof.
  apply (mismatched_first_row_keeps_text [] "+---+---+" "|A  |B  |" "+---+---+"
           "|1  |   |" ["|2  |3  |"; "+---+---+"]).
  - constructor.
  - reflexivity.
  - reflexivity.
  - discriminate.
  - vm_compute. discriminate.
Defined.

(** ** The cursor: what a run of [execute] does

    The calls [execute] makes are followed one by one on a service whose
    answers are known: the job is set up, its status is read once
    before the loop and once per turn of it, and the loop is left by a
    [succeeded], by a [failed] or by the ceiling. *)

(** [execute] up to the waiting loop. *)
Lemma execute_set_up (env : environment) (sql : string) (parameters : list pyobj)
    (s : state) :
  set_up_answers env sql parameters ->
  exists j,
    on_run_job env (run_job_name env s) = inr j /\
    execute env sql parameters s
    = bind (get_job_run_status env j)
        (fun js => bind (wait_loop poll_fuel env (run_job_name env s) j 0 js)
                     (fun _ => finish env (run_job_name env s) j))
        (State (heap s) (next_loc s) (self s)
           (trace s ++ set_up_events env sql parameters s)
           (polls s) (clock_reads s + 3)).
Proof.
  intros (Hfmt & Hcreate & Hupload & Hsubmit & Hrun).
  destruct (Hrun (run_job_name env s)) as [j Hj]. exists j. split; [exact Hj|].
  unfold execute.
  assert (Hsql : (if (0 <? length parameters)%nat
                  then format_sql env sql parameters else ret sql) s
                 = (Returned (sql_sent env sql parameters), s)).
  { unfold sql_sent. destruct Hfmt as [-> | [sql' Hsql']]; [reflexivity|].
    destruct (0 <? length parameters)%nat; [|reflexivity].
    unfold format_sql. now rewrite Hsql'. }
  rewrite (bind_returned _ _ _ _ _ Hsql).
  unfold generate_job_name, read_clock. unfold bind at 1. unfold bind at 1.
  unfold ret at 1. fold (run_job_name env s).
  unfold create_resource.
  destruct (Hcreate (run_job_name env s) "files") as [c1 Hc1].
  erewrite bind_returned by (apply call_answered; exact Hc1).
  unfold CDEApiHelper.generate_sql_resource, read_clock.
  unfold bind at 1. unfold bind at 1. unfold ret at 1.
  unfold CDEApiHelper.get_python_wrapper_resource, read_clock.
  unfold bind at 1. unfold bind at 1. unfold ret at 1.
  cbn [file_name file_obj job_name_of clock_reads log trace polls heap next_loc self].
  fold (run_sql_file env s). fold (run_py_file env s).
  fold (wrapper_script (run_job_name env s) (run_sql_file env s)).
  unfold upload_resource. cbn [file_name file_obj job_name_of].
  destruct (Hupload (run_job_name env s) (run_sql_file env s)) as [c2 Hc2].
  erewrite bind_returned by (apply call_answered; exact Hc2).
  destruct (Hupload (run_job_name env s) (run_py_file env s)) as [c3 Hc3].
  erewrite bind_returned by (apply call_answered; exact Hc3).
  unfold submit_job. cbn [file_name file_obj job_name_of].
  destruct (Hsubmit (run_job_name env s)) as [c4 Hc4].
  erewrite bind_returned by (apply call_answered; exact Hc4).
  unfold run_job.
  erewrite bind_returned by (apply call_answered; exact Hj).
  unfold finish. unfold log. cbn [heap next_loc self trace polls clock_reads].
  unfold set_up_events.
  repeat rewrite <- app_assoc. cbn [app].
  replace (S (S (S (clock_reads s)))) with (clock_reads s + 3) by lia.
  reflexivity.
Qed.

Lemma advance_nil s : advance [] 0 s = s.
Proof.
  destruct s. unfold advance. cbn. now rewrite app_nil_r, Nat.add_0_r.
Qed.

Lemma advance_advance evs1 p1 evs2 p2 s :
  advance evs2 p2 (advance evs1 p1 s) = advance (evs1 ++ evs2) (p1 + p2) s.
Proof.
  unfold advance. cbn. f_equal; [now rewrite app_assoc|lia].
Qed.

Lemma poll_turns_S k job_id :
  poll_turns (S k) job_id
  = [EvSleep DEFAULT_POLL_WAIT; EvGetJobRunStatus job_id] ++ poll_turns k job_id.
Proof. reflexivity. Qed.

(** One turn of the waiting loop, up to the status it reads. *)
Lemma wait_loop_turn env job_name j fuel total js js1 s :
  status js <> JOB_STATUS_succeeded ->
  on_get_job_run_status env (polls s) j = inr js1 ->
  wait_loop (S fuel) env job_name j total js s
  = bind
      (if PyStr.eqb (status js1) JOB_STATUS_failed then
         out <-- get_job_output env job_name j ;;
         log_error (job_name ++ ": Failed job details: " ++ snd out)%string ;;;
         raise (DatabaseException
                  ("Error while executing query: " ++ payload_repr js1)%string)
       else ret tt)
      (fun _ =>
         bind
           (if (DEFAULT_CDE_JOB_TIMEOUT <=? total + DEFAULT_POLL_WAIT)%Z then
              log_error (job_name ++ ": Failed getting job status in: "
                         ++ repr_int DEFAULT_CDE_JOB_TIMEOUT ++ " seconds")%string ;;;
              raise (RPCTimeoutException DEFAULT_CDE_JOB_TIMEOUT)
            else ret tt)
           (fun _ => wait_loop fuel env job_name j (total + DEFAULT_POLL_WAIT) js1))
      (advance [EvSleep DEFAULT_POLL_WAIT; EvGetJobRunStatus (id j)] 1 s).
Proof.
  intros Hjs Hans. cbn [wait_loop].
  apply String.eqb_neq in Hjs. unfold PyStr.eqb at 1. rewrite Hjs.
  unfold bind at 1. unfold sleep, emit.
  unfold bind at 1. unfold get_job_run_status, count_poll, call.
  unfold bind at 1. cbn [polls log]. unfold bind at 1. unfold emit.
  rewrite Hans. unfold ret at 1.
  unfold advance, log. cbn [heap next_loc self trace polls clock_reads].
  rewrite <- app_assoc. cbn [app].
  replace (polls s + 1) with (S (polls s)) by lia.
  reflexivity.
Qed.

Lemma wait_loop_done env job_name j fuel total js s :
  status js = JOB_STATUS_succeeded ->
  wait_loop fuel env job_name j total js s = (Returned tt, s).
Proof.
  intros H. destruct fuel; cbn [wait_loop]; unfold PyStr.eqb; rewrite H;
    reflexivity.
Qed.

Lemma wait_loop_turn_on env job_name j fuel total js js1 s :
  status js <> JOB_STATUS_succeeded ->
  on_get_job_run_status env (polls s) j = inr js1 ->
  status js1 <> JOB_STATUS_failed ->
  (total + DEFAULT_POLL_WAIT < DEFAULT_CDE_JOB_TIMEOUT)%Z ->
  wait_loop (S fuel) env job_name j total js s
  = wait_loop fuel env job_name j (total + DEFAULT_POLL_WAIT) js1
      (advance [EvSleep DEFAULT_POLL_WAIT; EvGetJobRunStatus (id j)] 1 s).
Proof.
  intros Hjs Hans Hnf Hlt. rewrite (wait_loop_turn _ _ _ _ _ _ _ _ Hjs Hans).
  apply String.eqb_neq in Hnf. unfold PyStr.eqb. rewrite Hnf.
  apply Z.leb_gt in Hlt. rewrite Hlt. reflexivity.
Qed.

Lemma wait_loop_turn_timeout env job_name j fuel total js js1 s :
  status js <> JOB_STATUS_succeeded ->
  on_get_job_run_status env (polls s) j = inr js1 ->
  status js1 <> JOB_STATUS_failed ->
  (DEFAULT_CDE_JOB_TIMEOUT <= total + DEFAULT_POLL_WAIT)%Z ->
  wait_loop (S fuel) env job_name j total js s
  = (Raised (RPCTimeoutException DEFAULT_CDE_JOB_TIMEOUT),
     advance [EvSleep DEFAULT_POLL_WAIT; EvGetJobRunStatus (id j);
              EvLogError (job_name ++ ": Failed getting job status in: "
                          ++ repr_int DEFAULT_CDE_JOB_TIMEOUT ++ " seconds")%string]
       1 s).
Proof.
  intros Hjs Hans Hnf Hle. rewrite (wait_loop_turn _ _ _ _ _ _ _ _ Hjs Hans).
  apply String.eqb_neq in Hnf. unfold PyStr.eqb. rewrite Hnf.
  apply Z.leb_le in Hle. rewrite Hle.
  unfold advance. cbv [bind ret log_error emit raise log].
  cbn [heap next_loc self trace polls clock_reads].
  rewrite <- app_assoc. reflexivity.
Qed.

Lemma wait_loop_turn_failed env job_name j fuel total js js1 s :
  status js <> JOB_STATUS_succeeded ->
  on_get_job_run_status env (polls s) j = inr js1 ->
  status js1 = JOB_STATUS_failed ->
  wait_loop (S fuel) env job_name j total js s
  = bind (get_job_output env job_name j)
      (fun out =>
         log_error (job_name ++ ": Failed job details: " ++ snd out)%string ;;;
         raise (DatabaseException
                  ("Error while executing query: " ++ payload_repr js1)%string))
      (advance [EvSleep DEFAULT_POLL_WAIT; EvGetJobRunStatus (id j)] 1 s).
Proof.
  intros Hjs Hans Hf. rewrite (wait_loop_turn _ _ _ _ _ _ _ _ Hjs Hans).
  unfold PyStr.eqb. rewrite Hf, String.eqb_refl.
  set (st := advance _ 1 s). unfold bind.
  destruct (get_job_output env job_name j st) as [[out| |] s1]; reflexivity.
Qed.

(** [k] turns of the waiting loop on statuses that are not terminal. *)
Lemma wait_loop_skip env job_name j :
  forall k fuel total js s,
    status js <> JOB_STATUS_succeeded ->
    (forall i, i < k ->
       exists js', on_get_job_run_status env (polls s + i) j = inr js' /\
                   status js' <> JOB_STATUS_succeeded /\
                   status js' <> JOB_STATUS_failed) ->
    (total + DEFAULT_POLL_WAIT * Z.of_nat k < DEFAULT_CDE_JOB_TIMEOUT)%Z ->
    exists js',
      status js' <> JOB_STATUS_succeeded /\
      wait_loop (k + fuel) env job_name j total js s
      = wait_loop fuel env job_name j (total + DEFAULT_POLL_WAIT * Z.of_nat k) js'
          (advance (poll_turns k (id j)) k s).
Proof.
  induction k as [|k IH]; intros fuel total js s Hjs Hpolls Hlt.
  - exists js. split; [exact Hjs|]. rewrite advance_nil.
    cbn [Nat.add Z.of_nat]. now rewrite Z.mul_0_r, Z.add_0_r.
  - destruct (Hpolls 0 ltac:(lia)) as (js1 & Hans & Hns & Hnf).
    rewrite Nat.add_0_r in Hans. cbn [Nat.add].
    rewrite (wait_loop_turn_on _ _ _ _ _ _ _ _ Hjs Hans Hnf)
      by (unfold DEFAULT_POLL_WAIT, DEFAULT_CDE_JOB_TIMEOUT in *; lia).
    destruct (IH fuel (total + DEFAULT_POLL_WAIT)%Z js1
                (advance [EvSleep DEFAULT_POLL_WAIT; EvGetJobRunStatus (id j)] 1 s)
                Hns) as (js' & Hjs' & Hrun).
    { intros i Hi. cbn [advance polls].
      replace (polls s + 1 + i) with (polls s + S i) by lia.
      apply Hpolls. lia. }
    { unfold DEFAULT_POLL_WAIT, DEFAULT_CDE_JOB_TIMEOUT in *. lia. }
    exists js'. split; [exact Hjs'|]. rewrite Hrun, advance_advance.
    f_equal. unfold DEFAULT_POLL_WAIT. lia.
Qed.

Lemma execute_first_poll env sql parameters s j js0 :
  set_up_answers env sql parameters ->
  on_run_job env (run_job_name env s) = inr j ->
  on_get_job_run_status env (polls s) j = inr js0 ->
  execute env sql parameters s
  = bind (wait_loop poll_fuel env (run_job_name env s) j 0 js0)
      (fun _ => finish env (run_job_name env s) j)
      (after_first_poll env sql parameters j s).
Proof.
  intros Hset Hj Hans.
  destruct (execute_set_up env sql parameters s Hset) as (j' & Hj' & ->).
  rewrite Hj in Hj'. injection Hj' as <-.
  unfold get_job_run_status, count_poll, call.
  unfold bind at 1. unfold bind at 1. cbn [polls log]. unfold bind at 1.
  unfold emit. rewrite Hans. unfold ret at 1.
  unfold after_first_poll, log. cbn [heap next_loc self trace polls clock_reads].
  now rewrite <- app_assoc.
Qed.

Lemma get_job_output_answered env job_name j text s :
  on_get_logs env j "stdout" = inr text ->
  get_job_output env job_name j s
  = (Returned (fst (parse_query_result (lines_of text)), text),
     advance ([EvSleep DEFAULT_LOG_WAIT; EvGetLogs (id j) "stdout"]
              ++ logged_events (snd (parse_query_result (lines_of text)))) 0 s).
Proof.
  intros Hlogs. unfold get_job_output, sleep, call.
  unfold bind at 1. unfold emit at 1. unfold bind at 1. unfold bind at 1.
  unfold emit at 1. rewrite Hlogs. unfold ret at 1. fold (lines_of text).
  destruct (parse_query_result (lines_of text)) as [[schema rows] [e|]];
    cbn [fst snd logged_events].
  - cbv [bind log_error emit ret log advance].
    cbn [heap next_loc self trace polls clock_reads].
    rewrite <- !app_assoc. cbn [app]. now rewrite Nat.add_0_r.
  - cbv [ret log advance]. cbn [heap next_loc self trace polls clock_reads].
    rewrite <- !app_assoc. cbn [app]. now rewrite Nat.add_0_r.
Qed.

Lemma finish_answered env job_name j text c1 c2 s :
  on_get_logs env j "stdout" = inr text ->
  on_delete_job env job_name = inr c1 ->
  on_delete_resource env job_name = inr c2 ->
  finish env job_name j s
  = (Returned tt,
     State (<[next_loc s := snd (fst (parse_query_result (lines_of text)))]> (heap s))
       (Pos.succ (next_loc s))
       (Cursor (Is (fst (fst (parse_query_result (lines_of text)))))
          (Is (next_loc s)))
       (trace s ++ [EvSleep DEFAULT_LOG_WAIT; EvGetLogs (id j) "stdout"]
        ++ logged_events (snd (parse_query_result (lines_of text)))
        ++ [EvDeleteJob job_name; EvDeleteResource job_name])
       (polls s) (clock_reads s)).
Proof.
  intros Hlogs Hdj Hdr. unfold finish.
  rewrite (bind_returned _ _ _ _ _ (get_job_output_answered _ _ _ _ _ Hlogs)).
  cbn [fst snd].
  unfold delete_job, delete_resource, call. rewrite Hdj, Hdr.
  cbv [bind alloc set_rows set_schema set_self emit ret log advance].
  cbn [heap next_loc self trace polls clock_reads _schema _rows].
  rewrite <- !app_assoc. cbn [app]. rewrite Nat.add_0_r.
  repeat f_equal.
Qed.

Lemma total_slept_poll_turns k job_id :
  total_slept (poll_turns k job_id) = (DEFAULT_POLL_WAIT * Z.of_nat k)%Z.
Proof.
  induction k as [|k IH]; [reflexivity|].
  rewrite poll_turns_S, total_slept_app, IH. cbn [total_slept].
  unfold DEFAULT_POLL_WAIT. lia.
Qed.

Lemma poll_turns_snoc k job_id :
  poll_turns k job_id ++ [EvSleep DEFAULT_POLL_WAIT; EvGetJobRunStatus job_id]
  = poll_turns (S k) job_id.
Proof.
  induction k as [|k IH]; [reflexivity|].
  change (poll_turns (S k) job_id)
    with ([EvSleep DEFAULT_POLL_WAIT; EvGetJobRunStatus job_id] ++ poll_turns k job_id).
  rewrite <- app_assoc, IH. reflexivity.
Qed.

Lemma succeeded_not_failed js :
  status js = JOB_STATUS_succeeded -> status js <> JOB_STATUS_failed.
Proof. intros ->. discriminate. Qed.

(** The waiting loop after [k] turns without a terminal status. *)
Lemma execute_waits env sql parameters s k j :
  set_up_answers env sql parameters ->
  on_run_job env (run_job_name env s) = inr j ->
  waits env (polls s) (S k) ->
  k <= 29 ->
  exists js,
    status js <> JOB_STATUS_succeeded /\
    execute env sql parameters s
    = bind (wait_loop (30 - k) env (run_job_name env s) j
              (DEFAULT_POLL_WAIT * Z.of_nat k) js)
        (fun _ => finish env (run_job_name env s) j)
        (advance (poll_turns k (id j)) k (after_first_poll env sql parameters j s)).
Proof.
  intros Hset Hj Hwaits Hk.
  destruct (Hwaits 0 j ltac:(lia)) as (js0 & Hans0 & Hns0 & _).
  rewrite Nat.add_0_r in Hans0.
  rewrite (execute_first_poll env sql parameters s j js0 Hset Hj Hans0).
  assert (Hfuel : poll_fuel = k + (30 - k)) by (change poll_fuel with 30; lia).
  rewrite Hfuel.
  destruct (wait_loop_skip env (run_job_name env s) j k (30 - k) 0%Z js0
              (after_first_poll env sql parameters j s) Hns0)
    as (js & Hjs & Hrun).
  { intros i Hi. cbn [after_first_poll polls].
    destruct (Hwaits (S i) j ltac:(lia)) as (js' & Hans & Hns & Hnf).
    exists js'. replace (S (polls s) + i) with (polls s + S i) by lia.
    repeat split; [exact Hans|exact Hns|apply Hnf; lia]. }
  { unfold DEFAULT_POLL_WAIT, DEFAULT_CDE_JOB_TIMEOUT. lia. }
  exists js. split; [exact Hjs|]. unfold bind at 1. rewrite Hrun.
  rewrite Z.add_0_l. reflexivity.
Qed.

Lemma execute_reaches_finish env sql parameters s k j :
  set_up_answers env sql parameters ->
  on_run_job env (run_job_name env s) = inr j ->
  waits env (polls s) k ->
  k <= 29 ->
  (exists js, on_get_job_run_status env (polls s + k) j = inr js /\
              status js = JOB_STATUS_succeeded) ->
  execute env sql parameters s
  = finish env (run_job_name env s) j
      (advance (poll_turns k (id j)) k (after_first_poll env sql parameters j s)).
Proof.
  intros Hset Hj Hwaits Hk (js & Hans & Hs).
  destruct k as [|k].
  - rewrite Nat.add_0_r in Hans.
    rewrite (execute_first_poll env sql parameters s j js Hset Hj Hans).
    unfold bind. rewrite (wait_loop_done _ _ _ _ _ _ _ Hs). now rewrite advance_nil.
  - destruct (execute_waits env sql parameters s k j Hset Hj Hwaits ltac:(lia))
      as (js' & Hjs' & ->).
    replace (30 - k) with (S (29 - k)) by lia. unfold bind.
    rewrite (wait_loop_turn_on _ _ _ _ _ _ js _ Hjs').
    + rewrite (wait_loop_done _ _ _ _ _ _ _ Hs), advance_advance, poll_turns_snoc.
      now replace (k + 1) with (S k) by lia.
    + cbn [advance after_first_poll polls]. rewrite <- Hans. f_equal. lia.
    + now apply succeeded_not_failed.
    + unfold DEFAULT_POLL_WAIT, DEFAULT_CDE_JOB_TIMEOUT. lia.
Qed.

Lemma finish_cleanup env job_name j text s :
  on_get_logs env j "stdout" = inr text ->
  exists s',
    finish env job_name j s = (cleanup_outcome env job_name, s') /\
    trace s'
    = trace s ++ [EvSleep DEFAULT_LOG_WAIT; EvGetLogs (id j) "stdout"]
      ++ logged_events (snd (parse_query_result (lines_of text)))
      ++ cleanup_calls env job_name.
Proof.
  intros Hlogs. unfold finish, cleanup_outcome, cleanup_calls.
  rewrite (bind_returned _ _ _ _ _ (get_job_output_answered _ _ _ _ _ Hlogs)).
  cbn [fst snd]. unfold delete_job, delete_resource, call.
  destruct (on_delete_job env job_name) as [msg|c1].
  - cbv [bind alloc set_rows set_schema set_self emit ret raise log advance].
    cbn [heap next_loc self trace polls clock_reads _schema _rows].
    eexists. split; [reflexivity|]. cbn [trace].
    now rewrite <- !app_assoc.
  - destruct (on_delete_resource env job_name) as [msg|c2];
      cbv [bind alloc set_rows set_schema set_self emit ret raise log advance];
      cbn [heap next_loc self trace polls clock_reads _schema _rows];
      (eexists; split; [reflexivity|]; cbn [trace]; now rewrite <- !app_assoc).
Qed.

Lemma delete_job_attempts_app a b :
  delete_job_attempts (a ++ b) = delete_job_attempts a + delete_job_attempts b.
Proof.
  unfold delete_job_attempts. now rewrite List.filter_app, length_app.
Qed.

Lemma delete_resource_attempts_app a b :
  delete_resource_attempts (a ++ b)
  = delete_resource_attempts a + delete_resource_attempts b.
Proof.
  unfold delete_resource_attempts. now rewrite List.filter_app, length_app.
Qed.

Lemma poll_turns_no_cleanup k job_id :
  delete_job_attempts (poll_turns k job_id) = 0 /\
  delete_resource_attempts (poll_turns k job_id) = 0.
Proof.
  induction k as [|k [IH1 IH2]]; [now split|].
  rewrite poll_turns_S, delete_job_attempts_app, delete_resource_attempts_app.
  rewrite IH1, IH2. now split.
Qed.

Lemma logged_events_no_cleanup logged :
  delete_job_attempts (logged_events logged) = 0 /\
  delete_resource_attempts (logged_events logged) = 0.
Proof. destruct logged; now split. Qed.

(** C1, as amended: when the job has been set up, is reported
    [succeeded] before the ceiling and its output is read, deleting the
    job is attempted exactly once; if that request raises, [execute]
    raises its error and deleting the resource is not attempted;
    otherwise deleting the resource is attempted exactly once, and
    [execute] raises the error of that request if it raises and returns
    if it is answered, whatever the two answers hold. *)
Theorem cleanup_follows_success (env : environment) (sql : string)
    (parameters : list pyobj) (s : state) (k : nat) (text : string) :
  set_up_answers env sql parameters ->
  waits env (polls s) k ->
  k <= 29 ->
  succeeds_at env (polls s + k) ->
  (forall j, on_get_logs env j "stdout" = inr text) ->
  let '(o, s') := CDEApiCursor.execute env sql parameters s in
  delete_job_attempts (trace s') = delete_job_attempts (trace s) + 1 /\
  match on_delete_job env (run_job_name env s) with
  | inl msg =>
      o = Raised (RequestException msg) /\
      delete_resource_attempts (trace s') = delete_resource_attempts (trace s)
  | inr _ =>
      delete_resource_attempts (trace s')
      = delete_resource_attempts (trace s) + 1 /\
      match on_delete_resource env (run_job_name env s) with
      | inl msg => o = Raised (RequestException msg)
      | inr _ => o = Returned tt
      end
  end.
Proof.
  intros Hset Hwaits Hk Hsucc Hlogs.
  pose proof Hset as (_ & _ & _ & _ & Hrun).
  destruct (Hrun (run_job_name env s)) as [j Hj].
  rewrite (execute_reaches_finish env sql parameters s k j Hset Hj Hwaits Hk
             (Hsucc j)).
  destruct (finish_cleanup env (run_job_name env s) j text
              (advance (poll_turns k (id j)) k
                 (after_first_poll env sql parameters j s)) (Hlogs j))
    as (s' & -> & Htr).
  rewrite Htr. cbn [advance after_first_poll trace].
  rewrite !delete_job_attempts_app, !delete_resource_attempts_app.
  destruct (poll_turns_no_cleanup k (id j)) as [-> ->].
  destruct (logged_events_no_cleanup
              (snd (parse_query_result (lines_of text)))) as [-> ->].
  unfold cleanup_outcome, cleanup_calls.
  assert (H1 : delete_job_attempts (set_up_events env sql parameters s) = 0)
    by reflexivity.
  assert (H2 : delete_resource_attempts (set_up_events env sql parameters s) = 0)
    by reflexivity.
  rewrite H1, H2.
  destruct (on_delete_job env (run_job_name env s)) as [msg|c1].
  - cbn. repeat split; lia.
  - destruct (on_delete_resource env (run_job_name env s)) as [msg|c2];
      cbn; repeat split; lia.
Qed.

Lemma cleanup_follows_success_box_table :
  let '(o, s') :=
    CDEApiCursor.execute
      (scripted ["running"; "succeeded"] (text_of box_table)) "select 1" []
      new_cursor in
  delete_job_attempts (trace s') = delete_job_attempts (trace new_cursor) + 1 /\
  match on_delete_job (scripted ["running"; "succeeded"] (text_of box_table))
          (run_job_name (scripted ["running"; "succeeded"] (text_of box_table))
             new_cursor) with
  | inl msg =>
      o = Raised (RequestException msg) /\
      delete_resource_attempts (trace s')
      = delete_resource_attempts (trace new_cursor)
  | inr _ =>
      delete_resource_attempts (trace s')
      = delete_resource_attempts (trace new_cursor) + 1 /\
      match on_delete_resource
              (scripted ["running"; "succeeded"] (text_of box_table))
              (run_job_name
                 (scripted ["running"; "succeeded"] (text_of box_table))
                 new_cursor) with
      | inl msg => o = Raised (RequestException msg)
      | inr _ => o = Returned tt
      end
  end.
Proof.
  apply (cleanup_follows_success
           (scripted ["running"; "succeeded"] (text_of box_table))
           "select 1" [] new_cursor 1 (text_of box_table)).
  - unfold set_up_answers. simpl. repeat split; eauto.
  - intros i j Hi. destruct i as [|i]; [|lia].
    eexists. split; [reflexivity|]. split; [discriminate|]. intros H. lia.
  - lia.
  - intros j. eexists. split; reflexivity.
  - reflexivity.
Defined.

Lemma execute_succeeds env sql parameters s k text :
  set_up_answers env sql parameters ->
  waits env (polls s) k ->
  k <= 29 ->
  succeeds_at env (polls s + k) ->
  (forall j, on_get_logs env j "stdout" = inr text) ->
  deletes_answer env ->
  exists j,
    on_run_job env (run_job_name env s) = inr j /\
    execute env sql parameters s
    = (Returned tt,
       State (<[next_loc s := snd (fst (parse_query_result (lines_of text)))]> (heap s))
         (Pos.succ (next_loc s))
         (Cursor (Is (fst (fst (parse_query_result (lines_of text)))))
            (Is (next_loc s)))
         (trace s ++ set_up_events env sql parameters s
          ++ [EvGetJobRunStatus (id j)] ++ poll_turns k (id j)
          ++ [EvSleep DEFAULT_LOG_WAIT; EvGetLogs (id j) "stdout"]
          ++ logged_events (snd (parse_query_result (lines_of text)))
          ++ [EvDeleteJob (run_job_name env s);
              EvDeleteResource (run_job_name env s)])
         (polls s + k + 1) (clock_reads s + 3)).
Proof.
  intros Hset Hwaits Hk Hsucc Hlogs [Hdj Hdr].
  pose proof Hset as (_ & _ & _ & _ & Hrun).
  destruct (Hrun (run_job_name env s)) as [j Hj]. exists j. split; [exact Hj|].
  rewrite (execute_reaches_finish env sql parameters s k j Hset Hj Hwaits Hk (Hsucc j)).
  destruct (Hdj (run_job_name env s)) as [c1 Hc1].
  destruct (Hdr (run_job_name env s)) as [c2 Hc2].
  rewrite (finish_answered _ _ _ text c1 c2 _ (Hlogs j) Hc1 Hc2).
  unfold advance, after_first_poll.
  cbn [heap next_loc self trace polls clock_reads].
  f_equal. f_equal; [now rewrite <- !app_assoc|lia].
Qed.

(** X11: when the service answers the calls that set the job up, reports
    the job unfinished at [k] polls ([k <= 29]) and [succeeded] at the
    next, hands out the log and answers the two deletions, [execute]
    returns; the cursor then holds the schema parsed from the log and a
    new list object with the parsed rows, which [fetchall] returns; the
    status has been asked for [k + 1] times and the call has slept
    [DEFAULT_POLL_WAIT] seconds [k] times and [DEFAULT_LOG_WAIT] seconds
    once. *)
Theorem execute_stores_the_parsed_output (env : environment) (sql : string)
    (parameters : list pyobj) (s : state) (k : nat) (text : string) :
  set_up_answers env sql parameters ->
  waits env (polls s) k ->
  k <= 29 ->
  succeeds_at env (polls s + k) ->
  (forall j, on_get_logs env j "stdout" = inr text) ->
  deletes_answer env ->
  let '(schema, rows, _) := parse_query_result (lines_of text) in
  exists s',
    CDEApiCursor.execute env sql parameters s = (Returned tt, s') /\
    _schema (self s') = Is schema /\
    _rows (self s') = Is (next_loc s) /\
    heap s' = <[next_loc s := rows]> (heap s) /\
    CDEApiCursor.fetchall s' = (Returned (Some (next_loc s)), s') /\
    polls s' = polls s + k + 1 /\
    total_slept (trace s')
    = (total_slept (trace s) + DEFAULT_POLL_WAIT * Z.of_nat k + DEFAULT_LOG_WAIT)%Z.
Proof.
  intros Hset Hwaits Hk Hsucc Hlogs Hdel.
  destruct (execute_succeeds env sql parameters s k text Hset Hwaits Hk Hsucc
              Hlogs Hdel) as (j & _ & Hrun).
  destruct (parse_query_result (lines_of text)) as [[schema rows] logged].
  cbn [fst snd] in Hrun. eexists. split; [exact Hrun|].
  cbn [self heap polls trace _schema _rows]. unfold fetchall.
  cbn [self _rows]. repeat split.
  rewrite !total_slept_app, total_slept_poll_turns.
  assert (Hsetup : total_slept (set_up_events env sql parameters s) = 0%Z)
    by reflexivity.
  assert (Hlog : total_slept (logged_events logged) = 0%Z)
    by (destruct logged; reflexivity).
  rewrite Hsetup, Hlog. cbn [total_slept]. lia.
Qed.

Lemma execute_stores_the_parsed_output_box_table :
  let '(schema, rows, _) := parse_query_result (lines_of (text_of box_table)) in
  exists s',
    CDEApiCursor.execute
      (scripted ["running"; "running"; "succeeded"] (text_of box_table))
      "select 1" [] new_cursor
    = (Returned tt, s') /\
    _schema (self s') = Is schema /\
    _rows (self s') = Is (next_loc new_cursor) /\
    heap s' = <[next_loc new_cursor := rows]> (heap new_cursor) /\
    CDEApiCursor.fetchall s' = (Returned (Some (next_loc new_cursor)), s') /\
    polls s' = polls new_cursor + 2 + 1 /\
    total_slept (trace s')
    = (total_slept (trace new_cursor) + DEFAULT_POLL_WAIT * Z.of_nat 2
       + DEFAULT_LOG_WAIT)%Z.
Proof.
  apply (execute_stores_the_parsed_output
           (scripted ["running"; "running"; "succeeded"] (text_of box_table))
           "select 1" [] new_cursor 2 (text_of box_table)).
  - unfold set_up_answers. simpl. repeat split; eauto.
  - intros i j Hi. destruct i as [|[|i]]; [| |lia];
      (eexists; split; [reflexivity|]; split; [discriminate|];
       intros _; discriminate).
  - lia.
  - intros j. eexists. split; reflexivity.
  - reflexivity.
  - split; intros n; eexists; reflexivity.
Defined.

(** X12: on such a run the calls to the service are, in this order and
    no others: create the resource, upload the SQL file (the text after
    [%] when there are parameters), upload the Python wrapper that reads
    that file, submit the job, run it, read the status, then [k] times
    sleep and read the status, sleep for the log, get the log, delete
    the job, delete the resource; the resource and the job bear one
    name, made from the clock and the random number. *)
Theorem execute_calls_in_order (env : environment) (sql : string)
    (parameters : list pyobj) (s : state) (k : nat) (text : string) :
  set_up_answers env sql parameters ->
  waits env (polls s) k ->
  k <= 29 ->
  succeeds_at env (polls s + k) ->
  (forall j, on_get_logs env j "stdout" = inr text) ->
  deletes_answer env ->
  exists j,
    on_run_job env (run_job_name env s) = inr j /\
    trace (snd (CDEApiCursor.execute env sql parameters s))
    = trace s
      ++ [ EvCreateResource (run_job_name env s) "files";
           EvUploadResource (run_job_name env s) (run_sql_file env s)
             (sql_sent env sql parameters);
           EvUploadResource (run_job_name env s) (run_py_file env s)
             (wrapper_script (run_job_name env s) (run_sql_file env s));
           EvSubmitJob (run_job_name env s) (run_job_name env s)
             (run_sql_file env s) (run_py_file env s);
           EvRunJob (run_job_name env s);
           EvGetJobRunStatus (id j) ]
      ++ poll_turns k (id j)
      ++ [EvSleep DEFAULT_LOG_WAIT; EvGetLogs (id j) "stdout"]
      ++ logged_events (snd (parse_query_result (lines_of text)))
      ++ [EvDeleteJob (run_job_name env s); EvDeleteResource (run_job_name env s)].
Proof.
  intros Hset Hwaits Hk Hsucc Hlogs Hdel.
  destruct (execute_succeeds env sql parameters s k text Hset Hwaits Hk Hsucc
              Hlogs Hdel) as (j & Hj & Hrun).
  exists j. split; [exact Hj|]. rewrite Hrun. cbn [snd trace].
  unfold set_up_events. reflexivity.
Qed.

Lemma execute_calls_in_order_one_turn :
  let env := scripted ["running"; "succeeded"] (text_of box_table) in
  exists j,
    on_run_job env (run_job_name env new_cursor) = inr j /\
    trace (snd (CDEApiCursor.execute env "select 1" [] new_cursor))
    = trace new_cursor
      ++ [ EvCreateResource (run_job_name env new_cursor) "files";
           EvUploadResource (run_job_name env new_cursor)
             (run_sql_file env new_cursor) (sql_sent env "select 1" []);
           EvUploadResource (run_job_name env new_cursor)
             (run_py_file env new_cursor)
             (wrapper_script (run_job_name env new_cursor)
                (run_sql_file env new_cursor));
           EvSubmitJob (run_job_name env new_cursor)
             (run_job_name env new_cursor) (run_sql_file env new_cursor)
             (run_py_file env new_cursor);
           EvRunJob (run_job_name env new_cursor);
           EvGetJobRunStatus (id j) ]
      ++ poll_turns 1 (id j)
      ++ [EvSleep DEFAULT_LOG_WAIT; EvGetLogs (id j) "stdout"]
      ++ logged_events (snd (parse_query_result (lines_of (text_of box_table))))
      ++ [EvDeleteJob (run_job_name env new_cursor);
          EvDeleteResource (run_job_name env new_cursor)].
Proof.
  apply (execute_calls_in_order
           (scripted ["running"; "succeeded"] (text_of box_table))
           "select 1" [] new_cursor 1 (text_of box_table)).
  - unfold set_up_answers. simpl. repeat split; eauto.
  - intros i j Hi. destruct i as [|i]; [|lia].
    eexists. split; [reflexivity|]. split; [discriminate|]. intros H. lia.
  - lia.
  - intros j. eexists. split; reflexivity.
  - reflexivity.
  - split; intros n; eexists; reflexivity.
Defined.

(** X13: a job still unfinished after 29 turns of the loop and reported
    [succeeded] by the poll of the 30th turn is a timeout all the same:
    the ceiling is looked at before the status is, [execute] raises
    [RPCTimeoutException] and the cursor keeps what it had. *)
Theorem success_at_the_ceiling_is_a_timeout (env : environment) (sql : string)
    (parameters : list pyobj) (s : state) :
  set_up_answers env sql parameters ->
  waits env (polls s) 30 ->
  succeeds_at env (polls s + 30) ->
  exists s',
    CDEApiCursor.execute env sql parameters s
    = (Raised (RPCTimeoutException DEFAULT_CDE_JOB_TIMEOUT), s') /\
    self s' = self s /\ heap s' = heap s /\ polls s' = polls s + 31.
Proof.
  intros Hset Hwaits Hsucc.
  pose proof Hset as (_ & _ & _ & _ & Hrun).
  destruct (Hrun (run_job_name env s)) as [j Hj].
  destruct (execute_waits env sql parameters s 29 j Hset Hj Hwaits ltac:(lia))
    as (js & Hjs & ->).
  destruct (Hsucc j) as (js1 & Hans & Hs1).
  change (30 - 29) with 1. unfold bind.
  rewrite (wait_loop_turn_timeout _ _ _ _ _ _ js1 _ Hjs).
  - eexists. split; [reflexivity|].
    cbn [advance after_first_poll self heap polls]. repeat split. lia.
  - cbn [advance after_first_poll polls]. rewrite <- Hans. f_equal. lia.
  - now apply succeeded_not_failed.
  - unfold DEFAULT_POLL_WAIT, DEFAULT_CDE_JOB_TIMEOUT. lia.
Qed.

Lemma success_at_the_ceiling_is_a_timeout_scripted :
  exists s',
    CDEApiCursor.execute
      (scripted (List.repeat "running" 30 ++ ["succeeded"]) "") "select 1" []
      new_cursor
    = (Raised (RPCTimeoutException DEFAULT_CDE_JOB_TIMEOUT), s') /\
    self s' = self new_cursor /\ heap s' = heap new_cursor /\
    polls s' = polls new_cursor + 31.
Proof.
  apply (success_at_the_ceiling_is_a_timeout
           (scripted (List.repeat "running" 30 ++ ["succeeded"]) "")
           "select 1" [] new_cursor).
  - unfold set_up_answers. simpl. repeat split; eauto.
  - intros i j Hi. eexists. split; [reflexivity|]. cbn [status polls new_cursor].
    rewrite Nat.add_0_l, List.app_nth1 by (rewrite List.repeat_length; lia).
    rewrite List.nth_repeat. split; [discriminate|]. intros _. discriminate.
  - intros j. eexists. split; reflexivity.
Defined.

Lemma execute_fails env sql parameters s k payload :
  set_up_answers env sql parameters ->
  waits env (polls s) (S k) ->
  k <= 29 ->
  fails_at env (polls s + S k) payload ->
  exists j,
    on_run_job env (run_job_name env s) = inr j /\
    execute env sql parameters s
    = bind (get_job_output env (run_job_name env s) j)
        (fun out =>
           log_error (run_job_name env s ++ ": Failed job details: "
                      ++ snd out)%string ;;;
           raise (DatabaseException
                    ("Error while executing query: " ++ payload)%string))
        (advance (poll_turns (S k) (id j)) (S k)
           (after_first_poll env sql parameters j s)).
Proof.
  intros Hset Hwaits Hk Hfail.
  pose proof Hset as (_ & _ & _ & _ & Hrun).
  destruct (Hrun (run_job_name env s)) as [j Hj]. exists j. split; [exact Hj|].
  destruct (execute_waits env sql parameters s k j Hset Hj Hwaits Hk)
    as (js & Hjs & ->).
  destruct (Hfail j) as (js1 & Hans & Hf1 & <-).
  replace (30 - k) with (S (29 - k)) by lia. unfold bind at 1.
  rewrite (wait_loop_turn_failed _ _ _ _ _ _ js1 _ Hjs).
  - rewrite advance_advance, poll_turns_snoc. replace (k + 1) with (S k) by lia.
    set (st := advance _ (S k) _). unfold bind.
    destruct (get_job_output env (run_job_name env s) j st) as [[out| |] s1];
      reflexivity.
  - cbn [advance after_first_poll polls]. rewrite <- Hans. f_equal. lia.
  - exact Hf1.
Qed.

(** X14: when a poll of the loop, the [k + 1]st, reports [failed], and
    the log can be had, [execute] raises [DatabaseException] with the
    status answer in its message; the last thing before that is the
    log written to the error log; the cursor and the list objects are
    untouched, and the call has slept [k + 1] poll waits and one log
    wait. *)
Theorem failed_job_raises_its_status (env : environment) (sql : string)
    (parameters : list pyobj) (s : state) (k : nat) (payload text : string) :
  set_up_answers env sql parameters ->
  waits env (polls s) (S k) ->
  k <= 29 ->
  fails_at env (polls s + S k) payload ->
  (forall j, on_get_logs env j "stdout" = inr text) ->
  exists s' earlier,
    CDEApiCursor.execute env sql parameters s
    = (Raised (DatabaseException ("Error while executing query: " ++ payload)%string),
       s') /\
    trace s'
    = earlier ++ [EvLogError (run_job_name env s ++ ": Failed job details: "
                              ++ text)%string] /\
    self s' = self s /\ heap s' = heap s /\
    total_slept (trace s')
    = (total_slept (trace s) + DEFAULT_POLL_WAIT * Z.of_nat (S k)
       + DEFAULT_LOG_WAIT)%Z.
Proof.
  intros Hset Hwaits Hk Hfail Hlogs.
  destruct (execute_fails env sql parameters s k payload Hset Hwaits Hk Hfail)
    as (j & _ & ->).
  rewrite (bind_returned _ _ _ _ _ (get_job_output_answered _ _ _ _ _ (Hlogs j))).
  cbn [snd]. cbv [bind log_error emit raise log].
  eexists. eexists. split; [reflexivity|].
  cbn [advance after_first_poll self heap polls trace]. split; [reflexivity|].
  split; [reflexivity|]. split; [reflexivity|].
  rewrite !total_slept_app, total_slept_poll_turns.
  assert (Hsetup : total_slept (set_up_events env sql parameters s) = 0%Z)
    by reflexivity.
  assert (Hlog : total_slept (logged_events
                   (snd (parse_query_result (lines_of text)))) = 0%Z)
    by (destruct (snd (parse_query_result (lines_of text))); reflexivity).
  rewrite Hsetup, Hlog. cbn [total_slept]. lia.
Qed.

Lemma failed_job_raises_its_status_scripted :
  let env := scripted ["running"; "failed"] "boom" in
  exists s' earlier,
    CDEApiCursor.execute env "select 1" [] new_cursor
    = (Raised (DatabaseException
                 ("Error while executing query: "
                  ++ "{'id': 42, 'status': 'failed'}")%string), s') /\
    trace s'
    = earlier ++ [EvLogError (run_job_name env new_cursor
                              ++ ": Failed job details: " ++ "boom")%string] /\
    self s' = self new_cursor /\ heap s' = heap new_cursor /\
    total_slept (trace s')
    = (total_slept (trace new_cursor) + DEFAULT_POLL_WAIT * Z.of_nat 1
       + DEFAULT_LOG_WAIT)%Z.
Proof.
  apply (failed_job_raises_its_status (scripted ["running"; "failed"] "boom")
           "select 1" [] new_cursor 0 "{'id': 42, 'status': 'failed'}" "boom").
  - unfold set_up_answers. simpl. repeat split; eauto.
  - intros i j Hi. destruct i as [|i]; [|lia].
    eexists. split; [reflexivity|]. split; [discriminate|]. intros H. lia.
  - lia.
  - intros j. eexists. split; [reflexivity|]. split; reflexivity.
  - reflexivity.
Defined.

(** X15: when the job has failed and the request for its log fails too,
    the error of that request is what [execute] raises: the status of
    the job is not reported. *)
Theorem failed_job_without_logs_raises_the_request_error (env : environment)
    (sql : string) (parameters : list pyobj) (s : state) (k : nat)
    (payload msg : string) :
  set_up_answers env sql parameters ->
  waits env (polls s) (S k) ->
  k <= 29 ->
  fails_at env (polls s + S k) payload ->
  (forall j, on_get_logs env j "stdout" = inl msg) ->
  exists s',
    CDEApiCursor.execute env sql parameters s = (Raised (RequestException msg), s') /\
    self s' = self s /\ heap s' = heap s.
Proof.
  intros Hset Hwaits Hk Hfail Hlogs.
  destruct (execute_fails env sql parameters s k payload Hset Hwaits Hk Hfail)
    as (j & _ & ->).
  unfold get_job_output, sleep, call.
  cbv [bind emit raise ret log]. rewrite (Hlogs j).
  eexists. split; [reflexivity|]. split; reflexivity.
Qed.

Lemma failed_job_without_logs_raises_the_request_error_scripted :
  exists s',
    CDEApiCursor.execute (without_logs ["running"; "failed"] "503") "select 1"
      [] new_cursor
    = (Raised (RequestException "503"), s') /\
    self s' = self new_cursor /\ heap s' = heap new_cursor.
Proof.
  apply (failed_job_without_logs_raises_the_request_error
           (without_logs ["running"; "failed"] "503") "select 1" [] new_cursor 0
           "{'id': 42, 'status': 'failed'}" "503").
  - unfold set_up_answers. simpl. repeat split; eauto.
  - intros i j Hi. destruct i as [|i]; [|lia].
    eexists. split; [reflexivity|]. split; [discriminate|]. intros H. lia.
  - lia.
  - intros j. eexists. split; [reflexivity|]. split; reflexivity.
  - reflexivity.
Defined.

(** ** The cursor: bounds and what a failure leaves

    Three notions that compose along [bind]: how often a computation
    polls and how long it sleeps ([within]), that it touches neither
    the cursor nor the cleanup ([idle]), and that it keeps the cursor
    until a job is deleted ([kept_until_cleanup]). *)






















Lemma idle_ret {A} (a : A) : idle (ret a).
Proof. intros s o s' H. injection H as <- <-. repeat split. Qed.

Lemma idle_raise {A} (e : exn) : idle (@raise A e).
Proof. intros s o s' H. injection H as <- <-. repeat split. Qed.

Lemma idle_bind {A B} (c : M A) (k : A -> M B) :
  idle c -> (forall a, idle (k a)) -> idle (bind c k).
Proof.
  intros Hc Hk s o s' H. unfold bind in H.
  destruct (c s) as [[a|e|] s1] eqn:Hcs.
  - destruct (Hc _ _ _ Hcs) as (H1 & H2 & H3).
    destruct (Hk a _ _ _ H) as (H4 & H5 & H6). repeat split; congruence.
  - injection H as <- <-. exact (Hc _ _ _ Hcs).
  - injection H as <- <-. exact (Hc _ _ _ Hcs).
Qed.

Lemma idle_emit ev : not_delete ev -> idle (emit ev).
Proof.
  intros Hev s o s' H. injection H as <- <-.
  split; [now apply cleanup_log|]. split; reflexivity.
Qed.

Lemma idle_call {A} ev (answer : string + A) : not_delete ev -> idle (call ev answer).
Proof.
  intros Hev. unfold call. apply idle_bind; [now apply idle_emit|].
  intros _. destruct answer; [apply idle_raise|apply idle_ret].
Qed.

Lemma idle_read_clock env : idle (read_clock env).
Proof. intros s o s' H. injection H as <- <-. repeat split. Qed.

Lemma idle_count_poll : idle count_poll.
Proof. intros s o s' H. injection H as <- <-. repeat split. Qed.

Create HintDb idle.
#[local] Hint Resolve idle_ret idle_raise idle_emit idle_call idle_read_clock
  idle_count_poll : idle.
#[local] Hint Extern 1 (not_delete _) => (split; reflexivity) : idle.
#[local] Hint Extern 2 (idle (bind _ _)) => (apply idle_bind; [|intros ?]) : idle.

Lemma idle_get_job_run_status env j : idle (get_job_run_status env j).
Proof. unfold get_job_run_status. auto with idle. Qed.

Lemma idle_get_job_output env job_name j : idle (get_job_output env job_name j).
Proof.
  unfold get_job_output, sleep, log_error.
  apply idle_bind; [auto with idle|]. intros _.
  apply idle_bind; [auto with idle|]. intros text.
  destruct (parse_query_result _) as [[schema rows] [e|]]; auto with idle.
Qed.

#[local] Hint Resolve idle_get_job_run_status idle_get_job_output : idle.

Lemma idle_wait_loop env job_name j :
  forall fuel total js, idle (wait_loop fuel env job_name j total js).
Proof.
  induction fuel as [|fuel IH]; intros total js; cbn [wait_loop].
  - destruct (PyStr.eqb (status js) JOB_STATUS_succeeded); [auto with idle|].
    intros s o s' H. injection H as <- <-. repeat split.
  - destruct (PyStr.eqb (status js) JOB_STATUS_succeeded); [auto with idle|].
    unfold sleep, log_error.
    apply idle_bind; [auto with idle|]. intros _.
    apply idle_bind; [auto with idle|]. intros js'.
    apply idle_bind.
    { destruct (PyStr.eqb (status js') JOB_STATUS_failed); auto 6 with idle. }
    intros _. apply idle_bind; [|intros _; apply IH].
    destruct (DEFAULT_CDE_JOB_TIMEOUT <=? total + DEFAULT_POLL_WAIT)%Z;
      auto 6 with idle.
Qed.

Lemma kept_until_cleanup_bind {A B} (c : M A) (k : A -> M B) :
  idle c -> (forall a, kept_until_cleanup (k a)) -> kept_until_cleanup (bind c k).
Proof.
  intros Hc Hk s o s' H Hdj. unfold bind in H.
  destruct (c s) as [[a|e|] s1] eqn:Hcs;
    destruct (Hc _ _ _ Hcs) as (H1 & H2 & H3).
  - unfold cleanup in H1. injection H1 as H1 _.
    destruct (Hk a _ _ _ H ltac:(congruence)) as [H4 H5]. split; congruence.
  - injection H as <- <-. now split.
  - injection H as <- <-. now split.
Qed.

Lemma kept_until_cleanup_tail env job_name (rows : list row) (schema : list field) :
  kept_until_cleanup
    (l <-- alloc rows ;;
     set_rows (Is l) ;;;
     set_schema (Is schema) ;;;
     delete_job env job_name ;;;
     delete_resource env job_name ;;;
     ret tt).
Proof.
  intros s o s' H Hdj. exfalso.
  unfold delete_job, delete_resource in H.
  cbv [bind alloc set_rows set_schema set_self call emit ret raise] in H.
  destruct (on_delete_job env job_name) as [m1|c1];
    [|destruct (on_delete_resource env job_name) as [m2|c2]];
    injection H as <- <-;
    unfold delete_job_attempts in Hdj; cbn [log trace] in Hdj;
    rewrite !List.filter_app, !length_app in Hdj; cbn in Hdj; lia.
Qed.

Lemma kept_until_cleanup_execute env sql parameters :
  kept_until_cleanup (execute env sql parameters).
Proof.
  unfold execute, generate_job_name, CDEApiHelper.generate_sql_resource,
    CDEApiHelper.get_python_wrapper_resource, create_resource, upload_resource,
    submit_job, run_job.
  apply kept_until_cleanup_bind.
  { destruct (0 <? length parameters)%nat; [|auto with idle].
    unfold format_sql. destruct (percent env sql parameters); auto with idle. }
  intros sql0.
  repeat (apply kept_until_cleanup_bind; [solve [auto with idle]|]; intros ?).
  apply kept_until_cleanup_bind; [apply idle_wait_loop|]. intros _.
  apply kept_until_cleanup_bind; [auto with idle|]. intros out.
  apply kept_until_cleanup_tail.
Qed.

(** X17: an [execute] that raises [DatabaseException] or
    [RPCTimeoutException] leaves the cursor and the list objects as
    they were: [fetchall] and [fetchone] still answer from the result
    of the execute before. *)
Theorem failed_execute_keeps_the_previous_result (env : environment)
    (sql : string) (parameters : list pyobj) (s s' : state) (e : exn) :
  CDEApiCursor.execute env sql parameters s = (Raised e, s') ->
  (exists msg, e = DatabaseException msg) \/ (exists t, e = RPCTimeoutException t) ->
  self s' = self s /\ heap s' = heap s /\
  fst (CDEApiCursor.fetchall s') = fst (CDEApiCursor.fetchall s) /\
  fst (CDEApiCursor.fetchone s') = fst (CDEApiCursor.fetchone s).
Proof.
  intros Hrun He.
  destruct (no_cleanup_after_failure_or_timeout env sql parameters s s' e Hrun He)
    as [Hdj _].
  destruct (kept_until_cleanup_execute env sql parameters s _ _ Hrun Hdj)
    as [Hself Hheap].
  split; [exact Hself|]. split; [exact Hheap|].
  unfold fetchall, fetchone. rewrite Hself, Hheap.
  split.
  - destruct (_rows (self s)); reflexivity.
  - destruct (_rows (self s)) as [| |l]; try reflexivity.
    destruct (heap s !! l) as [[|r rest]|]; reflexivity.
Qed.

Lemma failed_execute_keeps_the_previous_result_two_rows :
  let s' := snd (CDEApiCursor.execute (scripted ["running"; "running"; "failed"] "")
                   "select 1" [] two_rows_fetched) in
  self s' = self two_rows_fetched /\ heap s' = heap two_rows_fetched /\
  fst (CDEApiCursor.fetchall s') = fst (CDEApiCursor.fetchall two_rows_fetched) /\
  fst (CDEApiCursor.fetchone s') = fst (CDEApiCursor.fetchone two_rows_fetched).
Proof.
  apply (failed_execute_keeps_the_previous_result
           (scripted ["running"; "running"; "failed"] "") "select 1" [] two_rows_fetched
           (snd (CDEApiCursor.execute (scripted ["running"; "running"; "failed"] "")
                   "select 1" [] two_rows_fetched))
           (DatabaseException
              ("Error while executing query: "
               ++ "{'id': 42, 'status': 'failed'}")%string)).
  - vm_compute. reflexivity.
  - left. eexists. reflexivity.
Defined.

(** ** The cursor: the first refusal, [close] and [description] *)

(** X18: when the resource cannot be created, [execute] raises the
    error of that request at once: the clock has been read once, for
    the job name, nothing is uploaded, submitted or deleted, and the
    cursor is untouched. *)
Theorem refused_resource_stops_execute (env : environment) (sql msg : string)
    (parameters : list pyobj) (s : state) :
  (parameters = [] \/ exists sql', percent env sql parameters = inr sql') ->
  on_create_resource env (run_job_name env s) "files" = inl msg ->
  CDEApiCursor.execute env sql parameters s
  = (Raised (RequestException msg),
     State (heap s) (next_loc s) (self s)
       (trace s ++ [EvCreateResource (run_job_name env s) "files"])
       (polls s) (S (clock_reads s))).
Proof.
  intros Hfmt Hcreate. unfold execute.
  assert (Hsql : exists sql0,
             (if (0 <? length parameters)%nat
              then format_sql env sql parameters else ret sql) s
             = (Returned sql0, s)).
  { destruct Hfmt as [-> | [sql' Hsql']]; [now exists sql|].
    destruct (0 <? length parameters)%nat; [|now exists sql].
    exists sql'. unfold format_sql. now rewrite Hsql'. }
  destruct Hsql as [sql0 Hsql]. rewrite (bind_returned _ _ _ _ _ Hsql).
  unfold generate_job_name, read_clock. unfold bind at 1. unfold bind at 1.
  unfold ret at 1. fold (run_job_name env s).
  unfold create_resource, call. rewrite Hcreate.
  cbv [bind emit raise log]. reflexivity.
Qed.

Lemma refused_resource_stops_execute_scripted :
  CDEApiCursor.execute (without_resources "403") "select 1" [] new_cursor
  = (Raised (RequestException "403"),
     State (heap new_cursor) (next_loc new_cursor) (self new_cursor)
       (trace new_cursor
        ++ [EvCreateResource
              (run_job_name (without_resources "403") new_cursor) "files"])
       (polls new_cursor) (S (clock_reads new_cursor))).
Proof.
  apply (refused_resource_stops_execute (without_resources "403") "select 1"
           "403" [] new_cursor).
  - left. reflexivity.
  - reflexivity.
Defined.

(** X19: [close] always returns; it drops the cursor's reference to the
    rows and nothing else: the list objects and the schema stay, and
    from then on [fetchall] returns [None] and every [fetchone] returns
    [None]. *)
Theorem close_drops_the_reference_only (s : state) (n : nat) :
  let s1 := snd (CDEApiCursor.close s) in
  fst (CDEApiCursor.close s) = Returned tt /\
  heap s1 = heap s /\
  _schema (self s1) = _schema (self s) /\
  CDEApiCursor.fetchall s1 = (Returned None, s1) /\
  fetchone_times n s1 = (Returned (replicate n None), s1).
Proof.
  cbn. repeat split. induction n as [|n IH]; [reflexivity|].
  cbn [fetchone_times replicate]. unfold bind at 1. cbn.
  unfold bind. cbn in IH. rewrite IH. reflexivity.
Qed.

Lemma header_not_nullable hl schema :
  map nullable schema = map nullable (header hl) ->
  Forall (fun f => nullable f = false) schema.
Proof.
  unfold header. rewrite map_map. cbn [nullable].
  generalize (cells hl). induction schema as [|f schema IH]; intros cs H;
    constructor; destruct cs as [|c cs]; try discriminate;
    cbn [map] in H; injection H as H1 H2; eauto.
Qed.

Lemma parsed_schema_not_nullable res_lines :
  Forall (fun f => nullable f = false) (fst (fst (parse_query_result res_lines))).
Proof.
  unfold parse_query_result.
  set (n := scan_separator res_lines 0).
  destruct (n =? length res_lines)%nat; [constructor|].
  destruct (res_lines !! n) as [hl|]; [|constructor].
  destruct (length (header hl) =? 0)%nat;
    [now apply (header_not_nullable hl)|].
  destruct (0 <? length (data_rows (drop (n + 2) res_lines)))%nat;
    [|now apply (header_not_nullable hl)].
  destruct (extract_datatypes_names (header hl)
              (data_rows (drop (n + 2) res_lines))) as [_ H].
  destruct (extract_datatypes (header hl) (data_rows (drop (n + 2) res_lines)))
    as [[schema rows] e].
  now apply (header_not_nullable hl).
Qed.

(** X20: on a cursor whose schema is a parsed one, [description]
    returns one 7-tuple per column, in order: the name of the column,
    one of the type names [string], [number], [boolean], four [None],
    and [False] for nullable. *)
Theorem description_lists_the_header (s : state) (res_lines : list string) :
  _schema (self s) = Is (fst (fst (parse_query_result res_lines))) ->
  exists d,
    CDEApiCursor.description s = (Returned d, s) /\
    Forall2 (fun (entry : descriptor) (f : field) =>
               exists ty,
                 entry = (name f, ty, PyNone, PyNone, PyNone, PyNone, false) /\
                 In ty ["string"; "number"; "boolean"])
      d (fst (fst (parse_query_result res_lines))).
Proof.
  intros Hs. unfold description. rewrite Hs. eexists. split; [reflexivity|].
  pose proof (parsed_schema_not_nullable res_lines) as HF. clear Hs.
  induction HF as [|f fs Hn _ IH]; cbn [map]; constructor; [|exact IH].
  exists (coltype_name (type f)). split.
  - unfold descriptor_of. now rewrite Hn.
  - destruct (type f); cbn; auto.
Qed.

Lemma description_lists_the_header_box_table :
  exists d,
    CDEApiCursor.description box_table_cursor = (Returned d, box_table_cursor) /\
    Forall2 (fun (entry : descriptor) (f : field) =>
               exists ty,
                 entry = (name f, ty, PyNone, PyNone, PyNone, PyNone, false) /\
                 In ty ["string"; "number"; "boolean"])
      d (fst (fst (parse_query_result box_table))).
Proof.
  apply (description_lists_the_header box_table_cursor box_table).
  reflexivity.
Defined.

(** ** The connection wrapper: bindings *)

Lemma append_assoc (a b c : string) : ((a ++ b) ++ c = a ++ (b ++ c))%string.
Proof.
  induction a as [|x a IH]; [reflexivity|].
  change (String x ((a ++ b) ++ c) = String x (a ++ (b ++ c)))%string.
  f_equal. exact IH.
Qed.

Lemma zero_padded_split w n :
  (zero_padded (S (S (S w))) n
   = zero_padded w (n / 1000)
     ++ String (digit_char (n / 100)) (String (digit_char (n / 10))
          (String (digit_char n) "")))%string.
Proof.
  cbn [zero_padded]. rewrite !append_assoc. cbn [String.append].
  rewrite !N.Div0.div_div. reflexivity.
Qed.

Lemma drop_last3_three p a b c :
  PyStr.drop_last3 (p ++ String a (String b (String c "")))%string = p.
Proof.
  replace (p ++ String a (String b (String c "")))%string
    with (((p ++ String a "") ++ String b "") ++ String c "")%string
    by (rewrite !append_assoc; reflexivity).
  unfold PyStr.drop_last3. now rewrite !drop_last_snoc.
Qed.

(** X21: a datetime binding is its [%Y-%m-%d %H:%M:%S.%f] text in
    quotes with the microseconds cut to milliseconds, not rounded: the
    six digits of [microsecond] become the three digits of
    [microsecond / 1000]. *)
Theorem datetime_binding_truncates_to_milliseconds (up_to_the_point : string)
    (microsecond : N) :
  _fix_binding (PyDatetime (up_to_the_point ++ zero_padded 6 microsecond)%string)
  = inr (PyStr ("'" ++ up_to_the_point ++ zero_padded 3 (microsecond / 1000)
                ++ "'")%string).
Proof.
  unfold _fix_binding. cbn [isinstance type_of NUMBERS DECIMALS app existsb
                             issubclass pyclass_eqb orb].
  rewrite (zero_padded_split 3 microsecond), <- append_assoc, drop_last3_three.
  unfold quoted. now rewrite append_assoc.
Qed.

Example zero_padded_42 : zero_padded 6 42 = "000042".
Proof. reflexivity. Qed.

Lemma round_fraction_small neg n :
  (0 < n < 2 ^ 53)%Z ->
  PyFloat.round_fraction neg n 1
  = Some (PyFloat.FFinite neg (Z.to_pos (n * 2 ^ (52 - Z.log2 n)))
            (Z.log2 n - 52)).
Proof.
  intros [Hpos Hlt].
  assert (Hk := Z.log2_spec n Hpos). destruct Hk as [Hlo Hhi].
  assert (Hk53 : (Z.log2 n < 53)%Z).
  { apply Z.log2_lt_pow2; [lia|exact Hlt]. }
  assert (Hk0 : (0 <= Z.log2 n)%Z) by apply Z.log2_nonneg.
  set (k := Z.log2 n) in *.
  assert (Hscale : (2 ^ k * 2 ^ (52 - k) = 2 ^ 52)%Z)
    by (rewrite <- Z.pow_add_r by lia; f_equal; lia).
  assert (Hscale' : (2 ^ Z.succ k * 2 ^ (52 - k) = 2 ^ 53)%Z)
    by (rewrite <- Z.pow_add_r by lia; f_equal; lia).
  assert (Hp : (0 < 2 ^ (52 - k))%Z) by (apply Z.pow_pos_nonneg; lia).
  assert (Hm_lo : (2 ^ 52 <= n * 2 ^ (52 - k))%Z) by nia.
  assert (Hm_hi : (n * 2 ^ (52 - k) < 2 ^ 53)%Z) by nia.
  unfold PyFloat.round_fraction.
  replace (n =? 0)%Z with false by (symmetry; apply Z.eqb_neq; lia).
  change (Z.log2 1) with 0%Z. fold k. rewrite Z.sub_0_r.
  assert (Hsc : PyFloat.scaled n 1 (k - 52) = ((n * 2 ^ (52 - k))%Z, 1%Z)).
  { unfold PyFloat.scaled. destruct (k - 52 <? 0)%Z eqn:Hneg.
    - f_equal. f_equal. f_equal. lia.
    - apply Z.ltb_ge in Hneg. assert (k = 52%Z) by lia. subst k.
      replace (Z.log2 n) with 52%Z by lia.
      cbn. f_equal. lia. }
  rewrite Hsc. rewrite Z.div_1_r.
  replace (n * 2 ^ (52 - k) <? 2 ^ 52)%Z with false
    by (symmetry; apply Z.ltb_ge; exact Hm_lo).
  replace (Z.max (k - 52) (-1074)) with (k - 52)%Z by lia.
  rewrite Hsc. rewrite Z.div_1_r, Z.mod_1_r.
  change (2 * 0 <? 1)%Z with true. cbv iota.
  replace (n * 2 ^ (52 - k) =? 2 ^ 53)%Z with false
    by (symmetry; apply Z.eqb_neq; lia).
  replace (n * 2 ^ (52 - k) =? 0)%Z with false
    by (symmetry; apply Z.eqb_neq; lia).
  replace (971 <? k - 52)%Z with false by (symmetry; apply Z.ltb_ge; lia).
  reflexivity.
Qed.

(** X22: an integer binding of magnitude below [2^53] becomes the float
    of exactly that value. *)
Theorem small_integers_bind_exactly (i : Z) :
  (Z.abs i < 2 ^ 53)%Z ->
  exists f, _fix_binding (PyInt i) = inr (PyFloat f) /\ float_is f i.
Proof.
  intros Hi. unfold _fix_binding.
  cbn [isinstance type_of NUMBERS DECIMALS app existsb issubclass pyclass_eqb orb].
  unfold float, PyFloat.of_int.
  destruct (Z.eq_dec i 0%Z) as [-> | Hne].
  - exists (PyFloat.FZero false). split; [reflexivity|]. now split.
  - rewrite (round_fraction_small (i <? 0)%Z (Z.abs i)) by lia.
    eexists. split; [reflexivity|]. unfold float_is.
    assert (Hk0 : (0 <= Z.log2 (Z.abs i))%Z) by apply Z.log2_nonneg.
    assert (Hk53 : (Z.log2 (Z.abs i) < 53)%Z)
      by (apply Z.log2_lt_pow2; lia).
    split; [lia|]. split; [|reflexivity].
    replace (- (Z.log2 (Z.abs i) - 52))%Z with (52 - Z.log2 (Z.abs i))%Z by lia.
    rewrite Z2Pos.id; [reflexivity|].
    apply Z.mul_pos_pos; [lia|]. apply Z.pow_pos_nonneg; lia.
Qed.

Lemma small_integers_bind_exactly_minus_3 :
  exists f, _fix_binding (PyInt (-3)) = inr (PyFloat f) /\ float_is f (-3).
Proof.
  apply (small_integers_bind_exactly (-3)). reflexivity.
Defined.

Lemma round_fraction_in_range neg n :
  (0 < n < 2 ^ 1023)%Z ->
  exists f, PyFloat.round_fraction neg n 1 = Some f.
Proof.
  intros [Hpos Hlt].
  destruct (Z.log2_spec n Hpos) as [Hlo Hhi].
  assert (Hk : (Z.log2 n < 1023)%Z) by (apply Z.log2_lt_pow2; lia).
  assert (Hk0 : (0 <= Z.log2 n)%Z) by apply Z.log2_nonneg.
  unfold PyFloat.round_fraction.
  replace (n =? 0)%Z with false by (symmetry; apply Z.eqb_neq; lia).
  change (Z.log2 1) with 0%Z. rewrite Z.sub_0_r.
  set (k := Z.log2 n) in *.
  assert (Hq : exists a b, PyFloat.scaled n 1 (k - 52) = (a, b)
                 /\ (2 ^ 52 <= a / b < 2 ^ 53)%Z).
  { unfold PyFloat.scaled. destruct (k - 52 <? 0)%Z eqn:Hneg.
    - apply Z.ltb_lt in Hneg. eexists _, _. split; [reflexivity|].
      rewrite Z.div_1_r.
      replace (- (k - 52))%Z with (52 - k)%Z by lia.
      assert ((2 ^ k * 2 ^ (52 - k) = 2 ^ 52)%Z)
        by (rewrite <- Z.pow_add_r by lia; f_equal; lia).
      assert ((2 ^ Z.succ k * 2 ^ (52 - k) = 2 ^ 53)%Z)
        by (rewrite <- Z.pow_add_r by lia; f_equal; lia).
      assert ((0 < 2 ^ (52 - k))%Z) by (apply Z.pow_pos_nonneg; lia).
      nia.
    - apply Z.ltb_ge in Hneg. eexists _, _. split; [reflexivity|].
      rewrite Z.mul_1_l.
      assert (Hb : (0 < 2 ^ (k - 52))%Z) by (apply Z.pow_pos_nonneg; lia).
      assert ((2 ^ 52 * 2 ^ (k - 52) = 2 ^ k)%Z)
        by (rewrite <- Z.pow_add_r by lia; f_equal; lia).
      assert ((2 ^ 53 * 2 ^ (k - 52) = 2 ^ Z.succ k)%Z)
        by (rewrite <- Z.pow_add_r by lia; f_equal; lia).
      split.
      + apply Z.div_le_lower_bound; lia.
      + apply Z.div_lt_upper_bound; lia. }
  destruct Hq as (a & b & Hsc & Hlo' & Hhi').
  rewrite Hsc.
  replace (a / b <? 2 ^ 52)%Z with false by (symmetry; apply Z.ltb_ge; lia).
  replace (Z.max (k - 52) (-1074)) with (k - 52)%Z by lia.
  rewrite Hsc.
  set (q := (a / b)%Z) in *.
  set (q' := if (2 * (a mod b) <? b)%Z then q
             else if (b <? 2 * (a mod b))%Z then (q + 1)%Z
             else if Z.even q then q else (q + 1)%Z).
  assert (Hq' : (q <= q' <= q + 1)%Z).
  { subst q'. destruct (2 * (a mod b) <? b)%Z; [lia|].
    destruct (b <? 2 * (a mod b))%Z; [lia|]. destruct (Z.even q); lia. }
  clearbody q'.
  destruct (q' =? 2 ^ 53)%Z eqn:Hcarry.
  - change (2 ^ 52 =? 0)%Z with false. cbv iota.
    replace (971 <? k - 52 + 1)%Z with false by (symmetry; apply Z.ltb_ge; lia).
    eexists; reflexivity.
  - replace (q' =? 0)%Z with false by (symmetry; apply Z.eqb_neq; lia).
    replace (971 <? k - 52)%Z with false by (symmetry; apply Z.ltb_ge; lia).
    eexists; reflexivity.
Qed.

Lemma round_fraction_overflow neg n :
  (0 < n)%Z ->
  PyFloat.round_fraction neg n 1 = None <-> (float_overflow <= n)%Z.
Proof.
  intros Hpos. unfold float_overflow.
  destruct (Z.log2_spec n Hpos) as [Hlo Hhi].
  assert (Hk0 : (0 <= Z.log2 n)%Z) by apply Z.log2_nonneg.
  destruct (Z_lt_le_dec n (2 ^ 1023)) as [Hsmall | Hbig].
  { split.
    - destruct (round_fraction_in_range neg n) as [f ->]; [lia|discriminate].
    - intros H. exfalso.
      assert ((2 ^ 1023 + 2 ^ 970 <= 2 ^ 1024)%Z) by (vm_compute; discriminate).
      lia. }
  assert (Hk : (1023 <= Z.log2 n)%Z) by (apply Z.log2_le_pow2; lia).
  unfold PyFloat.round_fraction.
  replace (n =? 0)%Z with false by (symmetry; apply Z.eqb_neq; lia).
  change (Z.log2 1) with 0%Z. rewrite Z.sub_0_r.
  set (k := Z.log2 n) in *.
  unfold PyFloat.scaled.
  replace (k - 52 <? 0)%Z with false by (symmetry; apply Z.ltb_ge; lia).
  rewrite Z.mul_1_l.
  set (b := (2 ^ (k - 52))%Z).
  assert (Hb : (0 < b)%Z) by (apply Z.pow_pos_nonneg; lia).
  assert (Hb52 : (2 ^ 52 * b = 2 ^ k)%Z)
    by (unfold b; rewrite <- Z.pow_add_r by lia; f_equal; lia).
  assert (Hb53 : (2 ^ 53 * b = 2 ^ Z.succ k)%Z)
    by (unfold b; rewrite <- Z.pow_add_r by lia; f_equal; lia).
  assert (Hq : (2 ^ 52 <= n / b < 2 ^ 53)%Z).
  { split; [apply Z.div_le_lower_bound; lia|apply Z.div_lt_upper_bound; lia]. }
  replace (n / b <? 2 ^ 52)%Z with false by (symmetry; apply Z.ltb_ge; lia).
  replace (Z.max (k - 52) (-1074)) with (k - 52)%Z by lia.
  replace (k - 52 <? 0)%Z with false by (symmetry; apply Z.ltb_ge; lia).
  rewrite Z.mul_1_l. fold b.
  pose proof (Z.div_mod n b ltac:(lia)) as Hdm.
  pose proof (Z.mod_pos_bound n b Hb) as Hr.
  set (q := (n / b)%Z) in *. set (r := (n mod b)%Z) in *.
  destruct (Z_lt_le_dec 1023 k) as [Hk1 | Hk1].
  { (* 2^1024 and above *)
    assert (H1024 : (2 ^ 1024 <= n)%Z).
    { transitivity (2 ^ k)%Z; [apply Z.pow_le_mono_r; lia|exact Hlo]. }
    assert (H970 : (0 < 2 ^ 970)%Z) by (apply Z.pow_pos_nonneg; lia).
    split; [lia|]. intros _.
    destruct (_ =? 2 ^ 53)%Z.
    - change (2 ^ 52 =? 0)%Z with false. cbv iota.
      replace (971 <? k - 52 + 1)%Z with true by (symmetry; apply Z.ltb_lt; lia).
      reflexivity.
    - match goal with |- context [(?m =? 0)%Z] =>
        assert (Hm : (q <= m)%Z);
        [ destruct (2 * r <? b)%Z; [lia|];
          destruct (b <? 2 * r)%Z; [lia|]; destruct (Z.even q); lia |]
      end.
      match goal with |- context [(?m =? 0)%Z] =>
        replace (m =? 0)%Z with false by (symmetry; apply Z.eqb_neq; lia)
      end.
      replace (971 <? k - 52)%Z with true by (symmetry; apply Z.ltb_lt; lia).
      reflexivity. }
  (* between 2^1023 and 2^1024 *)
  assert (Hk' : k = 1023%Z) by lia.
  assert (Hbv : b = (2 * 2 ^ 970)%Z).
  { unfold b. rewrite Hk'. change (1023 - 52)%Z with (1 + 970)%Z.
    now rewrite Z.pow_add_r by lia. }
  set (h := (2 ^ 970)%Z) in *.
  assert (Hh : (0 < h)%Z) by (apply Z.pow_pos_nonneg; lia).
  assert (Htop : (2 ^ 1024 = 2 ^ 53 * b)%Z).
  { rewrite Hb53, Hk'. reflexivity. }
  rewrite Htop. rewrite Hk'. change (1023 - 52)%Z with 971%Z.
  change (971 <? 971)%Z with false. change (971 <? 971 + 1)%Z with true.
  assert (Hodd : q = (2 ^ 53 - 1)%Z -> Z.even q = false).
  { intros ->. reflexivity. }
  destruct (Z.eq_dec q (2 ^ 53 - 1)%Z) as [Hq1 | Hq1].
  - (* the last binade's last float: up when at or past the half *)
    rewrite (Hodd Hq1).
    destruct (2 * r <? b)%Z eqn:H1.
    + apply Z.ltb_lt in H1.
      replace (q =? 2 ^ 53)%Z with false by (symmetry; apply Z.eqb_neq; lia).
      replace (q =? 0)%Z with false by (symmetry; apply Z.eqb_neq; lia).
      split; [discriminate|]. intros H. exfalso. rewrite Hq1 in Hdm. nia.
    + apply Z.ltb_ge in H1.
      assert (Hup : (q + 1 = 2 ^ 53)%Z) by lia.
      replace (if (b <? 2 * r)%Z then (q + 1)%Z else (q + 1)%Z)
        with (2 ^ 53)%Z by (destruct (b <? 2 * r)%Z; lia).
      rewrite Z.eqb_refl. change (2 ^ 52 =? 0)%Z with false. cbv iota.
      split; [|reflexivity]. intros _. rewrite Hq1 in Hdm. nia.
  - assert (Hq2 : (q <= 2 ^ 53 - 2)%Z) by lia.
    match goal with |- context [(?m =? 2 ^ 53)%Z] =>
      assert (Hm : (q <= m <= q + 1)%Z);
      [ destruct (2 * r <? b)%Z; [lia|];
        destruct (b <? 2 * r)%Z; [lia|]; destruct (Z.even q); lia |];
      set (m' := m) in *
    end.
    replace (m' =? 2 ^ 53)%Z with false by (symmetry; apply Z.eqb_neq; lia).
    replace (m' =? 0)%Z with false by (symmetry; apply Z.eqb_neq; lia).
    split; [discriminate|]. intros H. exfalso.
    assert ((q * b <= (2 ^ 53 - 2) * b)%Z) by (apply Z.mul_le_mono_nonneg_r; lia).
    nia.
Qed.

Lemma of_int_overflow i :
  PyFloat.of_int i = None <-> (float_overflow <= Z.abs i)%Z.
Proof.
  unfold PyFloat.of_int. destruct (Z.eq_dec i 0%Z) as [-> | Hne].
  - split; [discriminate|]. intros H. exfalso. revert H.
    unfold float_overflow. vm_compute. intros H. now apply H.
  - apply round_fraction_overflow. lia.
Qed.

(** X23: [_fix_binding] raises in exactly two cases: an [int] of
    magnitude [2^1024 - 2^970] or more, which [float] rounds to
    [2^1024] ([OverflowError]), and the signaling NaN of [Decimal]
    ([ValueError]). *)
Theorem binding_failures (value : pyobj) (e : exn) :
  _fix_binding value = inl e <->
  (exists i, value = PyInt i /\ (float_overflow <= Z.abs i)%Z
             /\ e = OverflowError "int too large to convert to float")
  \/ (value = PyDecimal DecSNaN
      /\ e = ValueError "cannot convert signaling NaN to float").
Proof.
  split.
  - destruct value as [b|i|f|d|stamp|s| |printed]; cbn; try discriminate.
    + destruct (PyFloat.of_int i) eqn:Hi; [discriminate|].
      intros [= <-]. left. exists i. split; [reflexivity|].
      split; [now apply of_int_overflow|reflexivity].
    + destruct d as [neg c ex | neg | |]; try discriminate.
      intros [= <-]. now right.
  - intros [(i & -> & Hi & ->) | (-> & ->)]; [|reflexivity].
    apply of_int_overflow in Hi. cbn. now rewrite Hi.
Qed.

Lemma binding_failures_at_the_threshold :
  _fix_binding (PyInt (- float_overflow))
  = inl (OverflowError "int too large to convert to float").
Proof.
  apply (binding_failures (PyInt (- float_overflow))).
  left. exists (- float_overflow)%Z. split; [reflexivity|].
  split; [|reflexivity]. vm_compute. discriminate.
Defined.

Example largest_int_binding :
  _fix_binding (PyInt (float_overflow - 1))
  = inr (PyFloat (PyFloat.FFinite false (2 ^ 53 - 1) 971)).
Proof. vm_compute. reflexivity. Qed.

Lemma _fix_binding_shape value b :
  _fix_binding value = inr b -> a_float b \/ quoted_text b.
Proof.
  unfold a_float, quoted_text.
  destruct value as [x|i|f|d|stamp|s| |printed]; cbn.
  - intros [= <-]. eauto.
  - destruct (PyFloat.of_int i); intros [= <-]. eauto.
  - intros [= <-]. eauto.
  - destruct d; intros [= <-]; eauto.
  - intros [= <-]. eauto.
  - intros [= <-]. eauto.
  - intros [= <-]. eauto.
  - intros [= <-]. eauto.
Qed.

(** X24: the bindings handed to the cursor are as many as those given,
    and each is a float or a text in single quotes. *)
Theorem bindings_become_floats_or_quoted_text bindings fixed :
  fix_bindings bindings = inr fixed ->
  length fixed = length bindings
  /\ Forall (fun b => a_float b \/ quoted_text b) fixed.
Proof.
  revert fixed. induction bindings as [|b bs IH]; intros fixed; cbn [fix_bindings].
  - intros [= <-]. split; [reflexivity|constructor].
  - destruct (_fix_binding b) as [e|b'] eqn:Hb; [discriminate|].
    destruct (fix_bindings bs) as [e|bs'] eqn:Hbs; [discriminate|].
    intros [= <-]. destruct (IH bs' eq_refl) as [Hlen Hall].
    split; [cbn; now rewrite Hlen|].
    constructor; [eapply _fix_binding_shape; eassumption | exact Hall].
Qed.

Lemma bindings_become_floats_or_quoted_text_three :
  length [PyFloat PyFloat.one; PyStr "'x'"; PyStr "'None'"]
  = length [PyBool true; PyStr "x"; PyNone]
  /\ Forall (fun b => a_float b \/ quoted_text b)
       [PyFloat PyFloat.one; PyStr "'x'"; PyStr "'None'"].
Proof.
  apply (bindings_become_floats_or_quoted_text [PyBool true; PyStr "x"; PyNone]).
  reflexivity.
Defined.

Lemma fix_bindings_stop ok bad rest e :
  Forall (fun b => exists v, _fix_binding b = inr v) ok ->
  _fix_binding bad = inl e ->
  fix_bindings (ok ++ bad :: rest) = inl e.
Proof.
  intros Hok Hbad. induction Hok as [|b ok [v Hv] _ IH]; cbn [app fix_bindings].
  - now rewrite Hbad.
  - now rewrite Hv, IH.
Qed.

(** X25: when a binding cannot be converted, the wrapper's [execute]
    raises the error of the first such binding and the cursor's
    [execute] is not called: the state is the one before. *)
Theorem failing_binding_stops_before_the_cursor
    (cursor_execute : string -> list pyobj -> M unit)
    sql ok bad rest e s :
  Forall (fun b => exists v, _fix_binding b = inr v) ok ->
  _fix_binding bad = inl e ->
  CDEApiSessionConnectionWrapper.execute cursor_execute sql
    (Some (ok ++ bad :: rest)) s
  = (Raised e, s).
Proof.
  intros Hok Hbad. unfold CDEApiSessionConnectionWrapper.execute.
  now rewrite (fix_bindings_stop ok bad rest e Hok Hbad).
Qed.

Lemma failing_binding_stops_before_the_cursor_signaling_NaN :
  CDEApiSessionConnectionWrapper.execute
    (CDEApiCursor.execute (scripted ["succeeded"] ""))
    "select %s, %s" (Some ([PyBool true] ++ PyDecimal DecSNaN :: [PyStr "x"]))
    new_cursor
  = (Raised (ValueError "cannot convert signaling NaN to float"), new_cursor).
Proof.
  apply (failing_binding_stops_before_the_cursor
           (CDEApiCursor.execute (scripted ["succeeded"] ""))
           "select %s, %s" [PyBool true] (PyDecimal DecSNaN) [PyStr "x"]).
  - repeat constructor. eexists. reflexivity.
  - reflexivity.
Defined.

(** ** The timers *)

Section AdapterTimer_properties.

Import AdapterTimer.

Context {num : Type} (zero : num) (minus : num -> num -> num).

Lemma get_timer_app n (l1 l2 : list (timer_dict num)) :
  get_timer n (l1 ++ l2) = get_timer n l1 ++ get_timer n l2.
Proof. unfold get_timer. apply List.filter_app. Qed.

Lemma names_assign n (new : (timer_dict num) -> (timer_dict num)) (ts : list (timer_dict num)) :
  (forall t, name (new t) = name t) ->
  map name (assign n new ts) = map name ts.
Proof.
  intros Hnew. induction ts as [|t ts IH]; [reflexivity|].
  cbn [assign]. destruct (String.eqb (name t) n).
  - cbn. now rewrite Hnew.
  - cbn. now rewrite IH.
Qed.

Lemma get_timer_assign_other n m (new : (timer_dict num) -> (timer_dict num)) (ts : list (timer_dict num)) :
  (forall t, name (new t) = name t) -> m <> n ->
  get_timer m (assign n new ts) = get_timer m ts.
Proof.
  intros Hnew Hne. induction ts as [|t ts IH]; [reflexivity|].
  cbn [assign]. destruct (String.eqb (name t) n) eqn:Ht.
  - apply String.eqb_eq in Ht. unfold get_timer. cbn [List.filter].
    rewrite Hnew.
    replace (String.eqb (name t) m) with false; [reflexivity|].
    symmetry. apply String.eqb_neq. congruence.
  - unfold get_timer in *. cbn [List.filter]. now rewrite IH.
Qed.

Lemma get_timer_assign n (new : (timer_dict num) -> (timer_dict num)) (ts : list (timer_dict num)) t rest :
  (forall t, name (new t) = name t) ->
  get_timer n ts = t :: rest ->
  get_timer n (assign n new ts) = new t :: rest.
Proof.
  intros Hnew. induction ts as [|t' ts IH]; [discriminate|].
  unfold get_timer in *. cbn [assign List.filter].
  destruct (String.eqb (name t') n) eqn:Ht.
  - intros [= -> <-]. cbn [List.filter]. now rewrite Hnew, Ht.
  - intros H. cbn [List.filter]. rewrite Ht. auto.
Qed.

Lemma get_timer_none n (ts : list (timer_dict num)) :
  get_timer n ts = [] -> ~ In n (map name ts).
Proof.
  induction ts as [|t ts IH]; [auto|].
  unfold get_timer in *. cbn [List.filter map].
  destruct (String.eqb (name t) n) eqn:Ht; [discriminate|].
  apply String.eqb_neq in Ht. intros H [Heq | Hin]; [congruence|].
  now apply IH.
Qed.

Lemma get_timer_names n (ts : list (timer_dict num)) t :
  In t (get_timer n ts) -> name t = n /\ In n (map name ts).
Proof.
  unfold get_timer. intros H. apply List.filter_In in H as [Hin Heq].
  apply String.eqb_eq in Heq. split; [exact Heq|].
  rewrite <- Heq. now apply List.in_map.
Qed.

Lemma get_timer_distinct n (ts : list (timer_dict num)) :
  List.NoDup (map name ts) -> length (get_timer n ts) <= 1.
Proof.
  induction ts as [|t ts IH]; [cbn; lia|].
  cbn [map]. intros Hnd. apply List.NoDup_cons_iff in Hnd as [Hnotin Hnd].
  unfold get_timer in *. cbn [List.filter].
  destruct (String.eqb (name t) n) eqn:Ht; [|auto].
  apply String.eqb_eq in Ht. subst n.
  destruct (List.filter _ ts) as [|t' rest] eqn:Hf; [cbn; lia|].
  exfalso. apply Hnotin.
  apply (get_timer_names (name t) ts t'). unfold get_timer. rewrite Hf.
  now left.
Qed.

Lemma names_after (c : call num) (ts : list (timer_dict num)) :
  List.NoDup (map name ts) ->
  List.NoDup (map name (after zero minus c ts)).
Proof.
  intros Hnd. destruct c as [n now | n now]; cbn [after].
  - unfold start_timer.
    pose proof (get_timer_distinct n ts Hnd) as Hlen.
    destruct (get_timer n ts) as [|t [|t' rest]] eqn:Hg; cbn [snd].
    + unfold add_timer. rewrite List.map_app. cbn [map].
      apply List.NoDup_app.
      * exact Hnd.
      * repeat constructor. intros [].
      * intros x Hx [<- | []]. now apply (get_timer_none n ts).
    + now rewrite names_assign.
    + cbn in Hlen. lia.
  - unfold end_timer.
    destruct (get_timer n ts) as [|t [|t' rest]] eqn:Hg; cbn [snd fst];
      [exact Hnd | now rewrite names_assign | exact Hnd].
Qed.

(** X26: from an empty list, calls of [start_timer] and [end_timer]
    never give two timers one name. *)
Theorem timer_names_stay_distinct (calls : list (call num)) :
  List.NoDup (map name (run zero minus calls [])).
Proof.
  unfold run.
  assert (H : forall ts : list (timer_dict num), List.NoDup (map name ts) ->
            List.NoDup (map name
              (fold_left (fun ts c => after zero minus c ts) calls ts))).
  { induction calls as [|c calls IH]; intros ts Hnd; [exact Hnd|].
    cbn [fold_left]. apply IH. now apply names_after. }
  apply H. constructor.
Qed.

Lemma get_timer_after_other n (c : call num) (ts : list (timer_dict num)) :
  call_name c <> n ->
  get_timer n (after zero minus c ts) = get_timer n ts.
Proof.
  intros Hne.
  destruct c as [m now | m now]; cbn [after call_name] in *.
  - unfold start_timer.
    destruct (get_timer m ts) as [|t [|t' rest]] eqn:Hg; cbn [snd].
    + unfold add_timer. rewrite get_timer_app. unfold get_timer at 2.
      cbn [List.filter name].
      replace (String.eqb m n) with false
        by (symmetry; now apply String.eqb_neq).
      now rewrite List.app_nil_r.
    + apply get_timer_assign_other; [reflexivity | congruence].
    + unfold add_timer. rewrite get_timer_app. unfold get_timer at 2.
      cbn [List.filter name].
      replace (String.eqb m n) with false
        by (symmetry; now apply String.eqb_neq).
      now rewrite List.app_nil_r.
  - unfold end_timer.
    destruct (get_timer m ts) as [|t [|t' rest]] eqn:Hg; cbn [snd fst];
      [reflexivity | | reflexivity].
    apply get_timer_assign_other; [reflexivity | congruence].
Qed.

Lemma get_timer_run_others n (calls : list (call num)) (ts : list (timer_dict num)) :
  Forall (fun c => call_name c <> n) calls ->
  get_timer n (run zero minus calls ts) = get_timer n ts.
Proof.
  unfold run. intros Hall. revert ts.
  induction Hall as [|c calls Hc _ IH]; intros ts; [reflexivity|].
  cbn [fold_left]. rewrite IH. now apply get_timer_after_other.
Qed.

Lemma get_timer_started n now (ts : list (timer_dict num)) :
  length (get_timer n ts) <= 1 ->
  exists elapsed,
    start_timer zero n now ts
    = (Timer n now now elapsed, snd (start_timer zero n now ts))
    /\ get_timer n (snd (start_timer zero n now ts))
       = [Timer n now now elapsed]
    /\ (elapsed = match get_timer n ts with
                  | [prev] => elapsed_time prev
                  | _ => zero
                  end).
Proof.
  intros Hlen. unfold start_timer.
  destruct (get_timer n ts) as [|t [|t' rest]] eqn:Hg; cbn [snd].
  - exists zero. split; [reflexivity|]. split; [|reflexivity].
    unfold add_timer. rewrite get_timer_app, Hg. unfold get_timer.
    cbn [List.filter name]. now rewrite String.eqb_refl.
  - assert (Hn : name t = n).
    { apply (get_timer_names n ts t). rewrite Hg. now left. }
    exists (elapsed_time t). rewrite Hn.
    split; [reflexivity|]. split; [|reflexivity].
    rewrite (get_timer_assign n _ ts t []); [now rewrite Hn| reflexivity | exact Hg].
  - cbn in Hlen. lia.
Qed.

(** X27: a timer started when at most one timer has its name, and ended
    after any calls for timers of other names, measures from its start
    to its end: [end_timer] returns the end time minus the start
    time. *)
Theorem timer_measures_start_to_end
    (timer_name : string) (started ended : num)
    (others : list (call num)) (_timers : list (timer_dict num)) :
  length (get_timer timer_name _timers) <= 1 ->
  Forall (fun c => call_name c <> timer_name) others ->
  fst (fst (end_timer minus timer_name ended
         (run zero minus others
            (snd (start_timer zero timer_name started _timers)))))
  = Some (minus ended started).
Proof.
  intros Hlen Hothers.
  destruct (get_timer_started timer_name started _timers Hlen)
    as (elapsed & _ & Hg & _).
  unfold end_timer. rewrite (get_timer_run_others _ _ _ Hothers), Hg.
  reflexivity.
Qed.

Lemma length_get_timer_assign n m (new : (timer_dict num) -> (timer_dict num)) (ts : list (timer_dict num)) :
  (forall t, name (new t) = name t) ->
  length (get_timer n (assign m new ts)) = length (get_timer n ts).
Proof.
  intros Hnew. induction ts as [|t ts IH]; [reflexivity|].
  cbn [assign]. destruct (String.eqb (name t) m) eqn:Ht.
  - unfold get_timer. cbn [List.filter]. rewrite Hnew.
    now destruct (String.eqb (name t) n).
  - unfold get_timer in *. cbn [List.filter].
    destruct (String.eqb (name t) n); cbn [length]; now rewrite IH.
Qed.

Lemma length_get_timer_after n (c : call num) (ts : list (timer_dict num)) :
  length (get_timer n ts) <= length (get_timer n (after zero minus c ts)).
Proof.
  destruct c as [m now | m now]; cbn [after].
  - unfold start_timer.
    destruct (get_timer m ts) as [|t [|t' rest]] eqn:Hg; cbn [snd].
    + unfold add_timer. rewrite get_timer_app, List.length_app. lia.
    + now rewrite length_get_timer_assign.
    + unfold add_timer. rewrite get_timer_app, List.length_app. lia.
  - unfold end_timer.
    destruct (get_timer m ts) as [|t [|t' rest]] eqn:Hg; cbn [snd fst];
      [lia | | lia].
    now rewrite length_get_timer_assign.
Qed.

Lemma length_get_timer_run n (calls : list (call num)) (ts : list (timer_dict num)) :
  length (get_timer n ts) <= length (get_timer n (run zero minus calls ts)).
Proof.
  unfold run. revert ts. induction calls as [|c calls IH]; intros ts; [reflexivity|].
  cbn [fold_left]. etransitivity; [apply (length_get_timer_after n c)|apply IH].
Qed.

(** X28: once two timers have one name, as [add_timer] can leave them,
    no call of [start_timer] or [end_timer] repairs it: [end_timer] of
    that name returns [None], prints that the timer is not found and
    changes nothing. *)
Theorem doubled_timer_is_never_found
    (timer_name : string) (now : num)
    (calls : list (call num)) (_timers : list (timer_dict num)) :
  2 <= length (get_timer timer_name _timers) ->
  end_timer minus timer_name now (run zero minus calls _timers)
  = (None, run zero minus calls _timers,
     Some ("Timer  " ++ timer_name ++ "  not found")%string).
Proof.
  intros Hlen.
  pose proof (length_get_timer_run timer_name calls _timers) as Hrun.
  unfold end_timer.
  destruct (get_timer timer_name (run zero minus calls _timers))
    as [|t [|t' rest]]; cbn [length] in Hrun; try lia; reflexivity.
Qed.

(** X29: starting a timer again resets [start_time] and [end_time] only:
    the timer returned still has the [elapsed_time] measured
    before. *)
Theorem restarted_timer_keeps_its_elapsed_time
    (timer_name : string) (started ended restarted : num)
    (_timers : list (timer_dict num)) :
  length (get_timer timer_name _timers) <= 1 ->
  fst (start_timer zero timer_name restarted
         (snd (fst (end_timer minus timer_name ended
            (snd (start_timer zero timer_name started _timers))))))
  = Timer timer_name restarted restarted (minus ended started).
Proof.
  intros Hlen.
  destruct (get_timer_started timer_name started _timers Hlen)
    as (elapsed & _ & Hg & _).
  set (ts1 := snd (start_timer zero timer_name started _timers)) in *.
  unfold end_timer. rewrite Hg. cbn [fst snd].
  unfold start_timer.
  match goal with
  | |- context [assign ?n ?new ts1] =>
      rewrite (get_timer_assign n new ts1 _ [] (fun _ => eq_refl) Hg)
  end.
  reflexivity.
Qed.

End AdapterTimer_properties.

Lemma timer_measures_start_to_end_run :
  fst (fst (AdapterTimer.end_timer Z.sub "run" 25%Z
         (AdapterTimer.run 0%Z Z.sub
            [AdapterTimer.Start "load" 12%Z; AdapterTimer.End "load" 20%Z]
            (snd (AdapterTimer.start_timer 0%Z "run" 10%Z [])))))
  = Some (25 - 10)%Z.
Proof.
  apply (timer_measures_start_to_end 0%Z Z.sub "run" 10%Z 25%Z
           [AdapterTimer.Start "load" 12%Z; AdapterTimer.End "load" 20%Z] []).
  - simpl. lia.
  - repeat constructor; discriminate.
Defined.

Lemma doubled_timer_is_never_found_run :
  AdapterTimer.end_timer Z.sub "run" 9%Z
    (AdapterTimer.run 0%Z Z.sub [AdapterTimer.Start "run" 5%Z] doubled_timers)
  = (None,
     AdapterTimer.run 0%Z Z.sub [AdapterTimer.Start "run" 5%Z] doubled_timers,
     Some ("Timer  " ++ "run" ++ "  not found")%string).
Proof.
  apply (doubled_timer_is_never_found 0%Z Z.sub "run" 9%Z
           [AdapterTimer.Start "run" 5%Z] doubled_timers).
  simpl. lia.
Defined.

Lemma restarted_timer_keeps_its_elapsed_time_run :
  fst (AdapterTimer.start_timer 0%Z "run" 40%Z
         (snd (fst (AdapterTimer.end_timer Z.sub "run" 25%Z
            (snd (AdapterTimer.start_timer 0%Z "run" 10%Z []))))))
  = AdapterTimer.Timer "run" 40%Z 40%Z (25 - 10)%Z.
Proof.
  apply (restarted_timer_keeps_its_elapsed_time 0%Z Z.sub "run" 10%Z 25%Z 40%Z []).
  simpl. lia.
Defined.
